(** * anytest: the computation and validation layer, verified

    A shallow embedding of [src/analyzer.py] (class [StatisticalAnalyzer]),
    [src/validator.py] (class [DataValidator]) and the click handler of
    [src/ui_manager.py].

    - The libraries the program calls are not part of it.  numpy's mean and
      standard deviation are written out, with numpy's pairwise summation;
      scipy's and sympy's functions, the C library's [pow], the built-in
      [sorted] and the number formatting are parameters.

    - Python [float] is IEEE 754 binary64: Rocq's primitive [float].
    - Python [str] is a [string] whose characters are code points below 256;
      text the program itself prints is kept as the UTF-8 bytes of the
      source literal.
    - A Python [dict] with string keys is a [gmap string pyval]; a [set] of
      strings is a [gset string].
    - A Python exception is a value of [exn], threaded by the monad [py]. *)

From Stdlib Require Import ZArith Lia Bool List Ascii String.
From Stdlib Require Import Floats.
From stdpp Require Import base option list strings gmap.
Import ListNotations.

Set Warnings "-inexact-float".

Local Open Scope string_scope.
Local Open Scope list_scope.
Local Open Scope Z_scope.

(** ** Python exceptions and the exception monad *)

(** [ComplexNumber] is no exception of Python.  It stands for the one
    computation this development does not follow: a negative number raised to
    a fractional power, which Python answers with a complex number. *)
Inductive exn : Type :=
| ZeroDivisionError
| IndexError
| TypeError
| KeyError (key : string)
| ValueError (message : string)
| OverflowError
| ComplexNumber.

Inductive py (A : Type) : Type :=
| Ok (a : A)
| Raise (e : exn).
Arguments Ok {A} a.
Arguments Raise {A} e.

#[global] Instance py_ret : MRet py := fun A a => Ok a.

#[global] Instance py_bind : MBind py := fun A B k m =>
  match m with
  | Ok a => k a
  | Raise e => Raise e
  end.

Definition returns {A : Type} (m : py A) : Prop := exists a, m = Ok a.

(** ** Floating point numbers *)

Module F.

Definition zero : float := 0%float.

(** [float(n)] / [np.float64(n)] for a length [n]. *)
Definition of_nat (n : nat) : float :=
  PrimFloat.of_uint63 (Uint63.of_Z (Z.of_nat n)).

(** Python's [a / b] on two floats: raises on a zero divisor, of either
    sign. *)
Definition py_div (a b : float) : py float :=
  if PrimFloat.eqb b zero then Raise ZeroDivisionError
  else Ok (PrimFloat.div a b).

(** Python's [a > b]. *)
Definition gtb (a b : float) : bool := PrimFloat.ltb b a.

(** Python's two-argument [max(a, b)]: the first argument is kept unless
    the second is strictly greater. *)
Definition py_max (a b : float) : float :=
  if gtb b a then b else a.

Definition is_nan (x : float) : bool := negb (PrimFloat.eqb x x).

Definition is_inf (x : float) : bool := PrimFloat.eqb (PrimFloat.abs x) infinity.

(** [w == floor(w)]: the value [m * 2^e] of a finite [w] is a whole
    number. *)
Definition is_integer (w : float) : bool :=
  match Prim2SF w with
  | S754_zero _ | S754_infinity _ => true
  | S754_finite _ m e => (0 <=? e) || (Z.pos m mod 2 ^ (- e) =? 0)
  | S754_nan => false
  end.

(** [fmod(fabs(w), 2.0) == 1.0]: [w] is an odd whole number. *)
Definition is_odd_integer (w : float) : bool :=
  match Prim2SF w with
  | S754_finite _ m e =>
      if 0 <? e then false
      else (Z.pos m mod 2 ^ (- e) =? 0) && Z.odd (Z.pos m / 2 ^ (- e))
  | _ => false
  end.

(** Python's [v ** w] on two floats, as [float_pow] computes it.  The
    special cases are settled first, in this order; what is left, a finite
    positive base other than 1 with a finite exponent other than 0, goes to
    the C library's [pow], and an infinite answer is reported as
    [OverflowError]. *)
Definition py_pow (pow : float -> float -> float) (v w : float) : py float :=
  if PrimFloat.eqb w zero then Ok 1%float
  else if is_nan v then Ok v
  else if is_nan w then Ok (if PrimFloat.eqb v 1 then 1%float else w)
  else if is_inf w then
    let iv := PrimFloat.abs v in
    if PrimFloat.eqb iv 1 then Ok 1%float
    else if Bool.eqb (PrimFloat.ltb zero w) (PrimFloat.ltb 1 iv)
    then Ok (PrimFloat.abs w)
    else Ok zero
  else if is_inf v then
    if PrimFloat.ltb zero w
    then Ok (if is_odd_integer w then v else PrimFloat.abs v)
    else Ok (if is_odd_integer w && PrimFloat.ltb v zero then (- zero)%float
             else zero)
  else if PrimFloat.eqb v zero then
    if PrimFloat.ltb w zero then Raise ZeroDivisionError
    else Ok (if is_odd_integer w then v else zero)
  else if PrimFloat.ltb v zero && negb (is_integer w) then Raise ComplexNumber
  else
    let negate_result := PrimFloat.ltb v zero && is_odd_integer w in
    let iv := if PrimFloat.ltb v zero then (- v)%float else v in
    if PrimFloat.eqb iv 1 then Ok (if negate_result then (-1)%float else 1%float)
    else
      let ix := pow iv w in
      let ix := if negate_result then (- ix)%float else ix in
      if is_inf ix then Raise OverflowError else Ok ix.

End F.

(** ** Python lists *)

(** [l[i]] with Python's negative indices. *)
Definition py_index {A : Type} (l : list A) (i : Z) : py A :=
  let n := Z.of_nat (length l) in
  let j := if i <? 0 then i + n else i in
  if (j <? 0) || (n <=? j) then Raise IndexError
  else match nth_error l (Z.to_nat j) with
       | Some x => Ok x
       | None => Raise IndexError
       end.

(** [sorted(data)] on a list of floats without NaN.  CPython sorts with [<]
    alone and is stable; without NaN, [<] orders the values, and every stable
    sort returns the list computed here by stable insertion.  (With a NaN in
    the list the arrangement CPython leaves depends on its algorithm; the
    analyzer below takes the sorting function as a parameter.) *)
Fixpoint insert_sorted (x : float) (l : list float) : list float :=
  match l with
  | [] => [x]
  | y :: l' => if PrimFloat.ltb x y then x :: y :: l' else y :: insert_sorted x l'
  end.

Definition py_sorted (data : list float) : list float :=
  fold_left (fun acc x => insert_sorted x acc) data [].

(** A sample without NaN, and a list in ascending order. *)
Definition no_nan (data : list float) : Prop :=
  Forall (fun x => F.is_nan x = false) data.

Inductive ascending : list float -> Prop :=
| ascending_nil : ascending []
| ascending_one x : ascending [x]
| ascending_cons x y l :
    PrimFloat.leb x y = true -> ascending (y :: l) -> ascending (x :: y :: l).

(** ** Values held by a result dictionary *)

Inductive pyval : Type :=
| VFloat (f : float)
| VInt (z : Z)
| VStr (s : string)
| VDerivs (ds : list (string * string)).

(** ** [StatisticalAnalyzer.perform_qtest] *)

Definition q_critical_values : gmap nat float :=
  list_to_map
    [ (3%nat, 0.970%float); (4%nat, 0.829%float); (5%nat, 0.710%float);
      (6%nat, 0.625%float); (7%nat, 0.568%float); (8%nat, 0.526%float);
      (9%nat, 0.493%float); (10%nat, 0.466%float) ].

Section Qtest.

(** The built-in [sorted]. *)
Variable sorted : list float -> list float.

Definition perform_qtest (data : list float) (confidence_level : float)
  : py (gmap string pyval) :=
  let sorted_data := sorted data in
  let n := length sorted_data in
  x1 ← py_index sorted_data 1;
  x0 ← py_index sorted_data 0;
  xl ← py_index sorted_data (-1);
  q_stat ← F.py_div (PrimFloat.abs (x1 - x0)) (PrimFloat.abs (xl - x0));
  xl2 ← py_index sorted_data (-2);
  q_stat_end ← F.py_div (PrimFloat.abs (xl - xl2)) (PrimFloat.abs (xl - x0));
  let q_stat := F.py_max q_stat q_stat_end in
  match q_critical_values !! (Nat.min n 10) with
  | None => Raise TypeError
  | Some q_critical =>
      let is_outlier := if F.gtb q_stat q_critical then 1 else 0 in
      Ok (<["q_statistic" := VFloat q_stat]>
          (<["q_critical" := VFloat q_critical]>
           (<["is_outlier" := VInt is_outlier]> ∅)))
  end.

(** The same computation as the specification words it: on the sorted sample
    [x] of size [n], the low-end and high-end gaps over the range, the larger
    of the two ratios, and the fixed table read at [min n 10]. *)

Definition critical_value (n : nat) : option float :=
  match Nat.min n 10 with
  | 3%nat => Some 0.970%float
  | 4%nat => Some 0.829%float
  | 5%nat => Some 0.710%float
  | 6%nat => Some 0.625%float
  | 7%nat => Some 0.568%float
  | 8%nat => Some 0.526%float
  | 9%nat => Some 0.493%float
  | 10%nat => Some 0.466%float
  | _ => None
  end.

Definition at_ (x : list float) (i : nat) : float := nth i x F.zero.

Definition sample_range (x : list float) : float :=
  PrimFloat.abs (at_ x (length x - 1) - at_ x 0).

Definition low_ratio (x : list float) : float :=
  (PrimFloat.abs (at_ x 1 - at_ x 0) / sample_range x)%float.

Definition high_ratio (x : list float) : float :=
  (PrimFloat.abs (at_ x (length x - 1) - at_ x (length x - 2)) / sample_range x)%float.

Definition q_statistic (x : list float) : float :=
  F.py_max (low_ratio x) (high_ratio x).

(** The statistic with the maximum taken over the two gaps before the
    division, [max(|x[1]-x[0]|, |x[n-1]-x[n-2]|) / |x[n-1]-x[0]|]. *)
Definition q_statistic_gaps_first (x : list float) : float :=
  (F.py_max (PrimFloat.abs (at_ x 1 - at_ x 0))
            (PrimFloat.abs (at_ x (length x - 1) - at_ x (length x - 2)))
   / sample_range x)%float.

Definition outlier_result (q crit : float) : gmap string pyval :=
  <["q_statistic" := VFloat q]>
    (<["q_critical" := VFloat crit]>
       (<["is_outlier" := VInt (if PrimFloat.ltb crit q then 1 else 0)]> ∅)).

(** A sample has zero range when the first and last elements of its sorted
    form cancel. *)
Definition zero_range (data : list float) : bool :=
  PrimFloat.eqb (sample_range (sorted data)) F.zero.

End Qtest.

(** ** Python strings *)

Definition code (c : ascii) : N := N_of_ascii c.

(** [str.isspace] and [str.split] agree on what a whitespace character is:
    tab to carriage return, the four separators FS..US, space, NEL and the
    no-break space. *)
Definition is_space (c : ascii) : bool :=
  let n := code c in
  ((9 <=? n) && (n <=? 13) || (28 <=? n) && (n <=? 32)
   || (n =? 133) || (n =? 160))%N.

Fixpoint all_space (s : string) : bool :=
  match s with
  | EmptyString => true
  | String c s' => is_space c && all_space s'
  end.

(** [text.isspace()]: every character is whitespace and there is at least
    one. *)
Definition isspace (text : string) : bool :=
  match text with
  | EmptyString => false
  | _ => all_space text
  end.

(** [text.split()]: the maximal runs of non-whitespace characters, in order.
    [cur] is the run being read. *)
Fixpoint split_from (cur : string) (s : string) : list string :=
  match s with
  | EmptyString => if String.eqb cur "" then [] else [cur]
  | String c s' =>
      if is_space c
      then if String.eqb cur "" then split_from "" s'
           else cur :: split_from "" s'
      else split_from (cur +:+ String c "") s'
  end.

Definition py_split (text : string) : list string := split_from "" text.

(** A token is a non-empty text without whitespace; a separator is a
    non-empty text of whitespace only. *)
Fixpoint no_space (s : string) : bool :=
  match s with
  | EmptyString => true
  | String c s' => negb (is_space c) && no_space s'
  end.

Definition is_token (s : string) : bool := negb (String.eqb s "") && no_space s.

Definition is_separator (s : string) : bool := negb (String.eqb s "") && all_space s.

Definition is_digit (c : ascii) : bool :=
  ((48 <=? code c) && (code c <=? 57))%N.

Definition is_letter (c : ascii) : bool :=
  ((65 <=? code c) && (code c <=? 90) || (97 <=? code c) && (code c <=? 122))%N.

Definition is_underscore (c : ascii) : bool := (code c =? 95)%N.

(** The character classes [[a-zA-Z_]] and [[a-zA-Z0-9_]]. *)
Definition ident_start (c : ascii) : bool := is_letter c || is_underscore c.
Definition ident_char (c : ascii) : bool :=
  is_letter c || is_digit c || is_underscore c.

(** [[a-zA-Z0-9_]*$]: identifier characters up to the end of the string; [$]
    also matches just before a newline that ends the string. *)
Fixpoint ident_tail (s : string) : bool :=
  match s with
  | EmptyString => true
  | String c s' =>
      if ident_char c then ident_tail s'
      else (code c =? 10)%N && String.eqb s' ""
  end.

(** [re.compile(r'^[a-zA-Z_][a-zA-Z0-9_]*$').match(var)] as a truth value. *)
Definition variable_pattern_match (var : string) : bool :=
  match var with
  | EmptyString => false
  | String c s' => ident_start c && ident_tail s'
  end.

(** [re.findall(r'[a-zA-Z_][a-zA-Z0-9_]*', s)]: scanning left to right, each
    match starts at the first identifier-start character not yet consumed and
    runs as far as identifier characters go.  [cur] is the match being read. *)
Fixpoint findall_from (cur : option string) (s : string) : list string :=
  match s with
  | EmptyString => match cur with Some tok => [tok] | None => [] end
  | String c s' =>
      match cur with
      | Some tok =>
          if ident_char c then findall_from (Some (tok +:+ String c "")) s'
          else tok :: findall_from None s'
      | None =>
          if ident_start c then findall_from (Some (String c "")) s'
          else findall_from None s'
      end
  end.

Definition findall_identifiers (s : string) : list string := findall_from None s.

(** [s.count(c)] for a single character. *)
Fixpoint count_char (c : ascii) (s : string) : nat :=
  match s with
  | EmptyString => 0%nat
  | String c' s' => ((if Ascii.eqb c c' then 1 else 0) + count_char c s')%nat
  end.

(** ** [float(token)] *)

Module PyFloat.

(** The decimal number [(-1)^neg * m * 10^e10] rounded to the nearest
    binary64, ties to even, as [float()] rounds. *)
Definition of_decimal (neg : bool) (m : Z) (e10 : Z) : float :=
  SF2Prim
    match m with
    | Zpos _ =>
        if 0 <=? e10
        then binary_normalize prec emax
               (if neg then - (m * 10 ^ e10) else m * 10 ^ e10) 0 false
        else
          let '(q, e, l) := SFdiv_core_binary prec emax m 0 (10 ^ (- e10)) 0 in
          binary_round_aux prec emax neg q e l
    | _ => S754_zero neg
    end.

Definition digit_value (c : ascii) : option Z :=
  if is_digit c then Some (Z.of_N (code c) - 48) else None.

(** Reads the rest of a [digitpart] after its first digit: digits, each
    optionally preceded by one underscore.  Returns the accumulated value,
    the number of digits read and the unread text. *)
Fixpoint digits_rest (acc : Z) (cnt : Z) (s : string) : Z * Z * string :=
  match s with
  | EmptyString => (acc, cnt, s)
  | String c s' =>
      match digit_value c with
      | Some d => digits_rest (10 * acc + d) (cnt + 1) s'
      | None =>
          if is_underscore c then
            match s' with
            | String c2 s'' =>
                match digit_value c2 with
                | Some d => digits_rest (10 * acc + d) (cnt + 1) s''
                | None => (acc, cnt, s)
                end
            | EmptyString => (acc, cnt, s)
            end
          else (acc, cnt, s)
      end
  end.

(** [digitpart ::= digit (["_"] digit)*], continuing from [acc]. *)
Definition digitpart (acc : Z) (s : string) : option (Z * Z * string) :=
  match s with
  | String c s' =>
      match digit_value c with
      | Some d => Some (digits_rest (10 * acc + d) 1 s')
      | None => None
      end
  | EmptyString => None
  end.

Definition lower (c : ascii) : ascii :=
  if ((65 <=? code c) && (code c <=? 90))%N
  then ascii_of_N (code c + 32) else c.

Fixpoint lowercase (s : string) : string :=
  match s with
  | EmptyString => EmptyString
  | String c s' => String (lower c) (lowercase s')
  end.

(** [exponent ::= ("e" | "E") [sign] digitpart], to the end of the text. *)
Definition exponent (s : string) : option Z :=
  match s with
  | EmptyString => Some 0
  | String c s' =>
      if Ascii.eqb (lower c) "e" then
        let '(neg, s1) :=
          match s' with
          | String "-" r => (true, r)
          | String "+" r => (false, r)
          | _ => (false, s')
          end in
        match digitpart 0 s1 with
        | Some (e, _, EmptyString) => Some (if neg then - e else e)
        | _ => None
        end
      else None
  end.

(** [number ::= [digitpart] "." digitpart | digitpart ["."]], then the
    optional exponent.  Returns the mantissa and the decimal exponent. *)
Definition floatnumber (s : string) : option (Z * Z) :=
  match s with
  | String "." s' =>
      match digitpart 0 s' with
      | Some (m, k, r) =>
          match exponent r with
          | Some e => Some (m, e - k)
          | None => None
          end
      | None => None
      end
  | _ =>
      match digitpart 0 s with
      | Some (m, _, String "." r) =>
          match digitpart m r with
          | Some (m', k, r') =>
              match exponent r' with
              | Some e => Some (m', e - k)
              | None => None
              end
          | None =>
              match exponent r with
              | Some e => Some (m, e)
              | None => None
              end
          end
      | Some (m, _, r) =>
          match exponent r with
          | Some e => Some (m, e)
          | None => None
          end
      | None => None
      end
  end.

Definition absfloatvalue (neg : bool) (s : string) : option float :=
  let w := lowercase s in
  if String.eqb w "inf" || String.eqb w "infinity"
  then Some (if neg then neg_infinity else infinity)
  else if String.eqb w "nan" then Some nan
  else match floatnumber s with
       | Some (m, e10) => Some (of_decimal neg m e10)
       | None => None
       end.

(** [float(token)] on a token without whitespace; [None] is [ValueError]. *)
Definition parse (token : string) : option float :=
  match token with
  | String "-" s => absfloatvalue true s
  | String "+" s => absfloatvalue false s
  | _ => absfloatvalue false token
  end.

End PyFloat.

(** ** [DataValidator] *)

(** The validator reports a failure as [(False, None, message)].  Each
    message of the source is one constructor here:
    - [EmptyInput]: "データが入力されていません。"
    - [NoValidNumber]: "有効な数値が入力されていません。"
    - [ParseError]: "無効な入力があります。数値のみを入力してください。"
    - [InsufficientSampleSize]: "Qテストには最低3つのデータが必要です。" and
      "信頼区間の計算には最低1つのデータが必要です。"
    - [InvalidOperation]: "不正なテスト種別です。"
    - [MissingField]: "すべての入力フィールドを入力してください。"
    - [LengthMismatch]: "変数名、値、誤差の数が一致していません。"
    - [InvalidVariableName var]: "無効な変数名です: {var}"
    - [NonPositiveUncertainty]: "誤差は正の値である必要があります。"
    - [UndefinedVariable vars]: "関数式で未定義の変数が使用されています: "
      followed by the members of the set [vars], joined by ", "
    - [UnbalancedParentheses]: "関数式の括弧の対応が正しくありません。" *)
Inductive validation_error : Type :=
| EmptyInput
| NoValidNumber
| ParseError
| InsufficientSampleSize
| InvalidOperation
| MissingField
| LengthMismatch
| InvalidVariableName (var : string)
| NonPositiveUncertainty
| UndefinedVariable (vars : gset string)
| UnbalancedParentheses.

(** [(True, a, None)] is [Valid a]; [(False, None, message)] is [Invalid]. *)
Inductive verdict (A : Type) : Type :=
| Valid (a : A)
| Invalid (e : validation_error).
Arguments Valid {A} a.
Arguments Invalid {A} e.

(** [[float(x) for x in values]]: the first token that is not a number
    raises [ValueError]. *)
Fixpoint floats_of (values : list string) : option (list float) :=
  match values with
  | [] => Some []
  | x :: values' =>
      match PyFloat.parse x with
      | None => None
      | Some f =>
          match floats_of values' with
          | None => None
          | Some fs => Some (f :: fs)
          end
      end
  end.

Definition validate_input (text : string) : verdict (list float) :=
  if String.eqb text "" || isspace text then Invalid EmptyInput
  else
    let values := py_split text in
    match floats_of values with
    | Some numbers =>
        match numbers with
        | [] => Invalid NoValidNumber
        | _ => Valid numbers
        end
    | None => Invalid ParseError
    end.

Definition check_data_requirements (data : list float) (test_type : string)
  : verdict unit :=
  if String.eqb test_type "qtest" then
    if (length data <? 3)%nat then Invalid InsufficientSampleSize else Valid tt
  else if String.eqb test_type "confidence_interval" then
    if (length data <? 1)%nat then Invalid InsufficientSampleSize else Valid tt
  else if String.eqb test_type "error_propagation" then Valid tt
  else Invalid InvalidOperation.

Definition is_nil {A : Type} (l : list A) : bool :=
  match l with [] => true | _ => false end.

(** The [for var in variables] loop: the first name the pattern rejects. *)
Fixpoint first_invalid_name (variables : list string) : option string :=
  match variables with
  | [] => None
  | var :: rest =>
      if variable_pattern_match var then first_invalid_name rest else Some var
  end.

Definition undefined_vars (variables : list string) (function_str : string)
  : gset string :=
  let function_vars : gset string := list_to_set (findall_identifiers function_str) in
  function_vars ∖ list_to_set variables.

Definition validate_error_propagation_inputs
    (variables : list string) (values errors : list float) (function_str : string)
  : verdict unit :=
  if is_nil variables || is_nil values || is_nil errors || String.eqb function_str ""
  then Invalid MissingField
  else if negb ((length variables =? length values)%nat
                && (length values =? length errors)%nat)
  then Invalid LengthMismatch
  else match first_invalid_name variables with
  | Some var => Invalid (InvalidVariableName var)
  | None =>
  if existsb (fun error => PrimFloat.leb error F.zero) errors
  then Invalid NonPositiveUncertainty
  else if negb (bool_decide (undefined_vars variables function_str = ∅))
  then Invalid (UndefinedVariable (undefined_vars variables function_str))
  else if negb (count_char "(" function_str =? count_char ")" function_str)%nat
  then Invalid UnbalancedParentheses
  else Valid tt
  end.

Definition split_data_for_ttest (data : list float) : list float * list float :=
  let mid := (length data / 2)%nat in
  (take mid data, drop mid data).

(** ** numpy *)

(** [np.mean], [np.std(ddof=1)] and [np.sqrt] on a list of floats.  numpy
    divides without raising, so an empty sum over zero elements is NaN. *)
Module Np.

(** numpy adds the elements of an array pairwise.  Fewer than eight elements
    are added from left to right, starting from zero.  Up to 128 elements are
    added in eight accumulators: [r[k]] starts as [a[k]] and collects every
    eighth element after it, for as long as a full row of eight is left; the
    accumulators are then joined as a balanced tree, and the elements left
    over are added one by one.  A longer array is cut in two, the first part
    being half of the length rounded down to a multiple of eight, and the
    sums of the two parts are added. *)

(** The loop [for (i = 8; i < n - (n % 8); i += 8)], over [rows] rows of
    eight. *)
Fixpoint add_rows (rows : nat) (r : list float) (a : list float)
  : list float * list float :=
  match rows with
  | O => (r, a)
  | S rows' => add_rows rows' (zip_with PrimFloat.add r (take 8 a)) (drop 8 a)
  end.

Definition block_sum (a : list float) : float :=
  let n := length a in
  let '(r, rest) := add_rows (n / 8 - 1) (take 8 a) (drop 8 a) in
  let r (k : nat) : float := nth k r F.zero in
  let res :=
    PrimFloat.add
      (PrimFloat.add (PrimFloat.add (r 0%nat) (r 1%nat))
                     (PrimFloat.add (r 2%nat) (r 3%nat)))
      (PrimFloat.add (PrimFloat.add (r 4%nat) (r 5%nat))
                     (PrimFloat.add (r 6%nat) (r 7%nat))) in
  fold_left PrimFloat.add rest res.

(** [fuel] bounds the depth of the recursion; the length of the array is
    enough. *)
Fixpoint pairwise_sum (fuel : nat) (a : list float) : float :=
  let n := length a in
  if (n <? 8)%nat then fold_left PrimFloat.add a F.zero
  else if (n <=? 128)%nat then block_sum a
  else
    match fuel with
    | O => F.zero
    | S fuel' =>
        let n2 := (n / 2)%nat in
        let n2 := (n2 - n2 mod 8)%nat in
        (pairwise_sum fuel' (take n2 a) + pairwise_sum fuel' (drop n2 a))%float
    end.

(** [np.add.reduce]: the pairwise sum is added to the identity of the
    addition, zero. *)
Definition sum (a : list float) : float :=
  (F.zero + pairwise_sum (length a) a)%float.

Definition mean (a : list float) : float :=
  (sum a / F.of_nat (length a))%float.

Definition std_ddof1 (a : list float) : float :=
  let arrmean := mean a in
  let x := map (fun v => (v - arrmean)%float) a in
  let x := map (fun v => (v * v)%float) x in
  PrimFloat.sqrt (sum x / F.of_nat (length a - 1))%float.

Definition sqrt (x : float) : float := PrimFloat.sqrt x.

End Np.

(** ** [StatisticalAnalyzer]: confidence interval and t-test *)

Definition SizeMismatch : exn :=
  ValueError "対応2標本t検定では、両群のデータ数が同じである必要があります".

Definition InvalidTestType : exn :=
  ValueError "test_typeは'independent'または'paired'である必要があります".

Section Scipy.

(** [scipy.stats.t.ppf(q, df)], [scipy.stats.ttest_ind(a, b)] and
    [scipy.stats.ttest_rel(a, b)] on equal-length samples: the library's
    functions, which return NaN instead of raising. *)
Variable t_ppf : float -> Z -> float.
Variable ttest_ind : list float -> list float -> float * float.
Variable ttest_rel : list float -> list float -> float * float.

Definition calculate_confidence_interval
    (data : list float) (confidence_level : float) : py (gmap string pyval) :=
  let n := length data in
  let mean := Np.mean data in
  let std := Np.std_ddof1 data in
  let t_value := t_ppf ((1 + confidence_level) / 2)%float (Z.of_nat n - 1) in
  let se := (std / Np.sqrt (F.of_nat n))%float in
  let margin_of_error := (t_value * se)%float in
  let lower := (mean - margin_of_error)%float in
  let upper := (mean + margin_of_error)%float in
  Ok (<["mean" := VFloat mean]>
      (<["std" := VFloat std]>
       (<["lower" := VFloat lower]>
        (<["upper" := VFloat upper]>
         (<["confidence_level" := VFloat confidence_level]> ∅))))).

Definition perform_ttest (group1 group2 : list float) (test_type : string)
  : py (gmap string pyval) :=
  let mean1 := Np.mean group1 in
  let mean2 := Np.mean group2 in
  '(statistic, pvalue, dof) ←
    (if String.eqb test_type "independent" then
       let '(statistic, pvalue) := ttest_ind group1 group2 in
       Ok (statistic, pvalue,
           Z.of_nat (length group1) + Z.of_nat (length group2) - 2)
     else if String.eqb test_type "paired" then
       if negb (length group1 =? length group2)%nat then Raise SizeMismatch
       else
         let '(statistic, pvalue) := ttest_rel group1 group2 in
         Ok (statistic, pvalue, Z.of_nat (length group1) - 1)
     else Raise InvalidTestType);
  Ok (<["statistic" := VFloat statistic]>
      (<["pvalue" := VFloat pvalue]>
       (<["dof" := VInt dof]>
        (<["mean1" := VFloat mean1]>
         (<["mean2" := VFloat mean2]>
          (<["test_type" := VStr test_type]> ∅)))))).

End Scipy.

(** ** sympy *)

(** The symbolic library is not part of the repository: the four calls the
    analyzer makes are parameters of the model.  [expr] is what [sympify]
    returns; a symbol made by [symbols(name)] from an identifier is known by
    its name.
    - [sympify text]: [sympify(text)];
    - [subs e var_dict]: [float(e.subs(var_dict))];
    - [diff e symbol]: [diff(e, symbol)];
    - [sstr e]: [str(e)]. *)
Module Sympy.

Record library : Type := {
  expr : Type;
  sympify : string -> py expr;
  subs : expr -> gmap string float -> py float;
  diff : expr -> string -> py expr;
  sstr : expr -> string
}.

End Sympy.

(** ** [StatisticalAnalyzer.calculate_error_propagation] *)

(** [SympifyError], a subclass of [ValueError]. *)
Definition SympifyError : exn := ValueError "SympifyError".

(** [dict(zip(symbol_list, values))]: a later pair replaces an earlier one
    with the same name. *)
Definition make_var_dict (variables : list string) (values : list float)
  : gmap string float :=
  fold_left (fun d kv => <[kv.1 := kv.2]> d) (zip variables values) ∅.

Section ErrorPropagation.

(** sympy, and the [pow] of the C library. *)
Variable sp : Sympy.library.
Variable pow : float -> float -> float.

(** The loop [for symbol, error in zip(symbol_list, errors)], carrying
    [total] and [derivatives]. *)
Fixpoint propagate (func : Sympy.expr sp) (var_dict : gmap string float)
    (pairs : list (string * float))
    (total : float) (derivatives : list (string * string))
  : py (float * list (string * string)) :=
  match pairs with
  | [] => Ok (total, derivatives)
  | (symbol, error) :: pairs' =>
      partial_derivative ← Sympy.diff sp func symbol;
      let derivatives :=
        derivatives ++ [(symbol, Sympy.sstr sp partial_derivative)] in
      derivative_value ← Sympy.subs sp partial_derivative var_dict;
      square ← F.py_pow pow (derivative_value * error)%float 2%float;
      propagate func var_dict pairs' (total + square)%float derivatives
  end.

Definition calculate_error_propagation
    (variables : list string) (values errors : list float) (function_str : string)
  : py (gmap string pyval) :=
  func ← Sympy.sympify sp function_str;
  let var_dict := make_var_dict variables values in
  function_value ← Sympy.subs sp func var_dict;
  let func_str := Sympy.sstr sp func in
  '(total, derivatives) ←
    propagate func var_dict (zip variables errors) F.zero [];
  propagated_error ← F.py_pow pow total 0.5%float;
  let relative_error :=
    if negb (PrimFloat.eqb function_value F.zero)
    then (propagated_error / PrimFloat.abs function_value * 100)%float
    else infinity in
  Ok (<["function_value" := VFloat function_value]>
      (<["propagated_error" := VFloat propagated_error]>
       (<["relative_error" := VFloat relative_error]>
        (<["original_function" := VStr func_str]>
         (<["derivatives" := VDerivs derivatives]> ∅))))).

End ErrorPropagation.

(** ** [StatisticalAnalyzer.format_results] *)

Definition nl : string := String (ascii_of_N 10) "".

(** [results[key]]. *)
Definition getitem (results : gmap string pyval) (key : string) : py pyval :=
  match results !! key with
  | Some v => Ok v
  | None => Raise (KeyError key)
  end.

(** [v == "independent"]-style comparison with a string: only a string can be
    equal to it. *)
Definition py_eq_str (v : pyval) (s : string) : bool :=
  match v with
  | VStr s' => String.eqb s' s
  | _ => false
  end.

(** [v < 0.05].  An integer is below 0.05 exactly when it is at most 0. *)
Definition py_lt_alpha (v : pyval) : py bool :=
  match v with
  | VFloat f => Ok (PrimFloat.ltb f 0.05%float)
  | VInt z => Ok (z <=? 0)
  | _ => Raise TypeError
  end.

(** Truth value of [v] in [if v]. *)
Definition truthy (v : pyval) : bool :=
  match v with
  | VFloat f => negb (PrimFloat.eqb f F.zero)
  | VInt z => negb (z =? 0)
  | VStr s => negb (String.eqb s "")
  | VDerivs ds => negb (is_nil ds)
  end.

Fixpoint repeat_string (s : string) (n : nat) : string :=
  match n with
  | O => ""
  | S n' => s +:+ repeat_string s n'
  end.

(** [v * 100]. *)
Definition py_times_100 (v : pyval) : pyval :=
  match v with
  | VFloat f => VFloat (f * 100)%float
  | VInt z => VInt (z * 100)
  | VStr s => VStr (repeat_string s 100)
  | VDerivs ds => VDerivs (concat (repeat ds 100))
  end.

Section Formatting.

(** The built-in conversions: [format(x, ".Nf")] of a float and of an
    integer, and [str(v)]. *)
Variable fmt_float : nat -> float -> string.
Variable fmt_int : nat -> Z -> string.
Variable str_of : pyval -> string.

(** A replacement field [{v:.Nf}]. *)
Definition format_f (precision : nat) (v : pyval) : py string :=
  match v with
  | VFloat f => Ok (fmt_float precision f)
  | VInt z => Ok (fmt_int precision z)
  | VStr _ => Raise (ValueError "Unknown format code 'f' for object of type 'str'")
  | VDerivs _ => Raise TypeError
  end.

(** [for deriv in results['derivatives']]: the lines of the list
    comprehension.  Iterating a non-empty string yields characters, which
    cannot be indexed by ['variable']. *)
Definition derivative_lines (v : pyval) : py (list string) :=
  match v with
  | VDerivs ds =>
      Ok (map (fun deriv => "diff f /diff " +:+ deriv.1 +:+ " = " +:+ deriv.2) ds)
  | VStr s => if String.eqb s "" then Ok [] else Raise TypeError
  | _ => Raise TypeError
  end.

Definition significance_label (significant : bool) : string :=
  if significant then "有意" else "非有意".

Definition format_results (results : gmap string pyval) (test_type : string)
  : py string :=
  if String.eqb test_type "ttest" then
    kind ← getitem results "test_type";
    let test_name :=
      if py_eq_str kind "independent" then "独立2標本t検定" else "対応2標本t検定" in
    pvalue ← getitem results "pvalue";
    below ← py_lt_alpha pvalue;
    let significance := significance_label below in
    mean1 ← getitem results "mean1" ≫= format_f 4;
    mean2 ← getitem results "mean2" ≫= format_f 4;
    statistic ← getitem results "statistic" ≫= format_f 4;
    dof ← getitem results "dof";
    pvalue ← getitem results "pvalue" ≫= format_f 4;
    Ok (test_name +:+ "結果:" +:+ nl
        +:+ "第1群平均 = " +:+ mean1 +:+ nl
        +:+ "第2群平均 = " +:+ mean2 +:+ nl
        +:+ "検定統計量 (t値) = " +:+ statistic +:+ nl
        +:+ "自由度 = " +:+ str_of dof +:+ nl
        +:+ "p値 = " +:+ pvalue +:+ nl
        +:+ "判定 (α=0.05): " +:+ significance)
  else if String.eqb test_type "qtest" then
    q_statistic ← getitem results "q_statistic" ≫= format_f 4;
    q_critical ← getitem results "q_critical" ≫= format_f 4;
    is_outlier ← getitem results "is_outlier";
    Ok ("Q検定結果:" +:+ nl
        +:+ "Q統計量 = " +:+ q_statistic +:+ nl
        +:+ "棄却限界値 = " +:+ q_critical +:+ nl
        +:+ "判定: " +:+ (if truthy is_outlier then "外れ値あり" else "外れ値なし"))
  else if String.eqb test_type "error_propagation" then
    lines ← getitem results "derivatives" ≫= derivative_lines;
    let derivatives_str := String.concat nl lines in
    original_function ← getitem results "original_function";
    function_value ← getitem results "function_value" ≫= format_f 6;
    propagated_error ← getitem results "propagated_error" ≫= format_f 6;
    relative_error ← getitem results "relative_error" ≫= format_f 2;
    Ok ("誤差伝播の計算結果:" +:+ nl
        +:+ "元の関数: " +:+ str_of original_function +:+ nl +:+ nl
        +:+ "偏微分:" +:+ nl +:+ derivatives_str +:+ nl +:+ nl
        +:+ "関数値 = " +:+ function_value +:+ nl
        +:+ "伝播誤差 = " +:+ propagated_error +:+ nl
        +:+ "相対誤差 = " +:+ relative_error +:+ "%")
  else
    confidence_level ← getitem results "confidence_level";
    let confidence_percent := py_times_100 confidence_level in
    mean ← getitem results "mean" ≫= format_f 4;
    std ← getitem results "std" ≫= format_f 4;
    percent ← format_f 1 confidence_percent;
    lower ← getitem results "lower" ≫= format_f 4;
    upper ← getitem results "upper" ≫= format_f 4;
    Ok ("信頼区間の計算結果:" +:+ nl
        +:+ "平均値 = " +:+ mean +:+ nl
        +:+ "標準偏差 = " +:+ std +:+ nl
        +:+ percent +:+ "%信頼区間:" +:+ nl
        +:+ "下限 = " +:+ lower +:+ nl
        +:+ "上限 = " +:+ upper).

End Formatting.

(** The six checks of [validate_error_propagation_inputs] as the
    specification lists them, each as a predicate on the inputs, and the
    order in which they are listed. *)
Inductive check : Type :=
| CheckMissingField
| CheckLengthMismatch
| CheckInvalidVariableName
| CheckNonPositiveUncertainty
| CheckUndefinedVariable
| CheckUnbalancedParentheses.

Definition checks_in_order : list check :=
  [ CheckMissingField; CheckLengthMismatch; CheckInvalidVariableName;
    CheckNonPositiveUncertainty; CheckUndefinedVariable;
    CheckUnbalancedParentheses ].

Definition check_fails (c : check)
    (variables : list string) (values errors : list float) (function_str : string)
  : bool :=
  match c with
  | CheckMissingField =>
      is_nil variables || is_nil values || is_nil errors || String.eqb function_str ""
  | CheckLengthMismatch =>
      negb ((length variables =? length values)%nat
            && (length values =? length errors)%nat)
  | CheckInvalidVariableName =>
      existsb (fun var => negb (variable_pattern_match var)) variables
  | CheckNonPositiveUncertainty =>
      existsb (fun error => PrimFloat.leb error F.zero) errors
  | CheckUndefinedVariable =>
      existsb (fun name => negb (bool_decide (name ∈ variables)))
              (findall_identifiers function_str)
  | CheckUnbalancedParentheses =>
      negb (count_char "(" function_str =? count_char ")" function_str)%nat
  end.

(** The check a failure belongs to. *)
Definition failed_check {A : Type} (v : verdict A) : option check :=
  match v with
  | Invalid MissingField => Some CheckMissingField
  | Invalid LengthMismatch => Some CheckLengthMismatch
  | Invalid (InvalidVariableName _) => Some CheckInvalidVariableName
  | Invalid NonPositiveUncertainty => Some CheckNonPositiveUncertainty
  | Invalid (UndefinedVariable _) => Some CheckUndefinedVariable
  | Invalid UnbalancedParentheses => Some CheckUnbalancedParentheses
  | _ => None
  end.

Definition is_valid {A : Type} (v : verdict A) : bool :=
  match v with Valid _ => true | Invalid _ => false end.

(** A specified float that is zero (of either sign) or NaN. *)
Definition sf_zero_or_nan (x : spec_float) : Prop :=
  match x with
  | S754_zero _ | S754_nan => True
  | _ => False
  end.

(** A float that is zero (of either sign) or NaN. *)
Definition zero_or_nan (x : float) : bool :=
  F.is_nan x || PrimFloat.eqb x F.zero.

(** The interval of a result is strict when [lower < mean < upper]. *)
Definition strictly_inside (r : gmap string pyval) : Prop :=
  exists lower mean upper : float,
    r !! "lower" = Some (VFloat lower) /\
    r !! "mean" = Some (VFloat mean) /\
    r !! "upper" = Some (VFloat upper) /\
    PrimFloat.ltb lower mean = true /\
    PrimFloat.ltb mean upper = true.

(** The formula the error propagation is specified by, with Python's
    powers: the squares [(derivative value * uncertainty) ** 2], added in
    the order of the variables starting from 0, and [** 0.5] of the sum. *)
Fixpoint py_squares (pow : float -> float -> float) (terms : list float)
  : py (list float) :=
  match terms with
  | [] => Ok []
  | term :: terms' =>
      square ← F.py_pow pow term 2%float;
      squares ← py_squares pow terms';
      Ok (square :: squares)
  end.


Definition root_sum_of_squares (pow : float -> float -> float)
    (derivative_values errors : list float) : py float :=
  squares ← py_squares pow (zip_with PrimFloat.mul derivative_values errors);
  F.py_pow pow (fold_left PrimFloat.add squares F.zero) 0.5%float.

(** ** Stand-ins for the library functions, to run the model on examples *)

(** A small symbolic evaluator, standing in for sympy on examples.  An
    expression is a syntax tree of constants, variables, unary and binary
    operations; substitution and differentiation are tree transformations.
    It reads the rational expressions: integer and decimal constants, names,
    [+ - * /], unary sign, [**] with a constant integer exponent,
    parentheses; it evaluates in binary64, without simplifying. *)
Module SmallSympy.

Inductive expr : Type :=
| EInt (z : Z)
| EFloat (f : float)
| EVar (name : string)
| ENeg (a : expr)
| EAdd (a b : expr)
| ESub (a b : expr)
| EMul (a b : expr)
| EDiv (a b : expr)
| EPow (a : expr) (n : Z).

Inductive token : Type :=
| TNum (e : expr)
| TName (s : string)
| TPlus | TMinus | TStar | TSlash | TPow | TLParen | TRParen.

Inductive lex_state : Type :=
| LNone
| LName (s : string)
| LNum (s : string).

Definition all_digits (s : string) : bool :=
  forallb is_digit (list_ascii_of_string s).

Definition number_token (s : string) : option token :=
  match PyFloat.floatnumber s with
  | Some (m, e10) =>
      if all_digits s then Some (TNum (EInt m))
      else Some (TNum (EFloat (PyFloat.of_decimal false m e10)))
  | None => None
  end.

Definition flush (st : lex_state) : option (list token) :=
  match st with
  | LNone => Some []
  | LName s => Some [TName s]
  | LNum s => match number_token s with Some t => Some [t] | None => None end
  end.

Definition is_dot (c : ascii) : bool := (code c =? 46)%N.

Fixpoint lex (st : lex_state) (s : string) : option (list token) :=
  match s with
  | EmptyString => flush st
  | String c s' =>
      (* the character [c] read with no token pending *)
      let fresh : option (list token) :=
        if ident_start c then lex (LName (String c "")) s'
        else if is_digit c || is_dot c then lex (LNum (String c "")) s'
        else if is_space c then lex LNone s'
        else match c with
             | "+"%char => cons TPlus <$> lex LNone s'
             | "-"%char => cons TMinus <$> lex LNone s'
             | "/"%char => cons TSlash <$> lex LNone s'
             | "("%char => cons TLParen <$> lex LNone s'
             | ")"%char => cons TRParen <$> lex LNone s'
             | "*"%char =>
                 match s' with
                 | String "*" s'' => cons TPow <$> lex LNone s''
                 | _ => cons TStar <$> lex LNone s'
                 end
             | _ => None
             end in
      match st with
      | LName tok =>
          if ident_char c then lex (LName (tok +:+ String c "")) s'
          else pre ← flush st; rest ← fresh; Some (pre ++ rest)
      | LNum tok =>
          if is_digit c || is_dot c then lex (LNum (tok +:+ String c "")) s'
          else pre ← flush st; rest ← fresh; Some (pre ++ rest)
      | LNone => fresh
      end
  end.

(** A constant integer exponent. *)
Fixpoint as_int (e : expr) : option Z :=
  match e with
  | EInt z => Some z
  | ENeg a => Z.opp <$> as_int a
  | _ => None
  end.

(** The grammar, one mode per nonterminal:
    [sum ::= term (("+"|"-") term)*], [term ::= factor (("*"|"/") factor)*],
    [factor ::= ("+"|"-") factor | power], [power ::= atom ["**" factor]],
    [atom ::= number | name | "(" sum ")"]. *)
Inductive mode : Type :=
| MSum
| MSumRest (lhs : expr)
| MTerm
| MTermRest (lhs : expr)
| MFactor
| MPower
| MAtom.

Fixpoint parse (fuel : nat) (m : mode) (ts : list token)
  : option (expr * list token) :=
  match fuel with
  | O => None
  | S fuel =>
      match m with
      | MSum =>
          '(t, r) ← parse fuel MTerm ts; parse fuel (MSumRest t) r
      | MSumRest lhs =>
          match ts with
          | TPlus :: r =>
              '(t, r') ← parse fuel MTerm r; parse fuel (MSumRest (EAdd lhs t)) r'
          | TMinus :: r =>
              '(t, r') ← parse fuel MTerm r; parse fuel (MSumRest (ESub lhs t)) r'
          | _ => Some (lhs, ts)
          end
      | MTerm =>
          '(t, r) ← parse fuel MFactor ts; parse fuel (MTermRest t) r
      | MTermRest lhs =>
          match ts with
          | TStar :: r =>
              '(t, r') ← parse fuel MFactor r; parse fuel (MTermRest (EMul lhs t)) r'
          | TSlash :: r =>
              '(t, r') ← parse fuel MFactor r; parse fuel (MTermRest (EDiv lhs t)) r'
          | _ => Some (lhs, ts)
          end
      | MFactor =>
          match ts with
          | TMinus :: r => '(e, r') ← parse fuel MFactor r; Some (ENeg e, r')
          | TPlus :: r => parse fuel MFactor r
          | _ => parse fuel MPower ts
          end
      | MPower =>
          '(a, r) ← parse fuel MAtom ts;
          match r with
          | TPow :: r' =>
              '(e, r'') ← parse fuel MFactor r';
              n ← as_int e; Some (EPow a n, r'')
          | _ => Some (a, r)
          end
      | MAtom =>
          match ts with
          | TNum e :: r => Some (e, r)
          | TName s :: r => Some (EVar s, r)
          | TLParen :: r =>
              '(e, r') ← parse fuel MSum r;
              match r' with
              | TRParen :: r'' => Some (e, r'')
              | _ => None
              end
          | _ => None
          end
      end
  end.

(** [sympify(function_str)]. *)
Definition sympify (function_str : string) : option expr :=
  ts ← lex LNone function_str;
  match parse (8 * (length ts + 1)) MSum ts with
  | Some (e, []) => Some e
  | _ => None
  end.

Definition of_Z (z : Z) : float := SF2Prim (binary_normalize prec emax z 0 false).

Definition pow_pos (x : float) (n : positive) : float :=
  Pos.iter (fun acc => (acc * x)%float) 1%float n.

(** [float(e.subs(var_dict))]: a name without a value, or a division by
    zero, leaves something that is not a real number: [TypeError]. *)
Fixpoint eval (var_dict : gmap string float) (e : expr) : py float :=
  match e with
  | EInt z => Ok (of_Z z)
  | EFloat f => Ok f
  | EVar name =>
      match var_dict !! name with
      | Some v => Ok v
      | None => Raise TypeError
      end
  | ENeg a => x ← eval var_dict a; Ok (- x)%float
  | EAdd a b => x ← eval var_dict a; y ← eval var_dict b; Ok (x + y)%float
  | ESub a b => x ← eval var_dict a; y ← eval var_dict b; Ok (x - y)%float
  | EMul a b => x ← eval var_dict a; y ← eval var_dict b; Ok (x * y)%float
  | EDiv a b =>
      x ← eval var_dict a; y ← eval var_dict b;
      if PrimFloat.eqb y F.zero then Raise TypeError else Ok (x / y)%float
  | EPow a n =>
      x ← eval var_dict a;
      match n with
      | Z0 => Ok 1%float
      | Zpos p => Ok (pow_pos x p)
      | Zneg p =>
          if PrimFloat.eqb x F.zero then Raise TypeError
          else Ok (1 / pow_pos x p)%float
      end
  end.

(** [diff(e, symbol)]. *)
Fixpoint diff (e : expr) (symbol : string) : expr :=
  match e with
  | EInt _ | EFloat _ => EInt 0
  | EVar name => if String.eqb name symbol then EInt 1 else EInt 0
  | ENeg a => ENeg (diff a symbol)
  | EAdd a b => EAdd (diff a symbol) (diff b symbol)
  | ESub a b => ESub (diff a symbol) (diff b symbol)
  | EMul a b => EAdd (EMul (diff a symbol) b) (EMul a (diff b symbol))
  | EDiv a b =>
      EDiv (ESub (EMul (diff a symbol) b) (EMul a (diff b symbol))) (EPow b 2)
  | EPow a n => EMul (EMul (EInt n) (EPow a (n - 1))) (diff a symbol)
  end.

End SmallSympy.

Module Demo.

Definition fmt_float (precision : nat) (x : float) : string := "#".
Definition fmt_int (precision : nat) (z : Z) : string := "#".
Definition str_of (v : pyval) : string := "#".
Definition sstr (e : SmallSympy.expr) : string := "#".
Definition t_ppf (q : float) (df : Z) : float := 1%float.
Definition ttest_ind (a b : list float) : float * float := (2.5%float, 0.01%float).
Definition ttest_rel (a b : list float) : float * float := (0.5%float, 0.6%float).

Definition unwrap {A : Type} (default : A) (m : py A) : A :=
  match m with Ok a => a | Raise _ => default end.

Definition ttest_result : gmap string pyval :=
  unwrap ∅ (perform_ttest ttest_ind ttest_rel
              [1%float; 2%float; 3%float] [4%float; 5%float] "independent").

Definition ttest_text : string :=
  unwrap "" (format_results fmt_float fmt_int str_of ttest_result "ttest").

Definition interval_result : gmap string pyval :=
  unwrap ∅ (calculate_confidence_interval t_ppf
              [10%float; 12%float; 11%float; 13%float; 9%float] 0.683%float).

Definition small_sympy : Sympy.library :=
  {| Sympy.expr := SmallSympy.expr;
     Sympy.sympify text :=
       match SmallSympy.sympify text with
       | Some e => Ok e
       | None => Raise SympifyError
       end;
     Sympy.subs e var_dict := SmallSympy.eval var_dict e;
     Sympy.diff e symbol := Ok (SmallSympy.diff e symbol);
     Sympy.sstr := sstr |}.

(** A [pow] that squares exactly and takes the correctly rounded root. *)
Definition pow (x y : float) : float :=
  if PrimFloat.eqb y 2 then (x * x)%float else PrimFloat.sqrt x.

End Demo.

(** A name as the identifier pattern without the [$] reads it: a letter or
    underscore followed by letters, digits and underscores. *)
Definition is_identifier (s : string) : bool :=
  match s with
  | EmptyString => false
  | String c rest => ident_start c && forallb ident_char (list_ascii_of_string rest)
  end.

(** A specified float that is NaN or has its sign bit clear: a number that is
    not negative, and not the negative zero. *)
Definition sf_sign_clear (x : spec_float) : Prop :=
  match x with
  | S754_nan => True
  | S754_zero s | S754_infinity s | S754_finite s _ _ => s = false
  end.

Definition sign_clear (x : float) : Prop := sf_sign_clear (Prim2SF x).

(** ** [UIManager.handle_test_click] *)

(** [s.lstrip()], [s.rstrip()] and [s.strip()]: whitespace removed from the
    left end, from the right end, and from both. *)
Fixpoint lstrip (s : string) : string :=
  match s with
  | EmptyString => EmptyString
  | String c s' => if is_space c then lstrip s' else s
  end.

Fixpoint rstrip (s : string) : string :=
  match s with
  | EmptyString => EmptyString
  | String c s' =>
      let r := rstrip s' in
      if is_space c && String.eqb r "" then EmptyString else String c r
  end.

Definition strip (s : string) : string := rstrip (lstrip s).

(** [s.split(sep)] for a one-character separator: the pieces between the
    separators, empty pieces included.  [cur] is the piece being read. *)
Fixpoint split_at (sep : ascii) (cur : string) (s : string) : list string :=
  match s with
  | EmptyString => [cur]
  | String c s' =>
      if Ascii.eqb c sep then cur :: split_at sep "" s'
      else split_at sep (cur +:+ String c "") s'
  end.

Definition split_comma (s : string) : list string := split_at "," "" s.

(** The values of the five text fields when the button is pressed; the
    value of a text field is a string, empty when nothing was typed. *)
Record form : Type := {
  variable_input : string;
  value_input : string;
  error_input : string;
  function_input : string;
  data_input : string
}.

(** What the handler puts on the screen, in one call of [show_error] or
    [show_result]:
    - [ValidationMessage e]: the message of a validator, or the handler's own
      "信頼区間の計算には最低1つのデータが必要です。" ([InsufficientSampleSize]);
    - [NumberFormatMessage]:
      "数値の入力が不正です。値と誤差には数値を入力してください。";
    - [InputErrorMessage e]: "入力値のエラー: " followed by [str(e)];
    - [ComputationErrorMessage e]: "計算中にエラーが発生しました: " followed by
      [str(e)];
    - [Result text]: the formatted result. *)
Inductive shown : Type :=
| ValidationMessage (e : validation_error)
| NumberFormatMessage
| InputErrorMessage (e : exn)
| ComputationErrorMessage (e : exn)
| Result (text : string).

(** [isinstance(e, ValueError)]. *)
Definition is_value_error (e : exn) : bool :=
  match e with
  | ValueError _ => true
  | _ => false
  end.

Section Handler.

Variable sorted : list float -> list float.
Variable t_ppf : float -> Z -> float.
Variable sp : Sympy.library.
Variable pow : float -> float -> float.
Variable fmt_float : nat -> float -> string.
Variable fmt_int : nat -> Z -> string.
Variable str_of : pyval -> string.

(** The last two statements of the [try] block. *)
Definition show_formatted (results : gmap string pyval) (test_type : string)
  : py shown :=
  formatted_result ← format_results fmt_float fmt_int str_of results test_type;
  Ok (Result formatted_result).

(** The [try] block: it ends by showing something, or raises. *)
Definition handle_test_click_try (f : form) (test_type : string) : py shown :=
  if String.eqb test_type "error_propagation" then
    let variables := map strip (split_comma (variable_input f)) in
    match floats_of (map strip (split_comma (value_input f))) with
    | None => Ok NumberFormatMessage
    | Some values =>
        match floats_of (map strip (split_comma (error_input f))) with
        | None => Ok NumberFormatMessage
        | Some errors =>
            let function_str := strip (function_input f) in
            match validate_error_propagation_inputs
                    variables values errors function_str with
            | Invalid error_msg => Ok (ValidationMessage error_msg)
            | Valid _ =>
                results ← calculate_error_propagation
                            sp pow variables values errors function_str;
                show_formatted results test_type
            end
        end
    end
  else
    match validate_input (data_input f) with
    | Invalid error_msg => Ok (ValidationMessage error_msg)
    | Valid numbers =>
        match
          (if negb (String.eqb test_type "confidence_interval")
           then check_data_requirements numbers test_type
           else if (length numbers <? 1)%nat then Invalid InsufficientSampleSize
           else Valid tt)
        with
        | Invalid error_msg => Ok (ValidationMessage error_msg)
        | Valid _ =>
            results ←
              (if String.eqb test_type "qtest"
               then perform_qtest sorted numbers 0.95%float
               else calculate_confidence_interval t_ppf numbers 0.683%float);
            show_formatted results test_type
        end
    end.

(** The handler with its two [except] clauses. *)
Definition handle_test_click (f : form) (test_type : string) : shown :=
  match handle_test_click_try f test_type with
  | Ok s => s
  | Raise e =>
      if is_value_error e then InputErrorMessage e
      else ComputationErrorMessage e
  end.

End Handler.

(** A form with only the data field filled in, to run the handler on. *)
Definition data_form (text : string) : form :=
  {| variable_input := ""; value_input := ""; error_input := "";
     function_input := ""; data_input := text |}.

(** ** [UIManager.show_result] *)

(** [message.split(": ")]: the pieces between the occurrences of a colon
    followed by a space, found from left to right.  [cur] is the piece being
    read. *)
Fixpoint split_colon (cur : string) (s : string) : list string :=
  match s with
  | EmptyString => [cur]
  | String c s' =>
      match s' with
      | String c2 s'' =>
          if Ascii.eqb c ":" && Ascii.eqb c2 " " then cur :: split_colon "" s''
          else split_colon (cur +:+ String c "") s'
      | EmptyString => split_colon (cur +:+ String c "") s'
      end
  end.

(** What [show_result] leaves in the text control: two spans, or the plain
    value. *)
Inductive result_text : Type :=
| Spans (first second : string)
| Plain (value : string).

Definition show_result (message : string) : result_text :=
  match split_colon "" message with
  | part0 :: part1 :: _ => Spans (part0 +:+ ": ") part1
  | _ => Plain message
  end.

(** The characters the control holds, in order. *)
Definition displayed (t : result_text) : string :=
  match t with
  | Spans first second => first +:+ second
  | Plain value => value
  end.

(** * Proofs *)

(** ** The exception monad *)

Lemma bind_Ok {A B : Type} (a : A) (k : A -> py B) : (Ok a ≫= k) = k a.
Proof. reflexivity. Qed.

Lemma bind_Raise {A B : Type} (e : exn) (k : A -> py B) :
  (Raise e ≫= k) = Raise e.
Proof. reflexivity. Qed.

(** ** Indexing *)

Lemma py_index_nonneg {A : Type} (l : list A) (i : nat) (d : A) :
  (i < length l)%nat -> py_index l (Z.of_nat i) = Ok (nth i l d).
Proof.
  intros Hi. unfold py_index. cbv zeta.
  assert (Hi0 : (Z.of_nat i <? 0) = false) by (apply Z.ltb_ge; lia).
  rewrite Hi0. cbv iota. rewrite Hi0.
  replace (Z.of_nat (length l) <=? Z.of_nat i) with false
    by (symmetry; apply Z.leb_gt; lia).
  cbn [orb]. rewrite Nat2Z.id.
  destruct (nth_error l i) as [x|] eqn:E.
  - f_equal. symmetry. now apply nth_error_nth.
  - apply nth_error_None in E. lia.
Qed.

Lemma py_index_neg {A : Type} (l : list A) (k : nat) (d : A) :
  (1 <= k <= length l)%nat ->
  py_index l (- Z.of_nat k) = Ok (nth (length l - k) l d).
Proof.
  intros Hk. unfold py_index. cbv zeta.
  replace (- Z.of_nat k <? 0) with true by (symmetry; apply Z.ltb_lt; lia).
  cbv iota.
  replace (- Z.of_nat k + Z.of_nat (length l) <? 0) with false
    by (symmetry; apply Z.ltb_ge; lia).
  replace (Z.of_nat (length l) <=? - Z.of_nat k + Z.of_nat (length l)) with false
    by (symmetry; apply Z.leb_gt; lia).
  cbn [orb].
  replace (Z.to_nat (- Z.of_nat k + Z.of_nat (length l))) with (length l - k)%nat by lia.
  destruct (nth_error l (length l - k)) as [x|] eqn:E.
  - f_equal. symmetry. now apply nth_error_nth.
  - apply nth_error_None in E. lia.
Qed.

Lemma py_index_short {A : Type} (l : list A) (i : nat) :
  (length l <= i)%nat -> py_index l (Z.of_nat i) = Raise IndexError.
Proof.
  intros Hi. unfold py_index. cbv zeta.
  assert (Hi0 : (Z.of_nat i <? 0) = false) by (apply Z.ltb_ge; lia).
  rewrite Hi0. cbv iota. rewrite Hi0.
  replace (Z.of_nat (length l) <=? Z.of_nat i) with true
    by (symmetry; apply Z.leb_le; lia).
  now rewrite orb_true_r.
Qed.

(** ** Sorting keeps the elements *)

Lemma insert_sorted_length x l : length (insert_sorted x l) = S (length l).
Proof.
  induction l as [|y l IH]; cbn; [reflexivity|].
  destruct (PrimFloat.ltb x y); cbn; [reflexivity|]. now rewrite IH.
Qed.

Lemma sorted_from_length data acc :
  length (fold_left (fun a x => insert_sorted x a) data acc)
  = (length acc + length data)%nat.
Proof.
  revert acc. induction data as [|x data IH]; intros acc; cbn.
  - lia.
  - rewrite IH, insert_sorted_length. lia.
Qed.

Lemma py_sorted_length data : length (py_sorted data) = length data.
Proof. unfold py_sorted. now rewrite sorted_from_length. Qed.

Lemma insert_sorted_perm x l : insert_sorted x l ≡ₚ x :: l.
Proof.
  induction l as [|y l IH]; cbn; [reflexivity|].
  destruct (PrimFloat.ltb x y); [reflexivity|].
  rewrite IH. apply Permutation_swap.
Qed.

Lemma sorted_from_perm data acc :
  fold_left (fun a x => insert_sorted x a) data acc ≡ₚ acc ++ data.
Proof.
  revert acc. induction data as [|x data IH]; intros acc; cbn.
  - now rewrite app_nil_r.
  - rewrite IH, insert_sorted_perm. cbn. apply Permutation_middle.
Qed.

Lemma py_sorted_perm data : py_sorted data ≡ₚ data.
Proof. unfold py_sorted. now rewrite sorted_from_perm. Qed.

(** ** The critical-value table *)

Lemma q_critical_lookup (n : nat) :
  q_critical_values !! (Nat.min n 10) = critical_value n.
Proof.
  unfold critical_value.
  destruct (Nat.le_gt_cases 10 n) as [Hge|Hlt].
  - rewrite Nat.min_r by exact Hge. reflexivity.
  - rewrite Nat.min_l by lia.
    do 10 (destruct n as [|n]; [reflexivity|]). lia.
Qed.

Lemma critical_value_defined (n : nat) :
  (3 <= n)%nat -> exists c, critical_value n = Some c.
Proof.
  intros Hn. unfold critical_value.
  destruct (Nat.le_gt_cases 10 n) as [Hge|Hlt].
  - rewrite Nat.min_r by exact Hge. eauto.
  - rewrite Nat.min_l by lia.
    do 3 (destruct n as [|n]; [lia|]).
    do 7 (destruct n as [|n]; [eauto|]). lia.
Qed.

Lemma critical_value_small (n : nat) : (n < 3)%nat -> critical_value n = None.
Proof.
  intros Hn. do 3 (destruct n as [|n]; [reflexivity|]). lia.
Qed.

Lemma outlier_result_lookup q crit :
  outlier_result q crit !! "q_statistic" = Some (VFloat q) /\
  outlier_result q crit !! "q_critical" = Some (VFloat crit) /\
  outlier_result q crit !! "is_outlier"
  = Some (VInt (if PrimFloat.ltb crit q then 1 else 0)).
Proof. unfold outlier_result. repeat split; by simplify_map_eq. Qed.

(** ** Facts about binary64 comparison *)

Module FloatFacts.

Lemma SFcompare_antisym (x y : spec_float) :
  SFcompare y x = CompOpp <$> SFcompare x y.
Proof.
  destruct x as [sx|sx| |sx mx ex], y as [sy|sy| |sy my ey]; cbn;
    try reflexivity;
    try (destruct sx; reflexivity);
    try (destruct sy; reflexivity);
    try (destruct sx, sy; reflexivity).
  f_equal.
  assert (Hm : Pos.compare_cont Eq my mx = CompOpp (Pos.compare_cont Eq mx my))
    by apply (Pos.compare_antisym mx my).
  destruct sx, sy; try reflexivity;
    rewrite (Z.compare_antisym ex ey);
    destruct (ex ?= ey); cbn; try reflexivity;
    rewrite Hm; now rewrite ?CompOpp_involutive.
Qed.

Lemma SFcompare_refl (x : spec_float) :
  x <> S754_nan -> SFcompare x x = Some Eq.
Proof.
  intros Hx. destruct x as [s|s| |s m e]; cbn; try congruence.
  - now destruct s.
  - f_equal. destruct s; rewrite Z.compare_refl;
      change (Pos.compare_cont Eq m m) with (Pos.compare m m);
      now rewrite Pos.compare_refl.
Qed.

Lemma is_nan_spec (x : float) :
  F.is_nan x = true <-> Prim2SF x = S754_nan.
Proof.
  unfold F.is_nan. rewrite FloatAxioms.eqb_spec. unfold SFeqb.
  destruct (Prim2SF x) as [s|s| |s m e] eqn:E.
  - split; discriminate.
  - rewrite SFcompare_refl by discriminate. split; discriminate.
  - split; reflexivity.
  - rewrite SFcompare_refl by discriminate. split; discriminate.
Qed.

Lemma SFcompare_defined (x y : spec_float) :
  x <> S754_nan -> y <> S754_nan -> exists c, SFcompare x y = Some c.
Proof.
  intros Hx Hy.
  destruct x as [sx|sx| |sx mx ex], y as [sy|sy| |sy my ey]; cbn;
    try congruence; eauto.
Qed.

Lemma ltb_leb (x y : float) :
  PrimFloat.ltb x y = true -> PrimFloat.leb x y = true.
Proof.
  rewrite FloatAxioms.ltb_spec, FloatAxioms.leb_spec. unfold SFltb, SFleb.
  destruct (SFcompare (Prim2SF x) (Prim2SF y)) as [[]|]; congruence.
Qed.

Lemma not_ltb_leb (x y : float) :
  F.is_nan x = false -> F.is_nan y = false ->
  PrimFloat.ltb x y = false -> PrimFloat.leb y x = true.
Proof.
  intros Hx Hy.
  assert (Hx' : Prim2SF x <> S754_nan)
    by (intros E; apply is_nan_spec in E; congruence).
  assert (Hy' : Prim2SF y <> S754_nan)
    by (intros E; apply is_nan_spec in E; congruence).
  rewrite FloatAxioms.ltb_spec, FloatAxioms.leb_spec. unfold SFltb, SFleb.
  rewrite (SFcompare_antisym (Prim2SF x) (Prim2SF y)).
  destruct (SFcompare_defined _ _ Hx' Hy') as [c ->].
  destruct c; cbn; congruence.
Qed.

End FloatFacts.

(** ** [py_sorted] is ascending on a sample without NaN *)

Lemma insert_sorted_ascending x l :
  F.is_nan x = false -> no_nan l -> ascending l -> ascending (insert_sorted x l).
Proof.
  intros Hx Hl Hasc. induction Hasc as [|y|y z l Hyz Hasc IH]; cbn.
  - constructor.
  - destruct (PrimFloat.ltb x y) eqn:E.
    + constructor; [now apply FloatFacts.ltb_leb | constructor].
    + inversion Hl; subst.
      constructor; [now apply FloatFacts.not_ltb_leb | constructor].
  - inversion Hl as [|? ? Hy Hl']; subst.
    destruct (PrimFloat.ltb x y) eqn:E.
    + constructor; [now apply FloatFacts.ltb_leb | now constructor].
    + specialize (IH Hl'). cbn in IH.
      destruct (PrimFloat.ltb x z) eqn:E'.
      * constructor; [now apply FloatFacts.not_ltb_leb | exact IH].
      * constructor; [exact Hyz | exact IH].
Qed.

Lemma insert_sorted_no_nan x l :
  F.is_nan x = false -> no_nan l -> no_nan (insert_sorted x l).
Proof.
  intros Hx Hl. unfold no_nan. rewrite insert_sorted_perm. now constructor.
Qed.

Lemma sorted_from_ascending data acc :
  no_nan data -> no_nan acc -> ascending acc ->
  ascending (fold_left (fun a x => insert_sorted x a) data acc).
Proof.
  intros Hd. revert acc.
  induction Hd as [|x data Hx Hd IH]; intros acc Hacc Hasc; cbn.
  - exact Hasc.
  - apply IH.
    + now apply insert_sorted_no_nan.
    + now apply insert_sorted_ascending.
Qed.

Lemma py_sorted_ascending data : no_nan data -> ascending (py_sorted data).
Proof.
  intros Hd. apply sorted_from_ascending; [exact Hd | constructor | constructor].
Qed.

(** ** Claims about [perform_qtest] *)

Section QtestFacts.

(** What is known of the built-in [sorted]: it returns a permutation of its
    argument, in ascending order when the argument holds no NaN. *)
Variable sorted : list float -> list float.
Hypothesis sorted_perm : forall data, sorted data ≡ₚ data.
Hypothesis sorted_ascending : forall data, no_nan data -> ascending (sorted data).

Local Abbreviation perform_qtest := (perform_qtest sorted).
Local Abbreviation zero_range := (zero_range sorted).

Lemma sorted_length data : length (sorted data) = length data.
Proof. apply Permutation_length, sorted_perm. Qed.

(** [perform_qtest], case by case. *)

Lemma perform_qtest_short data cl :
  (length data < 2)%nat -> perform_qtest data cl = Raise IndexError.
Proof.
  intros Hn. unfold perform_qtest. cbv zeta.
  change (py_index (sorted data) 1) with (py_index (sorted data) (Z.of_nat 1)).
  rewrite py_index_short by (rewrite sorted_length; lia).
  reflexivity.
Qed.

Lemma perform_qtest_unfold data cl :
  (2 <= length data)%nat ->
  perform_qtest data cl =
    if zero_range data then Raise ZeroDivisionError
    else match critical_value (length data) with
         | None => Raise TypeError
         | Some crit => Ok (outlier_result (q_statistic (sorted data)) crit)
         end.
Proof.
  intros Hn. unfold perform_qtest. cbv zeta.
  pose proof (sorted_length data) as Hlen.
  set (x := sorted data) in *.
  change (py_index x 1) with (py_index x (Z.of_nat 1)).
  change (py_index x 0) with (py_index x (Z.of_nat 0)).
  change (py_index x (-1)) with (py_index x (- Z.of_nat 1)).
  change (py_index x (-2)) with (py_index x (- Z.of_nat 2)).
  rewrite (py_index_nonneg x 1 F.zero) by lia. rewrite bind_Ok.
  rewrite (py_index_nonneg x 0 F.zero) by lia. rewrite bind_Ok.
  rewrite (py_index_neg x 1 F.zero) by lia. rewrite bind_Ok.
  rewrite (py_index_neg x 2 F.zero) by lia.
  unfold F.py_div.
  change (PrimFloat.eqb (abs (nth (length x - 1) x F.zero - nth 0 x F.zero)) F.zero)
    with (zero_range data).
  destruct (zero_range data) eqn:Hz; [reflexivity|].
  rewrite !bind_Ok.
  rewrite q_critical_lookup, <- Hlen.
  reflexivity.
Qed.

Lemma perform_qtest_two data cl :
  length data = 2%nat ->
  perform_qtest data cl = Raise ZeroDivisionError \/
  perform_qtest data cl = Raise TypeError.
Proof.
  intros Hn. rewrite perform_qtest_unfold by lia.
  destruct (zero_range data); [now left|]. right.
  now rewrite critical_value_small by lia.
Qed.

(** C1, amended: on a sample of size 3 to 10, [perform_qtest] returns a
    result exactly when the range of the sorted sample is not zero; when it is
    zero the call raises [ZeroDivisionError], and nothing else is ever
    raised. *)
Theorem qtest_returns_iff_range_nonzero (data : list float) (cl : float) :
  (3 <= length data <= 10)%nat ->
  (returns (perform_qtest data cl) <-> zero_range data = false) /\
  (zero_range data = true -> perform_qtest data cl = Raise ZeroDivisionError).
Proof.
  intros [Hlo Hhi].
  rewrite perform_qtest_unfold by lia.
  destruct (critical_value_defined (length data) Hlo) as [crit Hcrit].
  rewrite Hcrit.
  destruct (zero_range data); split.
  - split; [intros [r Hr]; discriminate Hr | discriminate].
  - reflexivity.
  - split; [reflexivity | intros _; eexists; reflexivity].
  - discriminate.
Qed.

(** C4, amended: on a sample of size [n >= 3] with non-zero range,
    [perform_qtest] returns, for [x] the sorted sample (a permutation of the
    sample, ascending when the sample holds no NaN), the statistic
    [Q = max(|x[1]-x[0]| / |x[n-1]-x[0]|, |x[n-1]-x[n-2]| / |x[n-1]-x[0]|)],
    the critical value of the fixed table at [min(n, 10)], and the flag 1
    exactly when [Q] exceeds the critical value (0 otherwise). *)
Theorem qtest_statistic_critical_flag (data : list float) (cl : float) :
  (3 <= length data)%nat ->
  zero_range data = false ->
  let x := sorted data in
  let n := length x in
  let range := PrimFloat.abs (at_ x (n - 1) - at_ x 0) in
  let Q := F.py_max (PrimFloat.abs (at_ x 1 - at_ x 0) / range)%float
                    (PrimFloat.abs (at_ x (n - 1) - at_ x (n - 2)) / range)%float in
  x ≡ₚ data /\ (no_nan data -> ascending x) /\
  exists crit r,
    critical_value (length data) = Some crit /\
    In (Nat.min (length data) 10, crit)
       [ (3%nat, 0.970%float); (4%nat, 0.829%float); (5%nat, 0.710%float);
         (6%nat, 0.625%float); (7%nat, 0.568%float); (8%nat, 0.526%float);
         (9%nat, 0.493%float); (10%nat, 0.466%float) ] /\
    perform_qtest data cl = Ok r /\
    r !! "q_statistic" = Some (VFloat Q) /\
    r !! "q_critical" = Some (VFloat crit) /\
    r !! "is_outlier" = Some (VInt (if F.gtb Q crit then 1 else 0)).
Proof.
  intros Hn Hz x n range Q.
  split; [apply sorted_perm|]. split; [apply sorted_ascending|].
  destruct (critical_value_defined (length data) Hn) as [crit Hcrit].
  exists crit, (outlier_result (q_statistic x) crit).
  split; [exact Hcrit|]. split.
  - unfold critical_value in Hcrit.
    assert (Hm : (3 <= Nat.min (length data) 10 <= 10)%nat) by lia.
    revert Hcrit Hm. generalize (Nat.min (length data) 10). intros m Hcrit Hm.
    do 3 (destruct m as [|m]; [lia|]).
    do 8 (destruct m as [|m];
          [injection Hcrit as <-; cbn; tauto|]).
    lia.
  - split; [rewrite perform_qtest_unfold by lia; now rewrite Hz, Hcrit|].
    apply outlier_result_lookup.
Qed.

End QtestFacts.

(** C1, as stated, fails: the sample 1, 1, 1 has size 3, and [perform_qtest]
    raises [ZeroDivisionError] on it instead of returning a result. *)
Lemma qtest_raises_on_equal_values :
  (3 <= length [1%float; 1%float; 1%float] <= 10)%nat /\
  perform_qtest py_sorted [1%float; 1%float; 1%float] 0.95%float = Raise ZeroDivisionError /\
  ~ returns (perform_qtest py_sorted [1%float; 1%float; 1%float] 0.95%float).
Proof.
  split; [cbn; lia|].
  assert (H : perform_qtest py_sorted [1%float; 1%float; 1%float] 0.95%float
              = Raise ZeroDivisionError) by (vm_compute; reflexivity).
  split; [exact H|]. rewrite H. intros [r Hr]. discriminate Hr.
Qed.

Lemma qtest_returns_iff_range_nonzero_witness :
  (returns (perform_qtest py_sorted [1%float; 2%float; 3%float; 10%float] 0.95%float)
   <-> zero_range py_sorted [1%float; 2%float; 3%float; 10%float] = false) /\
  (zero_range py_sorted [1%float; 2%float; 3%float; 10%float] = true ->
   perform_qtest py_sorted [1%float; 2%float; 3%float; 10%float] 0.95%float
   = Raise ZeroDivisionError).
Proof.
  apply (qtest_returns_iff_range_nonzero py_sorted py_sorted_perm
           [1%float; 2%float; 3%float; 10%float] 0.95%float).
  cbn. lia.
Defined.

(** C4, as stated, fails on a sample with an infinite value.  For 0, 1, inf
    (size 3, non-zero range) the two ratios are [1/inf = 0] and
    [inf/inf = NaN]; [max(0.0, nan)] keeps its first argument, so the
    statistic returned is 0.0, while the maximum of the gaps over the range,
    [max(1, inf) / inf], is NaN. *)
Lemma qtest_statistic_with_infinite_value :
  (3 <= length [0%float; 1%float; infinity])%nat /\
  zero_range py_sorted [0%float; 1%float; infinity] = false /\
  py_sorted [0%float; 1%float; infinity] = [0%float; 1%float; infinity] /\
  (exists r,
      perform_qtest py_sorted [0%float; 1%float; infinity] 0.95%float = Ok r /\
      r !! "q_statistic" = Some (VFloat 0%float)) /\
  q_statistic_gaps_first (py_sorted [0%float; 1%float; infinity]) = nan /\
  0%float <> nan.
Proof.
  split; [cbn; lia|].
  do 2 (split; [vm_compute; reflexivity|]).
  split; [eexists; split; vm_compute; reflexivity|].
  split; [vm_compute; reflexivity|].
  intros E. apply (f_equal F.is_nan) in E. vm_compute in E. discriminate E.
Qed.

Lemma qtest_statistic_critical_flag_witness :
  exists r,
    perform_qtest py_sorted [1%float; 2%float; 3%float; 10%float] 0.95%float = Ok r /\
    r !! "q_statistic" = Some (VFloat (7 / 9)%float) /\
    r !! "q_critical" = Some (VFloat 0.829%float) /\
    r !! "is_outlier" = Some (VInt 0).
Proof.
  destruct (qtest_statistic_critical_flag
              py_sorted py_sorted_perm py_sorted_ascending
              [1%float; 2%float; 3%float; 10%float] 0.95%float)
    as (_ & _ & crit & r & Hcrit & _ & Hr & HQ & Hc & Hflag).
  - cbn. lia.
  - vm_compute. reflexivity.
  - exists r. vm_compute in Hcrit. injection Hcrit as <-.
    split; [exact Hr|]. split; [exact HQ|]. split; [exact Hc|exact Hflag].
Defined.

(** On a finite sample such as 1, 2, 3, 10 the two forms of the statistic
    agree. *)
Example qtest_statistic_forms_agree :
  q_statistic (py_sorted [1%float; 2%float; 3%float; 10%float]) = (7 / 9)%float /\
  q_statistic_gaps_first (py_sorted [1%float; 2%float; 3%float; 10%float])
  = (7 / 9)%float.
Proof. split; vm_compute; reflexivity. Qed.

(** ** Claims about [split_data_for_ttest] and [perform_ttest] *)

(** C9: [split_data_for_ttest] cuts the list in two at [n // 2]: the two
    parts concatenate back to the input, and the first part is its first
    [n // 2] elements. *)
Theorem split_data_for_ttest_halves (data : list float) :
  let n := length data in
  let '(first, second) := split_data_for_ttest data in
  first ++ second = data /\
  length first = (n / 2)%nat /\
  length second = (n - n / 2)%nat /\
  (forall i : nat, (i < n / 2)%nat -> first !! i = data !! i) /\
  (forall i : nat, second !! i = data !! (n / 2 + i)%nat).
Proof.
  cbv zeta. unfold split_data_for_ttest.
  assert (Hmid : (length data / 2 <= length data)%nat)
    by (apply Nat.Div0.div_le_upper_bound; lia).
  repeat split.
  - apply take_drop.
  - rewrite length_take. lia.
  - apply length_drop.
  - intros i Hi. now apply lookup_take_lt.
  - intros i. apply lookup_drop.
Qed.

Lemma SizeMismatch_not_InvalidTestType : SizeMismatch <> InvalidTestType.
Proof. unfold SizeMismatch, InvalidTestType. intros H. inversion H. Qed.

Section ScipyFacts.

Variable t_ppf : float -> Z -> float.
Variable ttest_ind : list float -> list float -> float * float.
Variable ttest_rel : list float -> list float -> float * float.

Lemma perform_ttest_independent (group1 group2 : list float) :
  perform_ttest ttest_ind ttest_rel group1 group2 "independent"
  = Ok (<["statistic" := VFloat (ttest_ind group1 group2).1]>
        (<["pvalue" := VFloat (ttest_ind group1 group2).2]>
         (<["dof" := VInt (Z.of_nat (length group1) + Z.of_nat (length group2) - 2)]>
          (<["mean1" := VFloat (Np.mean group1)]>
           (<["mean2" := VFloat (Np.mean group2)]>
            (<["test_type" := VStr "independent"]> ∅)))))).
Proof.
  unfold perform_ttest. cbn [String.eqb Ascii.eqb Bool.eqb].
  destruct (ttest_ind group1 group2) as [statistic pvalue]. reflexivity.
Qed.

Lemma perform_ttest_paired (group1 group2 : list float) :
  perform_ttest ttest_ind ttest_rel group1 group2 "paired"
  = if (length group1 =? length group2)%nat
    then Ok (<["statistic" := VFloat (ttest_rel group1 group2).1]>
             (<["pvalue" := VFloat (ttest_rel group1 group2).2]>
              (<["dof" := VInt (Z.of_nat (length group1) - 1)]>
               (<["mean1" := VFloat (Np.mean group1)]>
                (<["mean2" := VFloat (Np.mean group2)]>
                 (<["test_type" := VStr "paired"]> ∅))))))
    else Raise SizeMismatch.
Proof.
  unfold perform_ttest. cbn [String.eqb Ascii.eqb Bool.eqb].
  destruct (length group1 =? length group2)%nat; cbn [negb]; [|reflexivity].
  destruct (ttest_rel group1 group2) as [statistic pvalue]. reflexivity.
Qed.

Lemma perform_ttest_other (group1 group2 : list float) (test_type : string) :
  test_type <> "independent" -> test_type <> "paired" ->
  perform_ttest ttest_ind ttest_rel group1 group2 test_type = Raise InvalidTestType.
Proof.
  intros Hi Hp. unfold perform_ttest.
  apply String.eqb_neq in Hi, Hp. rewrite Hi, Hp. reflexivity.
Qed.

(** C6: in paired mode [perform_ttest] fails with [SizeMismatch] exactly when
    the two samples differ in length, and otherwise succeeds with [n - 1]
    degrees of freedom; in independent mode it succeeds for any two lengths
    with [n1 + n2 - 2] degrees of freedom; any other mode fails with
    [InvalidTestType], which is a different failure. *)
Theorem perform_ttest_modes (group1 group2 : list float) :
  let n1 := length group1 in
  let n2 := length group2 in
  let run := perform_ttest ttest_ind ttest_rel group1 group2 in
  (run "paired" = Raise SizeMismatch <-> n1 <> n2) /\
  (n1 = n2 ->
   exists r, run "paired" = Ok r /\ r !! "dof" = Some (VInt (Z.of_nat n1 - 1))) /\
  (exists r, run "independent" = Ok r /\
             r !! "dof" = Some (VInt (Z.of_nat n1 + Z.of_nat n2 - 2))) /\
  (forall test_type : string,
      test_type <> "independent" -> test_type <> "paired" ->
      run test_type = Raise InvalidTestType) /\
  SizeMismatch <> InvalidTestType.
Proof.
  cbv zeta. repeat split.
  - rewrite perform_ttest_paired.
    destruct (Nat.eqb_spec (length group1) (length group2)) as [E|E];
      [discriminate | intros _; exact E].
  - rewrite perform_ttest_paired.
    destruct (Nat.eqb_spec (length group1) (length group2)) as [E|E];
      [intros H; contradiction | reflexivity].
  - intros E. rewrite perform_ttest_paired.
    apply Nat.eqb_eq in E. rewrite E.
    eexists; split; [reflexivity | by simplify_map_eq].
  - rewrite perform_ttest_independent.
    eexists; split; [reflexivity | by simplify_map_eq].
  - apply perform_ttest_other.
  - apply SizeMismatch_not_InvalidTestType.
Qed.

End ScipyFacts.

(** ** Claims about [validate_error_propagation_inputs] *)

Lemma first_invalid_name_None (variables : list string) :
  first_invalid_name variables = None <->
  existsb (fun var => negb (variable_pattern_match var)) variables = false.
Proof.
  induction variables as [|var rest IH]; cbn; [tauto|].
  destruct (variable_pattern_match var); cbn; [exact IH|].
  split; discriminate.
Qed.

Lemma first_invalid_name_Some (variables : list string) (var : string) :
  first_invalid_name variables = Some var ->
  exists before after,
    variables = before ++ var :: after /\
    variable_pattern_match var = false /\
    Forall (fun v => variable_pattern_match v = true) before.
Proof.
  induction variables as [|v rest IH]; cbn; [discriminate|].
  destruct (variable_pattern_match v) eqn:E.
  - intros H. destruct (IH H) as (before & after & -> & Hvar & Hbefore).
    exists (v :: before), after. repeat split; [exact Hvar | now constructor].
  - intros [= <-]. exists [], rest. repeat split; [exact E | constructor].
Qed.

Lemma undefined_vars_spec (variables : list string) (function_str name : string) :
  name ∈ undefined_vars variables function_str <->
  name ∈ findall_identifiers function_str /\ name ∉ variables.
Proof. unfold undefined_vars. set_solver. Qed.

Lemma undefined_vars_empty (variables : list string) (function_str : string) :
  undefined_vars variables function_str = ∅ <->
  existsb (fun name => negb (bool_decide (name ∈ variables)))
          (findall_identifiers function_str) = false.
Proof.
  rewrite <- not_true_iff_false, existsb_exists. split.
  - intros Hempty (name & Hin & Hnot).
    apply negb_true_iff, bool_decide_eq_false in Hnot.
    assert (H : name ∈ undefined_vars variables function_str).
    { apply undefined_vars_spec. split; [now apply list_elem_of_In | exact Hnot]. }
    rewrite Hempty in H. set_solver.
  - intros Hnone. apply set_eq. intros name. split; [|set_solver].
    intros [Hin Hnot]%undefined_vars_spec. exfalso. apply Hnone.
    exists name. split; [now apply list_elem_of_In|].
    apply negb_true_iff, bool_decide_eq_false. exact Hnot.
Qed.

(** C5: the verdict of [validate_error_propagation_inputs] is decided by the
    six checks taken in the order MissingField, LengthMismatch,
    InvalidVariableName, NonPositiveUncertainty, UndefinedVariable,
    UnbalancedParentheses: the failure reported is that of the first check
    that fails, whatever the later checks would say, and the inputs are
    accepted exactly when no check fails. *)
Theorem validate_error_propagation_first_failure
    (variables : list string) (values errors : list float) (function_str : string) :
  let verdict := validate_error_propagation_inputs variables values errors function_str in
  let fails c := check_fails c variables values errors function_str in
  failed_check verdict = find fails checks_in_order /\
  (is_valid verdict = true <-> forall c, fails c = false) /\
  (is_valid verdict = false -> failed_check verdict <> None).
Proof.
  cbv zeta. unfold validate_error_propagation_inputs, checks_in_order.
  cbn [find check_fails].
  destruct (is_nil variables || is_nil values || is_nil errors
            || String.eqb function_str "") eqn:E1.
  { cbn. repeat split; try discriminate.
    intros H. specialize (H CheckMissingField). cbn in H. congruence. }
  destruct (negb ((length variables =? length values)%nat
                  && (length values =? length errors)%nat)) eqn:E2.
  { cbn. repeat split; try discriminate.
    intros H. specialize (H CheckLengthMismatch). cbn in H. congruence. }
  destruct (first_invalid_name variables) as [var|] eqn:E3.
  { assert (E3' : existsb (fun var => negb (variable_pattern_match var)) variables = true).
    { apply not_false_iff_true. intros H.
      apply first_invalid_name_None in H. congruence. }
    rewrite E3'. cbn. repeat split; try discriminate.
    intros H. specialize (H CheckInvalidVariableName). cbn in H. congruence. }
  apply first_invalid_name_None in E3. rewrite E3.
  destruct (existsb (fun error => PrimFloat.leb error F.zero) errors) eqn:E4.
  { cbn. repeat split; try discriminate.
    intros H. specialize (H CheckNonPositiveUncertainty). cbn in H. congruence. }
  destruct (bool_decide (undefined_vars variables function_str = ∅)) eqn:E5.
  2:{ apply bool_decide_eq_false in E5.
      assert (E5' : existsb (fun name => negb (bool_decide (name ∈ variables)))
                      (findall_identifiers function_str) = true).
      { apply not_false_iff_true. intros H.
        apply undefined_vars_empty in H. contradiction. }
      rewrite E5'. cbn. repeat split; try discriminate.
      intros H. specialize (H CheckUndefinedVariable). cbn in H. congruence. }
  apply bool_decide_eq_true, undefined_vars_empty in E5. rewrite E5. cbn [negb].
  destruct (negb (count_char "(" function_str =? count_char ")" function_str)%nat) eqn:E6.
  { cbn. repeat split; try discriminate.
    intros H. specialize (H CheckUnbalancedParentheses). cbn in H. congruence. }
  cbn. repeat split; try discriminate.
  intros _ [] ; cbn; assumption.
Qed.

(** What a reported failure carries: the first name the pattern rejects,
    and the set of the identifiers of the expression that are not declared. *)
Lemma validate_error_propagation_payload
    (variables : list string) (values errors : list float) (function_str : string) :
  (forall var,
      validate_error_propagation_inputs variables values errors function_str
      = Invalid (InvalidVariableName var) ->
      exists before after,
        variables = before ++ var :: after /\
        variable_pattern_match var = false /\
        Forall (fun v => variable_pattern_match v = true) before) /\
  (forall vars,
      validate_error_propagation_inputs variables values errors function_str
      = Invalid (UndefinedVariable vars) ->
      forall name,
        name ∈ vars <-> name ∈ findall_identifiers function_str /\ name ∉ variables).
Proof.
  unfold validate_error_propagation_inputs. split.
  - intros var H.
    destruct (is_nil variables || is_nil values || is_nil errors
              || String.eqb function_str ""); [discriminate|].
    destruct (negb _); [discriminate|].
    destruct (first_invalid_name variables) as [v|] eqn:E.
    + injection H as ->. now apply first_invalid_name_Some.
    + repeat (destruct (_ : bool) in H; try discriminate).
  - intros vars H name.
    destruct (is_nil variables || is_nil values || is_nil errors
              || String.eqb function_str ""); [discriminate|].
    destruct (negb _); [discriminate|].
    destruct (first_invalid_name variables); [discriminate|].
    destruct (existsb _ errors); [discriminate|].
    destruct (negb (bool_decide _)); [|destruct (negb _); discriminate].
    injection H as <-. apply undefined_vars_spec.
Qed.

(** The pattern's [$] lets a name end with one newline. *)
Example variable_pattern_match_examples :
  variable_pattern_match "x" = true /\
  variable_pattern_match "_a1" = true /\
  variable_pattern_match "2x" = false /\
  variable_pattern_match "" = false /\
  variable_pattern_match ("x" +:+ nl) = true /\
  variable_pattern_match ("x" +:+ nl +:+ nl) = false.
Proof. repeat split; reflexivity. Qed.

Example validate_error_propagation_examples :
  validate_error_propagation_inputs ["2x"] [1%float] [0%float] "2x + z)"
  = Invalid (InvalidVariableName "2x") /\
  validate_error_propagation_inputs ["x"] [1%float] [0%float] "x + z)"
  = Invalid NonPositiveUncertainty /\
  failed_check (validate_error_propagation_inputs ["x"] [1%float] [0.1%float] "x + z)")
  = Some CheckUndefinedVariable /\
  validate_error_propagation_inputs ["x"; "z"] [1%float; 2%float] [0.1%float; 0.1%float]
    "x + z)"
  = Invalid UnbalancedParentheses /\
  validate_error_propagation_inputs ["x"; "z"] [1%float; 2%float] [0.1%float; 0.1%float]
    "(x + z)"
  = Valid tt.
Proof. repeat split; vm_compute; reflexivity. Qed.

(** ** Claims about [validate_input] *)

Lemma blank_iff_all_space (text : string) :
  String.eqb text "" || isspace text = all_space text.
Proof. destruct text; reflexivity. Qed.

Lemma append_char_nonempty (cur : string) (c : ascii) :
  String.eqb (cur +:+ String c "") "" = false.
Proof. destruct cur; reflexivity. Qed.

Lemma split_from_nonempty (cur s : string) :
  String.eqb cur "" = false \/ all_space s = false -> split_from cur s <> [].
Proof.
  revert cur. induction s as [|c s IH]; intros cur H; cbn.
  - destruct H as [H|H]; [rewrite H; discriminate | discriminate H].
  - destruct (is_space c) eqn:Hc.
    + destruct (String.eqb cur "") eqn:Hcur; [|discriminate].
      apply IH. right. destruct H as [H|H]; [discriminate H|].
      cbn in H. now rewrite Hc in H.
    + apply IH. left. apply append_char_nonempty.
Qed.

Lemma floats_of_Some (values : list string) (numbers : list float) :
  floats_of values = Some numbers <->
  Forall2 (fun token x => PyFloat.parse token = Some x) values numbers.
Proof.
  revert numbers. induction values as [|v values IH]; intros numbers; cbn.
  - split.
    + intros [= <-]. constructor.
    + intros H. inversion H. reflexivity.
  - destruct (PyFloat.parse v) as [f|] eqn:Ev.
    + destruct (floats_of values) as [fs|] eqn:Efs.
      * split.
        -- intros [= <-]. constructor; [exact Ev | now apply IH].
        -- intros H. inversion H as [|? x ? xs Hx Hxs]; subst.
           apply IH in Hxs. injection Hxs as <-. congruence.
      * split; [discriminate|].
        intros H. inversion H as [|? x ? xs Hx Hxs]; subst.
        apply IH in Hxs. discriminate Hxs.
    + split; [discriminate|].
      intros H. inversion H; subst. congruence.
Qed.

Lemma floats_of_None (values : list string) :
  floats_of values = None <->
  exists token, token ∈ values /\ PyFloat.parse token = None.
Proof.
  induction values as [|v values IH]; cbn.
  - split; [discriminate | intros (token & Hin & _); now apply elem_of_nil in Hin].
  - destruct (PyFloat.parse v) as [f|] eqn:Ev.
    + destruct (floats_of values) as [fs|] eqn:Efs.
      * split; [discriminate|].
        intros (token & Hin & Hnone).
        apply elem_of_cons in Hin as [->|Hin]; [congruence|].
        enough (Some fs = None :> option (list float)) by discriminate.
        apply IH. eauto.
      * split; [|reflexivity]. intros _.
        destruct (proj1 IH eq_refl) as (token & Hin & Hnone).
        exists token. split; [apply elem_of_cons; now right | exact Hnone].
    + split; [|reflexivity]. intros _. exists v. split; [apply elem_of_cons; now left | exact Ev].
Qed.

(** C7: [validate_input] fails with [EmptyInput] exactly when the text is
    empty or all whitespace; otherwise it fails with [ParseError] exactly when
    some whitespace-separated token is not a number, and it succeeds exactly
    with the list of the tokens' values, one per token and in the order of
    the tokens.  No other failure is ever reported. *)
Theorem validate_input_spec (text : string) :
  (validate_input text = Invalid EmptyInput <-> all_space text = true) /\
  (validate_input text = Invalid ParseError <->
   all_space text = false /\
   exists token, token ∈ py_split text /\ PyFloat.parse token = None) /\
  (forall numbers : list float,
      validate_input text = Valid numbers <->
      all_space text = false /\
      Forall2 (fun token x => PyFloat.parse token = Some x) (py_split text) numbers) /\
  (forall e, validate_input text = Invalid e -> e = EmptyInput \/ e = ParseError).
Proof.
  unfold validate_input. rewrite blank_iff_all_space.
  destruct (all_space text) eqn:Hblank.
  { repeat split; try discriminate; try tauto.
    - intros [H _]; discriminate H.
    - intros [H _]; discriminate H.
    - intros e [= <-]. now left. }
  assert (Hne : py_split text <> [])
    by (apply split_from_nonempty; now right).
  destruct (floats_of (py_split text)) as [numbers|] eqn:Hfl.
  - assert (Hnum : numbers <> []).
    { intros ->. apply floats_of_Some in Hfl. inversion Hfl as [E|]. congruence. }
    destruct numbers as [|x numbers]; [congruence|].
    repeat split; try discriminate.
    + intros [_ H]. apply floats_of_None in H. congruence.
    + injection H as <-. now apply floats_of_Some.
    + intros [_ H]. apply floats_of_Some in H. congruence.
  - repeat split; try discriminate; try tauto.
    + now apply floats_of_None.
    + intros [_ H]. apply floats_of_Some in H. congruence.
    + intros e [= <-]. now right.
Qed.

(** *** Splitting a text laid out as tokens and separators *)

Lemma append_nil (t : string) : "" +:+ t = t.
Proof. reflexivity. Qed.

Lemma append_cons (c : ascii) (s t : string) : String c s +:+ t = String c (s +:+ t).
Proof. reflexivity. Qed.

Lemma string_app_assoc (a b c : string) : (a +:+ b) +:+ c = a +:+ (b +:+ c).
Proof.
  induction a as [|x a IH]; [reflexivity|].
  rewrite !append_cons. f_equal. exact IH.
Qed.

Lemma string_app_empty_r (a : string) : a +:+ "" = a.
Proof.
  induction a as [|x a IH]; [reflexivity|].
  rewrite append_cons. f_equal. exact IH.
Qed.

Lemma split_from_token (cur token rest : string) :
  no_space token = true ->
  split_from cur (token +:+ rest) = split_from (cur +:+ token) rest.
Proof.
  revert cur. induction token as [|c token IH]; intros cur H.
  - now rewrite append_nil, string_app_empty_r.
  - cbn in H. apply andb_true_iff in H as [Hc Htok].
    apply negb_true_iff in Hc.
    rewrite append_cons. cbn [split_from]. rewrite Hc.
    rewrite IH by exact Htok. f_equal.
    rewrite string_app_assoc. reflexivity.
Qed.

Lemma split_from_skip (blank rest : string) :
  all_space blank = true -> split_from "" (blank +:+ rest) = split_from "" rest.
Proof.
  induction blank as [|c blank IH]; intros H; [reflexivity|].
  cbn in H. apply andb_true_iff in H as [Hc Hb].
  rewrite append_cons. cbn [split_from]. rewrite Hc. cbn. now apply IH.
Qed.

Lemma split_from_separator (cur sep rest : string) :
  String.eqb cur "" = false -> is_separator sep = true ->
  split_from cur (sep +:+ rest) = cur :: split_from "" rest.
Proof.
  intros Hcur Hsep. unfold is_separator in Hsep.
  destruct sep as [|c sep]; [discriminate Hsep|]. cbn in Hsep.
  apply andb_true_iff in Hsep as [Hc Hs].
  rewrite append_cons. cbn [split_from]. rewrite Hc, Hcur.
  f_equal. now apply split_from_skip.
Qed.

Lemma py_split_blank (text : string) : all_space text = true -> py_split text = [].
Proof.
  intros H. unfold py_split.
  rewrite <- (string_app_empty_r text). now rewrite split_from_skip.
Qed.

(** Tokens joined by a separator split back into the same tokens. *)
Lemma py_split_join (sep : string) (tokens : list string) :
  is_separator sep = true ->
  Forall (fun token => is_token token = true) tokens ->
  py_split (String.concat sep tokens) = tokens.
Proof.
  intros Hsep Htok. unfold py_split.
  induction Htok as [|token tokens Ht Htok IH]; [reflexivity|].
  unfold is_token in Ht. apply andb_true_iff in Ht as [Hne Hns].
  apply negb_true_iff in Hne.
  destruct tokens as [|token2 tokens].
  - cbn [String.concat]. rewrite <- (string_app_empty_r token) at 1.
    rewrite split_from_token by exact Hns. rewrite append_nil.
    cbn. now rewrite Hne.
  - change (String.concat sep (token :: token2 :: tokens))
      with (token +:+ (sep +:+ String.concat sep (token2 :: tokens))).
    rewrite split_from_token by exact Hns. rewrite append_nil.
    rewrite split_from_separator by assumption.
    now rewrite IH.
Qed.

(** A text of numbers separated by whitespace is read back number by
    number. *)
Lemma validate_input_join (sep : string) (tokens : list string) (numbers : list float) :
  is_separator sep = true ->
  tokens <> [] ->
  Forall (fun token => is_token token = true) tokens ->
  Forall2 (fun token x => PyFloat.parse token = Some x) tokens numbers ->
  validate_input (String.concat sep tokens) = Valid numbers.
Proof.
  intros Hsep Hne Htok Hnum.
  pose proof (py_split_join sep tokens Hsep Htok) as Hsplit.
  unfold validate_input. rewrite blank_iff_all_space.
  destruct (all_space (String.concat sep tokens)) eqn:E.
  { apply py_split_blank in E. congruence. }
  rewrite Hsplit. apply floats_of_Some in Hnum as Hfl. rewrite Hfl.
  destruct numbers as [|x numbers]; [|reflexivity].
  inversion Hnum. congruence.
Qed.

Example validate_input_example :
  validate_input (String.concat nl ["1"; "2.5"; "-3e2"; "2.5"])
  = Valid [1%float; 2.5%float; (-300)%float; 2.5%float].
Proof. vm_compute. reflexivity. Qed.

(** ** Claims about [format_results] *)

Lemma bind_Ok_inv {A B : Type} (m : py A) (k : A -> py B) (b : B) :
  (m ≫= k) = Ok b -> exists a, m = Ok a /\ k a = Ok b.
Proof. destruct m as [a|e]; [eauto | discriminate]. Qed.

Lemma getitem_Ok (results : gmap string pyval) (key : string) (v : pyval) :
  getitem results key = Ok v <-> results !! key = Some v.
Proof.
  unfold getitem. destruct (results !! key); split; congruence.
Qed.

Ltac py_inv H :=
  let a := fresh "a" in
  let Ha := fresh "Ha" in
  apply bind_Ok_inv in H as (a & Ha & H).

Lemma significance_label_iff (b : bool) :
  (significance_label b = "有意" <-> b = true) /\
  (significance_label b = "非有意" <-> b = false).
Proof. destruct b; cbn; repeat split; congruence. Qed.

Section FormattingFacts.

Variable fmt_float : nat -> float -> string.
Variable fmt_int : nat -> Z -> string.
Variable str_of : pyval -> string.

Local Abbreviation format_results := (format_results fmt_float fmt_int str_of).

Lemma format_results_ttest_tail (results : gmap string pyval) (text : string) :
  format_results results "ttest" = Ok text ->
  exists pvalue below body,
    results !! "pvalue" = Some pvalue /\
    py_lt_alpha pvalue = Ok below /\
    text = body +:+ nl +:+ "判定 (α=0.05): " +:+ significance_label below.
Proof.
  unfold format_results. cbn [String.eqb Ascii.eqb Bool.eqb].
  intros H.
  py_inv H. py_inv H. py_inv H. py_inv H. py_inv H. py_inv H. py_inv H. py_inv H.
  injection H as <-.
  apply getitem_Ok in Ha0.
  eexists _, _, _. split; [exact Ha0|]. split; [exact Ha1|].
  rewrite <- !string_app_assoc. reflexivity.
Qed.

(** C8: when the p-value of the result is the float [p], the text rendered
    for kind "ttest" ends with the judgment line, whose label is "有意"
    (significant) exactly when [p < 0.05] and "非有意" (not significant)
    otherwise.  The threshold is the literal 0.05 of the comparison: the
    function takes no other input than the result and the kind. *)
Theorem format_results_ttest_significance
    (results : gmap string pyval) (p : float) (text : string) :
  results !! "pvalue" = Some (VFloat p) ->
  format_results results "ttest" = Ok text ->
  exists body label,
    text = body +:+ nl +:+ "判定 (α=0.05): " +:+ label /\
    (label = "有意" <-> PrimFloat.ltb p 0.05%float = true) /\
    (label = "非有意" <-> PrimFloat.ltb p 0.05%float = false).
Proof.
  intros Hp H.
  destruct (format_results_ttest_tail results text H)
    as (pvalue & below & body & Hp' & Hlt & ->).
  rewrite Hp in Hp'. injection Hp' as <-. cbn in Hlt. injection Hlt as <-.
  exists body, (significance_label (PrimFloat.ltb p 0.05%float)).
  split; [reflexivity|]. apply significance_label_iff.
Qed.

(** A result produced by [perform_ttest] is always rendered. *)
Lemma format_results_of_ttest
    (ttest_ind ttest_rel : list float -> list float -> float * float)
    (group1 group2 : list float) (test_type : string) (r : gmap string pyval) :
  perform_ttest ttest_ind ttest_rel group1 group2 test_type = Ok r ->
  exists p text,
    r !! "pvalue" = Some (VFloat p) /\ format_results r "ttest" = Ok text.
Proof.
  unfold perform_ttest. intros H. py_inv H.
  destruct a as [[statistic pvalue] dof]. injection H as <-.
  exists pvalue. eexists. split; [by simplify_map_eq|].
  unfold format_results. cbn [String.eqb Ascii.eqb Bool.eqb].
  unfold getitem. simplify_map_eq. reflexivity.
Qed.

Lemma format_results_default (results : gmap string pyval) (test_type : string) :
  test_type <> "ttest" -> test_type <> "qtest" -> test_type <> "error_propagation" ->
  format_results results test_type =
    confidence_level ← getitem results "confidence_level";
    mean ← getitem results "mean" ≫= format_f fmt_float fmt_int 4;
    std ← getitem results "std" ≫= format_f fmt_float fmt_int 4;
    percent ← format_f fmt_float fmt_int 1 (py_times_100 confidence_level);
    lower ← getitem results "lower" ≫= format_f fmt_float fmt_int 4;
    upper ← getitem results "upper" ≫= format_f fmt_float fmt_int 4;
    Ok ("信頼区間の計算結果:" +:+ nl
        +:+ "平均値 = " +:+ mean +:+ nl
        +:+ "標準偏差 = " +:+ std +:+ nl
        +:+ percent +:+ "%信頼区間:" +:+ nl
        +:+ "下限 = " +:+ lower +:+ nl
        +:+ "上限 = " +:+ upper).
Proof.
  intros H1 H2 H3. unfold format_results.
  apply String.eqb_neq in H1, H2, H3. now rewrite H1, H2, H3.
Qed.

(** C10: a kind other than "ttest", "qtest" and "error_propagation" is not
    rejected: [format_results] treats it exactly as "confidence_interval",
    and on a confidence-interval result it returns the confidence-interval
    text. *)
Theorem format_results_unrecognized_kind
    (results : gmap string pyval) (test_type : string) :
  test_type <> "ttest" -> test_type <> "qtest" -> test_type <> "error_propagation" ->
  format_results results test_type = format_results results "confidence_interval" /\
  (forall mean std lower upper level : float,
      results !! "mean" = Some (VFloat mean) ->
      results !! "std" = Some (VFloat std) ->
      results !! "lower" = Some (VFloat lower) ->
      results !! "upper" = Some (VFloat upper) ->
      results !! "confidence_level" = Some (VFloat level) ->
      format_results results test_type
      = Ok ("信頼区間の計算結果:" +:+ nl
            +:+ "平均値 = " +:+ fmt_float 4 mean +:+ nl
            +:+ "標準偏差 = " +:+ fmt_float 4 std +:+ nl
            +:+ fmt_float 1 (level * 100)%float +:+ "%信頼区間:" +:+ nl
            +:+ "下限 = " +:+ fmt_float 4 lower +:+ nl
            +:+ "上限 = " +:+ fmt_float 4 upper)).
Proof.
  intros H1 H2 H3. split.
  - rewrite format_results_default by assumption.
    now rewrite (format_results_default results "confidence_interval").
  - intros mean std lower upper level Hm Hs Hl Hu Hc.
    rewrite format_results_default by assumption.
    unfold getitem. rewrite Hm, Hs, Hl, Hu, Hc. reflexivity.
Qed.

End FormattingFacts.

Lemma format_results_ttest_significance_witness :
  exists body label,
    Demo.ttest_text = body +:+ nl +:+ "判定 (α=0.05): " +:+ label /\
    (label = "有意" <-> PrimFloat.ltb 0.01%float 0.05%float = true) /\
    (label = "非有意" <-> PrimFloat.ltb 0.01%float 0.05%float = false).
Proof.
  apply (format_results_ttest_significance
           Demo.fmt_float Demo.fmt_int Demo.str_of
           Demo.ttest_result 0.01%float Demo.ttest_text).
  - vm_compute. reflexivity.
  - vm_compute. reflexivity.
Defined.

Lemma format_results_unrecognized_kind_witness :
  format_results Demo.fmt_float Demo.fmt_int Demo.str_of Demo.interval_result "interval"
  = format_results Demo.fmt_float Demo.fmt_int Demo.str_of Demo.interval_result
      "confidence_interval" /\
  (forall mean std lower upper level : float,
      Demo.interval_result !! "mean" = Some (VFloat mean) ->
      Demo.interval_result !! "std" = Some (VFloat std) ->
      Demo.interval_result !! "lower" = Some (VFloat lower) ->
      Demo.interval_result !! "upper" = Some (VFloat upper) ->
      Demo.interval_result !! "confidence_level" = Some (VFloat level) ->
      format_results Demo.fmt_float Demo.fmt_int Demo.str_of Demo.interval_result
        "interval"
      = Ok ("信頼区間の計算結果:" +:+ nl
            +:+ "平均値 = " +:+ Demo.fmt_float 4 mean +:+ nl
            +:+ "標準偏差 = " +:+ Demo.fmt_float 4 std +:+ nl
            +:+ Demo.fmt_float 1 (level * 100)%float +:+ "%信頼区間:" +:+ nl
            +:+ "下限 = " +:+ Demo.fmt_float 4 lower +:+ nl
            +:+ "上限 = " +:+ Demo.fmt_float 4 upper)).
Proof.
  apply (format_results_unrecognized_kind
           Demo.fmt_float Demo.fmt_int Demo.str_of Demo.interval_result "interval");
    discriminate.
Defined.

Example format_results_unrecognized_kind_text :
  format_results Demo.fmt_float Demo.fmt_int Demo.str_of Demo.interval_result "interval"
  = Ok ("信頼区間の計算結果:" +:+ nl +:+ "平均値 = #" +:+ nl +:+ "標準偏差 = #" +:+ nl
        +:+ "#%信頼区間:" +:+ nl +:+ "下限 = #" +:+ nl +:+ "上限 = #").
Proof. vm_compute. reflexivity. Qed.

(** ** Claims about [calculate_error_propagation] *)

Section ErrorPropagationFacts.

Variable sp : Sympy.library.
Variable pow : float -> float -> float.

Lemma propagate_spec (func : Sympy.expr sp) (var_dict : gmap string float)
    (pairs : list (string * float)) (total : float) (ds : list (string * string))
    (total' : float) (ds' : list (string * string)) :
  propagate sp pow func var_dict pairs total ds = Ok (total', ds') ->
  exists (partials : list (Sympy.expr sp)) (dvs squares : list float),
    Forall2 (fun p d => Sympy.diff sp func p.1 = Ok d) pairs partials /\
    Forall2 (fun d dv => Sympy.subs sp d var_dict = Ok dv) partials dvs /\
    py_squares pow (zip_with PrimFloat.mul dvs (pairs.*2)) = Ok squares /\
    total' = fold_left PrimFloat.add squares total /\
    ds' = ds ++ zip_with (fun p d => (p.1, Sympy.sstr sp d)) pairs partials.
Proof.
  revert total ds. induction pairs as [|[symbol error] pairs IH]; intros total ds H.
  - cbn in H. injection H as <- <-. exists [], [], []. repeat split.
    + constructor.
    + constructor.
    + now rewrite app_nil_r.
  - cbn [propagate] in H. py_inv H. py_inv H. py_inv H.
    destruct (IH _ _ H) as (partials & dvs & squares & Hd & Hv & Hsq & -> & ->).
    exists (a :: partials), (a0 :: dvs), (a1 :: squares). repeat split.
    + constructor; [exact Ha | exact Hd].
    + constructor; [exact Ha0 | exact Hv].
    + change (((symbol, error) :: pairs).*2) with (error :: pairs.*2).
      cbn [zip_with py_squares]. rewrite Ha1, bind_Ok, Hsq. reflexivity.
    + cbn [zip_with fst]. now rewrite <- app_assoc.
Qed.

(** What [calculate_error_propagation] returns, read off its result. *)
Lemma error_propagation_formula
    (variables : list string) (values errors : list float) (function_str : string)
    (r : gmap string pyval) :
  calculate_error_propagation sp pow variables values errors function_str = Ok r ->
  exists (func : Sympy.expr sp) (partials : list (Sympy.expr sp))
         (dvs : list float) (value propagated_error : float),
    Sympy.sympify sp function_str = Ok func /\
    Sympy.subs sp func (make_var_dict variables values) = Ok value /\
    Forall2 (fun p d => Sympy.diff sp func p.1 = Ok d) (zip variables errors) partials /\
    Forall2 (fun d dv => Sympy.subs sp d (make_var_dict variables values) = Ok dv)
            partials dvs /\
    root_sum_of_squares pow dvs (zip variables errors).*2 = Ok propagated_error /\
    r = <["function_value" := VFloat value]>
          (<["propagated_error" := VFloat propagated_error]>
             (<["relative_error" :=
                  VFloat (if negb (PrimFloat.eqb value F.zero)
                          then (propagated_error / PrimFloat.abs value * 100)%float
                          else infinity)]>
                (<["original_function" := VStr (Sympy.sstr sp func)]>
                   (<["derivatives" :=
                        VDerivs (zip_with (fun p d => (p.1, Sympy.sstr sp d))
                                          (zip variables errors) partials)]> ∅)))).
Proof.
  unfold calculate_error_propagation. intros H.
  py_inv H. py_inv H. py_inv H. destruct a1 as [total ds]. py_inv H.
  apply propagate_spec in Ha1 as (partials & dvs & squares & Hd & Hv & Hsq & -> & ->).
  injection H as <-.
  exists a, partials, dvs, a0, a1.
  split; [exact Ha|]. split; [exact Ha0|]. split; [exact Hd|]. split; [exact Hv|].
  split; [|reflexivity].
  unfold root_sum_of_squares. rewrite Hsq. exact Ha2.
Qed.


End ErrorPropagationFacts.


(** With the exact [pow] the propagated error is the correctly rounded
    square root of 5. *)
Example error_propagation_example_value :
  exists r,
    calculate_error_propagation Demo.small_sympy Demo.pow
      ["x"; "y"] [2%float; 3%float] [0.1%float; 0.2%float] "x**2 + 2*x*y + y**2"
    = Ok r /\
    r !! "function_value" = Some (VFloat 25%float) /\
    r !! "propagated_error" = Some (VFloat (PrimFloat.sqrt 5%float)).
Proof. eexists. repeat split; vm_compute; reflexivity. Qed.

(** A square that overflows raises [OverflowError]. *)
Example square_overflows (pow : float -> float -> float) :
  pow 1e200%float 2%float = infinity ->
  F.py_pow pow 1e200%float 2%float = Raise OverflowError.
Proof.
  intros H.
  transitivity (if F.is_inf (pow 1e200%float 2%float) then Raise OverflowError
                else Ok (pow 1e200%float 2%float)); [reflexivity|].
  now rewrite H.
Qed.

(** ** Arithmetic on a zero or a NaN *)

Module FloatArith.

Lemma zero_or_nan_spec (x : float) :
  zero_or_nan x = true <-> sf_zero_or_nan (Prim2SF x).
Proof.
  unfold zero_or_nan.
  destruct (F.is_nan x) eqn:Hnan.
  - apply FloatFacts.is_nan_spec in Hnan. rewrite Hnan. cbn. tauto.
  - cbn [orb]. rewrite FloatAxioms.eqb_spec.
    change (Prim2SF F.zero) with (S754_zero false).
    assert (Hx : Prim2SF x <> S754_nan).
    { intros E. apply FloatFacts.is_nan_spec in E. congruence. }
    destruct (Prim2SF x) as [s|s| |s m e]; cbn; try tauto.
    + destruct s; split; (discriminate || tauto).
    + destruct s; split; (discriminate || tauto).
Qed.

Lemma zero_or_nan_cases (x : float) :
  zero_or_nan x = false -> 
  exists s, Prim2SF x = S754_infinity s \/ exists m e, Prim2SF x = S754_finite s m e.
Proof.
  intros H. apply not_true_iff_false in H. rewrite zero_or_nan_spec in H.
  destruct (Prim2SF x) as [s|s| |s m e]; cbn in H; try tauto; exists s; eauto.
Qed.

Lemma div_zero_or_nan (x y : float) :
  zero_or_nan x = true -> zero_or_nan (x / y) = true.
Proof.
  rewrite !zero_or_nan_spec, div_spec.
  destruct (Prim2SF x) as [sx|sx| |sx mx ex]; cbn; try tauto;
    destruct (Prim2SF y) as [sy|sy| |sy my ey]; cbn; tauto.
Qed.

Lemma mul_zero_or_nan (t y : float) :
  zero_or_nan y = true -> zero_or_nan (t * y) = true.
Proof.
  rewrite !zero_or_nan_spec, mul_spec.
  destruct (Prim2SF y) as [sy|sy| |sy my ey]; cbn; try tauto;
    destruct (Prim2SF t) as [st|st| |st mt et]; cbn; tauto.
Qed.

Lemma add_zero_or_nan (x y : float) :
  zero_or_nan x = true -> zero_or_nan y = true -> zero_or_nan (x + y) = true.
Proof.
  rewrite !zero_or_nan_spec, add_spec.
  destruct (Prim2SF x) as [sx|sx| |sx mx ex]; cbn; try tauto;
    destruct (Prim2SF y) as [sy|sy| |sy my ey]; cbn; try tauto;
    destruct sx, sy; cbn; tauto.
Qed.

Lemma SFltb_refl (x : spec_float) : SFltb x x = false.
Proof.
  unfold SFltb. destruct x as [s|s| |s m e] eqn:E; try reflexivity.
  - now destruct s.
  - rewrite FloatFacts.SFcompare_refl; [reflexivity | discriminate].
Qed.

(** Subtracting or adding a zero or a NaN never moves a number strictly below
    or above itself. *)
Lemma sub_zero_or_nan_not_below (x m : float) :
  zero_or_nan m = true -> PrimFloat.ltb (x - m) x = false.
Proof.
  rewrite zero_or_nan_spec, FloatAxioms.ltb_spec, sub_spec.
  destruct (Prim2SF m) as [sm|sm| |sm mm em]; cbn; try tauto; intros _.
  - destruct (Prim2SF x) as [sx|sx| |sx mx ex] eqn:E; try reflexivity.
    + destruct sx, sm; reflexivity.
    + apply SFltb_refl.
    + apply SFltb_refl.
  - destruct (Prim2SF x) as [sx|sx| |sx mx ex]; reflexivity.
Qed.

Lemma add_zero_or_nan_not_above (x m : float) :
  zero_or_nan m = true -> PrimFloat.ltb x (x + m) = false.
Proof.
  rewrite zero_or_nan_spec, FloatAxioms.ltb_spec, add_spec.
  destruct (Prim2SF m) as [sm|sm| |sm mm em]; cbn; try tauto; intros _.
  - destruct (Prim2SF x) as [sx|sx| |sx mx ex] eqn:E;
      try reflexivity; try apply SFltb_refl.
    destruct sx, sm; reflexivity.
  - destruct (Prim2SF x) as [sx|sx| |sx mx ex]; reflexivity.
Qed.

(** A square root that is neither zero nor NaN is positive. *)
Lemma sqrt_positive (v : float) :
  zero_or_nan (PrimFloat.sqrt v) = false ->
  PrimFloat.ltb F.zero (PrimFloat.sqrt v) = true.
Proof.
  intros H. apply not_true_iff_false in H. rewrite zero_or_nan_spec in H.
  rewrite FloatAxioms.ltb_spec. change (Prim2SF F.zero) with (S754_zero false).
  rewrite sqrt_spec in *. unfold SF64sqrt, SFsqrt in *.
  destruct (Prim2SF v) as [s|s| |s m e]; cbn in H |- *; try tauto.
  - destruct s; cbn in H |- *; [tauto | reflexivity].
  - destruct s; cbn in H |- *; [tauto|].
    destruct (SFsqrt_core_binary prec emax (Z.pos m) e) as [[mz ez] lz].
    unfold binary_round_aux in *.
    destruct (shr_fexp prec emax mz ez lz) as [mrs' e'].
    destruct (shr_fexp prec emax _ e' loc_Exact) as [mrs'' e''].
    destruct (shr_m mrs'') as [|p|p]; cbn in H |- *; try tauto.
    destruct (e'' <=? emax - prec); reflexivity.
Qed.

End FloatArith.

(** ** Division by one, and the deviation of a single value *)

Module FloatDiv.

Lemma div_eucl_exact (q b : Z) : 0 < b -> Z.div_eucl (q * b) b = (q, 0).
Proof.
  intros Hb.
  pose proof (Z.div_mul q b ltac:(lia)) as Hq.
  pose proof (Z.mod_mul q b ltac:(lia)) as Hr.
  unfold Z.div, Z.modulo in Hq, Hr.
  destruct (Z.div_eucl (q * b) b) as [q' r']. congruence.
Qed.

(** The mantissa and exponent of 1.0. *)
Local Abbreviation one_m := (4503599627370496%positive).
Local Abbreviation one_e := (-52).

Ltac core_step He' Hs :=
  replace (Z.min _ _) with He' by lia;
  replace (_ - one_e - He') with Hs by lia;
  rewrite Z.shiftl_mul_pow2 by lia.

Lemma div_core_one (m : positive) (e : Z) :
  bounded prec emax m e = true ->
  SFdiv_core_binary prec emax (Zpos m) e (Zpos one_m) one_e
  = if (Zpos (digits2_pos m) =? 53) && (-1074 <? e)
    then (Zpos m~0, e - 1, loc_Exact) else (Zpos m, e, loc_Exact).
Proof.
  unfold bounded, canonical_mantissa, fexp, emin, prec, emax.
  intros H. apply andb_prop in H as [H1 H2].
  apply Z.eqb_eq in H1. apply Z.leb_le in H2.
  unfold SFdiv_core_binary, fexp, emin.
  cbn [Zdigits2]. change (Zpos (digits2_pos one_m)) with 53.
  set (d := Zpos (digits2_pos m)) in *.
  assert (Hd : 1 <= d) by (unfold d; lia).
  destruct (Z.eqb_spec d 53) as [Hd53|Hd53];
    destruct (Z.ltb_spec (-1074) e) as [He|He]; cbn [andb].
  - core_step (e - 1) 53.
    replace (Z.pos m * 2 ^ 53) with (Z.pos m~0 * Zpos one_m) by lia.
    rewrite div_eucl_exact by lia. reflexivity.
  - core_step e 52. change (2 ^ 52) with (Zpos one_m).
    rewrite div_eucl_exact by lia. reflexivity.
  - core_step e 52. change (2 ^ 52) with (Zpos one_m).
    rewrite div_eucl_exact by lia. reflexivity.
  - core_step e 52. change (2 ^ 52) with (Zpos one_m).
    rewrite div_eucl_exact by lia. reflexivity.
Qed.

Lemma round_canonical (s : bool) (m : positive) (e : Z) :
  bounded prec emax m e = true ->
  binary_round_aux prec emax s (Zpos m) e loc_Exact = S754_finite s m e.
Proof.
  unfold bounded, canonical_mantissa. intros H.
  apply andb_prop in H as [H1 H2]. apply Z.eqb_eq in H1.
  unfold binary_round_aux, shr_fexp. cbn [Zdigits2].
  rewrite H1, Z.sub_diag.
  cbn [shr shr_record_of_loc shr_m loc_of_shr_record round_nearest_even Zdigits2].
  rewrite H1, Z.sub_diag. cbn [shr shr_m]. now rewrite H2.
Qed.

Lemma round_doubled (s : bool) (m : positive) (e : Z) :
  bounded prec emax m e = true ->
  binary_round_aux prec emax s (Zpos m~0) (e - 1) loc_Exact = S754_finite s m e.
Proof.
  intros Hb. pose proof Hb as H. unfold bounded, canonical_mantissa in H.
  apply andb_prop in H as [H1 H2]. apply Z.eqb_eq in H1.
  rewrite <- (round_canonical s m e Hb).
  unfold binary_round_aux. unfold shr_fexp at 1 3. cbn [Zdigits2 digits2_pos].
  rewrite Pos2Z.inj_succ.
  replace (Z.succ (Z.pos (digits2_pos m)) + (e - 1))
    with (Z.pos (digits2_pos m) + e) by lia.
  rewrite H1, Z.sub_diag.
  replace (e - (e - 1)) with 1 by lia.
  cbn [shr iter_pos shr_record_of_loc shr_1 shr_m loc_of_shr_record
       round_nearest_even orb].
  replace (e - 1 + 1) with e by lia. reflexivity.
Qed.

Lemma SFdiv_one (s : bool) (m : positive) (e : Z) :
  bounded prec emax m e = true ->
  SF64div (S754_finite s m e) (S754_finite false one_m one_e) = S754_finite s m e.
Proof.
  intros Hb. unfold SF64div, SFdiv. rewrite div_core_one by exact Hb.
  rewrite xorb_false_r.
  destruct ((Zpos (digits2_pos m) =? 53) && (-1074 <? e)).
  - now apply round_doubled.
  - now apply round_canonical.
Qed.

(** Dividing by 1.0 is exact. *)
Lemma div_one (x : float) : (x / 1)%float = x.
Proof.
  apply Prim2SF_inj. rewrite div_spec.
  change (Prim2SF 1) with (S754_finite false one_m one_e).
  pose proof (Prim2SF_valid x) as Hv.
  destruct (Prim2SF x) as [s|s| |s m e]; cbn.
  - now rewrite xorb_false_r.
  - now rewrite xorb_false_r.
  - reflexivity.
  - now apply SFdiv_one.
Qed.

(** [x - (0 + x)] is a zero, or NaN when [x] is not finite. *)
Lemma sub_self_zero_or_nan (x : float) :
  zero_or_nan (x - (F.zero + x)) = true.
Proof.
  rewrite FloatArith.zero_or_nan_spec, sub_spec, add_spec.
  change (Prim2SF F.zero) with (S754_zero false).
  destruct (Prim2SF x) as [s|s| |s m e]; cbn.
  - destruct s; exact I.
  - destruct s; exact I.
  - exact I.
  - unfold SF64sub, SFsub. rewrite Z.sub_diag. exact I.
Qed.

Lemma div_zero_nan (a : float) :
  zero_or_nan a = true -> F.is_nan (a / F.zero) = true.
Proof.
  rewrite FloatArith.zero_or_nan_spec, FloatFacts.is_nan_spec, div_spec.
  change (Prim2SF F.zero) with (S754_zero false).
  destruct (Prim2SF a) as [s|s| |s m e]; cbn; tauto.
Qed.

Lemma sqrt_nan (v : float) :
  F.is_nan v = true -> F.is_nan (PrimFloat.sqrt v) = true.
Proof.
  rewrite !FloatFacts.is_nan_spec, sqrt_spec. now intros ->.
Qed.

End FloatDiv.

(** ** Claims about [calculate_confidence_interval] *)

(** The pairwise sum needs no more fuel than the length of the array. *)
Lemma pairwise_sum_fuel (fuel fuel' : nat) (a : list float) :
  (length a <= fuel)%nat -> (length a <= fuel')%nat ->
  Np.pairwise_sum fuel a = Np.pairwise_sum fuel' a.
Proof.
  revert fuel' a. induction fuel as [|fuel IH]; intros fuel' a H H'.
  - destruct a; [|cbn in H; lia]. now destruct fuel'.
  - destruct fuel' as [|fuel'].
    + destruct a; [|cbn in H'; lia]. reflexivity.
    + cbn [Np.pairwise_sum].
      destruct (Nat.ltb_spec (length a) 8) as [H8|H8]; [reflexivity|].
      destruct (Nat.leb_spec (length a) 128) as [Hb|Hb]; [reflexivity|].
      set (n2 := (length a / 2 - (length a / 2) mod 8)%nat).
      assert (Hhalf : (length a / 2 <= length a - 65)%nat).
      { pose proof (Nat.div_mod_eq (length a) 2) as E.
        pose proof (Nat.mod_upper_bound (length a) 2 ltac:(lia)). lia. }
      assert (Hlo : (57 <= n2)%nat).
      { unfold n2.
        pose proof (Nat.mod_upper_bound (length a / 2) 8 ltac:(lia)).
        assert (64 <= length a / 2)%nat
          by (apply Nat.div_le_lower_bound; lia).
        lia. }
      assert (Hhi : (n2 <= length a - 65)%nat) by (unfold n2; lia).
      f_equal; apply IH; rewrite ?length_take, ?length_drop; lia.
Qed.

(** Adding zero twice is adding it once. *)
Lemma zero_add_idem (x : float) : (F.zero + (F.zero + x))%float = (F.zero + x)%float.
Proof.
  apply Prim2SF_inj. rewrite !add_spec.
  change (Prim2SF F.zero) with (S754_zero false).
  now destruct (Prim2SF x) as [[]|[]| |s m e].
Qed.

(** The sum of one element. *)
Lemma sum_single (x : float) : Np.sum [x] = (F.zero + x)%float.
Proof. unfold Np.sum. cbn. apply zero_add_idem. Qed.

(** The standard deviation of a single value is NaN, whatever the value. *)
Lemma std_single_value (x : float) : F.is_nan (Np.std_ddof1 [x]) = true.
Proof.
  unfold Np.std_ddof1, Np.mean. cbn [length map Nat.sub]. rewrite !sum_single.
  change (F.of_nat 1) with 1%float. change (F.of_nat 0) with F.zero.
  rewrite FloatDiv.div_one.
  apply FloatDiv.sqrt_nan, FloatDiv.div_zero_nan.
  apply FloatArith.add_zero_or_nan; [reflexivity|].
  apply FloatArith.mul_zero_or_nan, FloatDiv.sub_self_zero_or_nan.
Qed.

Lemma std_short_sample (data : list float) :
  (length data < 2)%nat -> zero_or_nan (Np.std_ddof1 data) = true.
Proof.
  intros Hn. destruct data as [|x [|y data]]; cbn in Hn; [| |lia].
  - vm_compute. reflexivity.
  - unfold zero_or_nan. now rewrite std_single_value.
Qed.

Section ConfidenceIntervalFacts.

Variable t_ppf : float -> Z -> float.

(** With a standard deviation that is zero or NaN the margin is zero or NaN,
    and neither bound is strictly away from the mean. *)
Lemma interval_collapses (data : list float) (level : float) :
  zero_or_nan (Np.std_ddof1 data) = true ->
  let n := length data in
  let margin :=
    (t_ppf ((1 + level) / 2) (Z.of_nat n - 1)
     * (Np.std_ddof1 data / Np.sqrt (F.of_nat n)))%float in
  PrimFloat.ltb (Np.mean data - margin) (Np.mean data) = false /\
  PrimFloat.ltb (Np.mean data) (Np.mean data + margin) = false.
Proof.
  intros Hstd n margin.
  assert (Hm : zero_or_nan margin = true)
    by now apply FloatArith.mul_zero_or_nan, FloatArith.div_zero_or_nan.
  split.
  - now apply FloatArith.sub_zero_or_nan_not_below.
  - now apply FloatArith.add_zero_or_nan_not_above.
Qed.

(** C2, amended: for every sample of length at least 1,
    [calculate_confidence_interval] returns mean, std, [lower = mean - m] and
    [upper = mean + m] with [m = t * (std / sqrt(n))]; a bound strictly away
    from the mean ([lower < mean] or [mean < upper]) occurs only when the
    sample has at least two values and the standard deviation is positive.
    When the standard deviation is zero or NaN, neither [lower < mean] nor
    [mean < upper] holds. *)
Theorem confidence_interval_strict_only_with_spread
    (data : list float) (level : float) :
  (1 <= length data)%nat ->
  exists r mean std lower upper : _,
    calculate_confidence_interval t_ppf data level = Ok r /\
    r !! "mean" = Some (VFloat mean) /\
    r !! "std" = Some (VFloat std) /\
    r !! "lower" = Some (VFloat lower) /\
    r !! "upper" = Some (VFloat upper) /\
    mean = Np.mean data /\
    std = Np.std_ddof1 data /\
    (let m := (t_ppf ((1 + level) / 2) (Z.of_nat (length data) - 1)
               * (std / Np.sqrt (F.of_nat (length data))))%float in
     lower = (mean - m)%float /\ upper = (mean + m)%float) /\
    (PrimFloat.ltb lower mean = true \/ PrimFloat.ltb mean upper = true ->
     (2 <= length data)%nat /\ PrimFloat.ltb F.zero std = true) /\
    (zero_or_nan std = true ->
     PrimFloat.ltb lower mean = false /\ PrimFloat.ltb mean upper = false).
Proof.
  intros _.
  eexists _, (Np.mean data), (Np.std_ddof1 data), _, _.
  split; [reflexivity|].
  do 4 (split; [by simplify_map_eq|]).
  do 2 (split; [reflexivity|]).
  split; [cbv zeta; split; reflexivity|].
  pose proof (interval_collapses data level) as Hcollapse. cbv zeta in Hcollapse.
  split; [|exact Hcollapse].
  intros Hstrict.
  destruct (zero_or_nan (Np.std_ddof1 data)) eqn:Hstd.
  { destruct (Hcollapse eq_refl) as [Hl Hu].
    destruct Hstrict as [H|H]; congruence. }
  split.
  - destruct (Nat.le_gt_cases 2 (length data)) as [Hn|Hn]; [exact Hn|].
    apply std_short_sample in Hn. congruence.
  - now apply FloatArith.sqrt_positive.
Qed.

End ConfidenceIntervalFacts.

Lemma confidence_interval_strict_only_with_spread_witness :
  exists r mean std lower upper : _,
    calculate_confidence_interval Demo.t_ppf
      [10%float; 12%float; 11%float; 13%float; 9%float] 0.683%float = Ok r /\
    r !! "mean" = Some (VFloat mean) /\
    r !! "std" = Some (VFloat std) /\
    r !! "lower" = Some (VFloat lower) /\
    r !! "upper" = Some (VFloat upper) /\
    mean = Np.mean [10%float; 12%float; 11%float; 13%float; 9%float] /\
    std = Np.std_ddof1 [10%float; 12%float; 11%float; 13%float; 9%float] /\
    (lower = (mean - Demo.t_ppf ((1 + 0.683) / 2) (5 - 1)
                     * (std / Np.sqrt (F.of_nat 5)))%float /\
     upper = (mean + Demo.t_ppf ((1 + 0.683) / 2) (5 - 1)
                     * (std / Np.sqrt (F.of_nat 5)))%float) /\
    (PrimFloat.ltb lower mean = true \/ PrimFloat.ltb mean upper = true ->
     (2 <= 5)%nat /\ PrimFloat.ltb F.zero std = true) /\
    (zero_or_nan std = true ->
     PrimFloat.ltb lower mean = false /\ PrimFloat.ltb mean upper = false).
Proof.
  apply (confidence_interval_strict_only_with_spread Demo.t_ppf
           [10%float; 12%float; 11%float; 13%float; 9%float] 0.683%float).
  cbn. lia.
Defined.

(** On the sample 10, 12, 11, 13, 9 the interval is strict: mean 11 and the
    unbiased standard deviation [sqrt(2.5)]. *)
Example confidence_interval_example :
  strictly_inside Demo.interval_result /\
  Demo.interval_result !! "mean" = Some (VFloat 11%float) /\
  Demo.interval_result !! "std" = Some (VFloat (PrimFloat.sqrt 2.5%float)).
Proof.
  split.
  - exists 10.292893218813452%float, 11%float, 11.707106781186548%float.
    repeat split; vm_compute; reflexivity.
  - split; vm_compute; reflexivity.
Qed.

(** Whatever the t quantile and the level, the interval computed for the
    sample 5, 5 is not strict. *)
Lemma interval_of_equal_values_not_strict
    (t_ppf : float -> Z -> float) (level : float) (r : gmap string pyval) :
  calculate_confidence_interval t_ppf [5%float; 5%float] level = Ok r ->
  ~ strictly_inside r.
Proof.
  intros Hr (lower & mean & upper & Hl & Hm & Hu & Hlt & _).
  unfold calculate_confidence_interval in Hr. injection Hr as <-.
  simplify_map_eq.
  pose proof (interval_collapses t_ppf [5%float; 5%float] level) as Hc.
  cbv zeta in Hc. destruct Hc as [Hc _]; [vm_compute; reflexivity|].
  enough (true = false) by discriminate.
  rewrite <- Hlt. exact Hc.
Qed.

(** C2, as stated, fails: the sample 5, 5 is accepted (length 2), its
    standard deviation is 0, and for no t quantile and no level does
    [calculate_confidence_interval] return [lower < mean < upper] on it:
    [lower = mean = upper]. *)
Lemma confidence_interval_not_strict_on_equal_values :
  (1 <= length [5%float; 5%float])%nat /\
  Np.std_ddof1 [5%float; 5%float] = 0%float /\
  ~ (exists (t_ppf : float -> Z -> float) (level : float) (r : gmap string pyval),
        calculate_confidence_interval t_ppf [5%float; 5%float] level = Ok r /\
        strictly_inside r).
Proof.
  split; [cbn; lia|]. split; [vm_compute; reflexivity|].
  intros (t_ppf & level & r & Hr & Hstrict).
  exact (interval_of_equal_values_not_strict t_ppf level r Hr Hstrict).
Qed.

(** A single value gives NaN for the standard deviation and both bounds. *)
Lemma confidence_interval_single_value
    (t_ppf : float -> Z -> float) (level x : float) (r : gmap string pyval) :
  calculate_confidence_interval t_ppf [x] level = Ok r ->
  exists std, r !! "std" = Some (VFloat std) /\ F.is_nan std = true /\
              ~ strictly_inside r.
Proof.
  intros Hr. unfold calculate_confidence_interval in Hr. injection Hr as <-.
  exists (Np.std_ddof1 [x]). split; [by simplify_map_eq|].
  split; [apply std_single_value|].
  intros (lower & mean & upper & Hl & Hm & Hu & Hlt & _).
  simplify_map_eq.
  pose proof (interval_collapses t_ppf [x] level) as Hc.
  cbv zeta in Hc. destruct Hc as [Hc _].
  - unfold zero_or_nan. now rewrite std_single_value.
  - enough (true = false) by discriminate.
    rewrite <- Hlt. exact Hc.
Qed.

(** * Further properties *)

(** ** [perform_qtest] below three values, and beyond ten *)

Section QtestEdges.

Variable sorted : list float -> list float.
Hypothesis sorted_perm : forall data, sorted data ≡ₚ data.

Local Abbreviation perform_qtest := (perform_qtest sorted).
Local Abbreviation zero_range := (zero_range sorted).

Lemma perform_qtest_pair (data : list float) (cl : float) :
  length data = 2%nat ->
  perform_qtest data cl
  = if zero_range data then Raise ZeroDivisionError else Raise TypeError.
Proof.
  intros E. rewrite (perform_qtest_unfold sorted sorted_perm) by lia.
  now rewrite critical_value_small by lia.
Qed.

Lemma perform_qtest_needs_three (data : list float) (cl : float) :
  (length data < 3)%nat -> ~ returns (perform_qtest data cl).
Proof.
  intros Hn [r Hr].
  destruct (Nat.lt_ge_cases (length data) 2) as [Hlt|Hge].
  - rewrite (perform_qtest_short sorted sorted_perm) in Hr by exact Hlt.
    discriminate Hr.
  - rewrite perform_qtest_pair in Hr by lia.
    destruct (zero_range data); discriminate Hr.
Qed.

(** X1: on fewer than three values [perform_qtest] never returns.  With
    fewer than two, [sorted_data[1]] raises [IndexError]; with two, the
    division raises [ZeroDivisionError] when the values cancel, and otherwise
    the table has no entry for 2 and comparing with [None] raises
    [TypeError]. *)
Theorem perform_qtest_small_sample (data : list float) (cl : float) :
  (length data < 3)%nat ->
  ~ returns (perform_qtest data cl) /\
  ((length data < 2)%nat -> perform_qtest data cl = Raise IndexError) /\
  (length data = 2%nat ->
   perform_qtest data cl
   = if zero_range data then Raise ZeroDivisionError else Raise TypeError).
Proof.
  intros Hn.
  split; [now apply perform_qtest_needs_three|].
  split; [apply (perform_qtest_short sorted sorted_perm) | apply perform_qtest_pair].
Qed.

(** X2: the size check of the validator is the guard [perform_qtest] needs:
    [check_data_requirements(data, "qtest")] accepts exactly the samples of
    three values or more; [perform_qtest] returns only on accepted samples,
    and on an accepted sample it returns or raises [ZeroDivisionError]. *)
Theorem qtest_requirement_is_the_guard (data : list float) (cl : float) :
  (check_data_requirements data "qtest" = Valid tt <-> (3 <= length data)%nat) /\
  (check_data_requirements data "qtest" <> Valid tt ->
   check_data_requirements data "qtest" = Invalid InsufficientSampleSize) /\
  (returns (perform_qtest data cl) -> check_data_requirements data "qtest" = Valid tt) /\
  (check_data_requirements data "qtest" = Valid tt ->
   returns (perform_qtest data cl) \/ perform_qtest data cl = Raise ZeroDivisionError).
Proof.
  assert (Hchk : check_data_requirements data "qtest"
                 = if (length data <? 3)%nat then Invalid InsufficientSampleSize
                   else Valid tt) by reflexivity.
  rewrite Hchk.
  destruct (Nat.ltb_spec (length data) 3) as [Hlt|Hge].
  - repeat split; try discriminate; try (intros; lia).
    intros Hret. exfalso.
    now apply (perform_qtest_needs_three data cl Hlt).
  - repeat split; try reflexivity; try congruence.
    intros _. rewrite (perform_qtest_unfold sorted sorted_perm) by lia.
    destruct (critical_value_defined (length data) Hge) as [crit ->].
    destruct (zero_range data); [now right | left; eexists; reflexivity].
Qed.

(** X3: the critical value never depends on the confidence level passed in,
    and from ten values on it is the table's last entry, 0.466. *)
Theorem perform_qtest_critical_value_fixed (data : list float) (cl cl' : float) :
  perform_qtest data cl = perform_qtest data cl' /\
  ((10 <= length data)%nat ->
   forall r, perform_qtest data cl = Ok r ->
             r !! "q_critical" = Some (VFloat 0.466%float)).
Proof.
  split; [reflexivity|].
  intros Hn r Hr. rewrite (perform_qtest_unfold sorted sorted_perm) in Hr by lia.
  destruct (zero_range data); [discriminate Hr|].
  unfold critical_value in Hr. rewrite Nat.min_r in Hr by exact Hn.
  injection Hr as <-. apply outlier_result_lookup.
Qed.

End QtestEdges.

Lemma perform_qtest_small_sample_witness :
  ~ returns (perform_qtest py_sorted [1%float; 2%float] 0.95%float) /\
  ((length [1%float; 2%float] < 2)%nat ->
   perform_qtest py_sorted [1%float; 2%float] 0.95%float = Raise IndexError) /\
  (length [1%float; 2%float] = 2%nat ->
   perform_qtest py_sorted [1%float; 2%float] 0.95%float
   = if zero_range py_sorted [1%float; 2%float]
     then Raise ZeroDivisionError else Raise TypeError).
Proof.
  apply (perform_qtest_small_sample py_sorted py_sorted_perm
           [1%float; 2%float] 0.95%float).
  cbn. lia.
Defined.

Lemma qtest_requirement_is_the_guard_witness :
  (check_data_requirements [1%float; 2%float; 4%float] "qtest" = Valid tt
   <-> (3 <= length [1%float; 2%float; 4%float])%nat) /\
  (check_data_requirements [1%float; 2%float; 4%float] "qtest" <> Valid tt ->
   check_data_requirements [1%float; 2%float; 4%float] "qtest"
   = Invalid InsufficientSampleSize) /\
  (returns (perform_qtest py_sorted [1%float; 2%float; 4%float] 0.95%float) ->
   check_data_requirements [1%float; 2%float; 4%float] "qtest" = Valid tt) /\
  (check_data_requirements [1%float; 2%float; 4%float] "qtest" = Valid tt ->
   returns (perform_qtest py_sorted [1%float; 2%float; 4%float] 0.95%float) \/
   perform_qtest py_sorted [1%float; 2%float; 4%float] 0.95%float
   = Raise ZeroDivisionError).
Proof.
  exact (qtest_requirement_is_the_guard py_sorted py_sorted_perm
           [1%float; 2%float; 4%float] 0.95%float).
Defined.

Lemma perform_qtest_critical_value_fixed_witness :
  perform_qtest py_sorted (map F.of_nat (seq 1 12)) 0.95%float
  = perform_qtest py_sorted (map F.of_nat (seq 1 12)) 0.99%float /\
  ((10 <= length (map F.of_nat (seq 1 12)))%nat ->
   forall r, perform_qtest py_sorted (map F.of_nat (seq 1 12)) 0.95%float = Ok r ->
             r !! "q_critical" = Some (VFloat 0.466%float)).
Proof.
  exact (perform_qtest_critical_value_fixed py_sorted py_sorted_perm
           (map F.of_nat (seq 1 12)) 0.95%float 0.99%float).
Defined.

Example perform_qtest_twelve_values :
  returns (perform_qtest py_sorted (map F.of_nat (seq 1 12)) 0.95%float).
Proof. eexists. vm_compute. reflexivity. Qed.

(** ** Rendering the results of the analyzer *)

Section RenderingFacts.

Variable sorted : list float -> list float.
Variable t_ppf : float -> Z -> float.
Variable ttest_ind : list float -> list float -> float * float.
Variable ttest_rel : list float -> list float -> float * float.
Variable sp : Sympy.library.
Variable pow : float -> float -> float.
Variable fmt_float : nat -> float -> string.
Variable fmt_int : nat -> Z -> string.
Variable str_of : pyval -> string.

Local Abbreviation format_results := (format_results fmt_float fmt_int str_of).

(** The shape of each result dictionary. *)

Lemma perform_qtest_result (data : list float) (cl : float) (r : gmap string pyval) :
  perform_qtest sorted data cl = Ok r ->
  exists Q crit : float, r = outlier_result Q crit.
Proof.
  unfold perform_qtest. cbv zeta. intros H.
  do 6 py_inv H.
  destruct (q_critical_values !! _) as [crit|]; [|discriminate H].
  injection H as <-. eexists _, crit. reflexivity.
Qed.

Lemma confidence_interval_result (data : list float) (level : float)
    (r : gmap string pyval) :
  calculate_confidence_interval t_ppf data level = Ok r ->
  exists mean std lower upper : float,
    r = <["mean" := VFloat mean]>
          (<["std" := VFloat std]>
             (<["lower" := VFloat lower]>
                (<["upper" := VFloat upper]>
                   (<["confidence_level" := VFloat level]> ∅)))).
Proof.
  unfold calculate_confidence_interval. intros [= <-]. eexists _, _, _, _. reflexivity.
Qed.

Lemma perform_ttest_result (group1 group2 : list float) (test_type : string)
    (r : gmap string pyval) :
  perform_ttest ttest_ind ttest_rel group1 group2 test_type = Ok r ->
  exists (statistic pvalue mean1 mean2 : float) (dof : Z),
    r = <["statistic" := VFloat statistic]>
          (<["pvalue" := VFloat pvalue]>
             (<["dof" := VInt dof]>
                (<["mean1" := VFloat mean1]>
                   (<["mean2" := VFloat mean2]>
                      (<["test_type" := VStr test_type]> ∅))))).
Proof.
  unfold perform_ttest. intros H. py_inv H.
  destruct a as [[statistic pvalue] dof]. injection H as <-.
  eexists _, _, _, _, _. reflexivity.
Qed.

Lemma error_propagation_result
    (variables : list string) (values errors : list float) (function_str : string)
    (r : gmap string pyval) :
  calculate_error_propagation sp pow variables values errors function_str = Ok r ->
  exists (func : Sympy.expr sp) (partials : list (Sympy.expr sp))
         (function_value propagated_error relative_error : float),
    Sympy.sympify sp function_str = Ok func /\
    Forall2 (fun p d => Sympy.diff sp func p.1 = Ok d) (zip variables errors) partials /\
    r = <["function_value" := VFloat function_value]>
          (<["propagated_error" := VFloat propagated_error]>
             (<["relative_error" := VFloat relative_error]>
                (<["original_function" := VStr (Sympy.sstr sp func)]>
                   (<["derivatives" :=
                        VDerivs (zip_with (fun p d => (p.1, Sympy.sstr sp d))
                                          (zip variables errors) partials)]> ∅)))).
Proof.
  intros H.
  destruct (error_propagation_formula sp pow _ _ _ _ r H)
    as (func & partials & dvs & value & pe & Hf & _ & Hd & _ & _ & ->).
  eexists func, partials, _, _, _. split; [exact Hf|]. split; [exact Hd|].
  reflexivity.
Qed.

(** X4: every result of [perform_qtest] is rendered under kind "qtest": the
    statistic and the critical value to four decimals, then the judgment
    line, which reads "外れ値あり" (outlier present) exactly when the statistic
    exceeds the critical value and "外れ値なし" (no outlier) otherwise. *)
Theorem format_results_of_qtest (data : list float) (cl : float)
    (r : gmap string pyval) :
  perform_qtest sorted data cl = Ok r ->
  exists Q crit : float,
    r !! "q_statistic" = Some (VFloat Q) /\
    r !! "q_critical" = Some (VFloat crit) /\
    format_results r "qtest"
    = Ok ("Q検定結果:" +:+ nl
          +:+ "Q統計量 = " +:+ fmt_float 4 Q +:+ nl
          +:+ "棄却限界値 = " +:+ fmt_float 4 crit +:+ nl
          +:+ "判定: " +:+ (if PrimFloat.ltb crit Q then "外れ値あり" else "外れ値なし")).
Proof.
  intros H. destruct (perform_qtest_result data cl r H) as (Q & crit & ->).
  exists Q, crit.
  destruct (outlier_result_lookup Q crit) as (HQ & Hc & Hflag).
  split; [exact HQ|]. split; [exact Hc|].
  unfold format_results. cbn [String.eqb Ascii.eqb Bool.eqb].
  unfold getitem. rewrite HQ, Hc, Hflag. cbn.
  destruct (PrimFloat.ltb crit Q); reflexivity.
Qed.

Lemma derivative_lines_zip (pairs : list (string * float))
    (partials : list (Sympy.expr sp)) :
  map (fun deriv : string * string =>
         "diff f /diff " +:+ deriv.1 +:+ " = " +:+ deriv.2)
      (zip_with (fun p d => (p.1, Sympy.sstr sp d)) pairs partials)
  = zip_with (fun p d => "diff f /diff " +:+ p.1 +:+ " = " +:+ Sympy.sstr sp d)
             pairs partials.
Proof.
  revert partials.
  induction pairs as [|p pairs IH]; intros [|d partials]; try reflexivity.
  cbn [zip_with map]. now rewrite IH.
Qed.

(** X5: every result of [calculate_error_propagation] is rendered under kind
    "error_propagation", with one derivative line per (variable, uncertainty)
    pair, in the order of the variables and named after them. *)
Theorem format_results_of_error_propagation
    (variables : list string) (values errors : list float) (function_str : string)
    (r : gmap string pyval) :
  calculate_error_propagation sp pow variables values errors function_str = Ok r ->
  exists (func : Sympy.expr sp) (partials : list (Sympy.expr sp))
         (value error relative : float),
    Sympy.sympify sp function_str = Ok func /\
    Forall2 (fun p d => Sympy.diff sp func p.1 = Ok d) (zip variables errors) partials /\
    r !! "function_value" = Some (VFloat value) /\
    r !! "propagated_error" = Some (VFloat error) /\
    r !! "relative_error" = Some (VFloat relative) /\
    format_results r "error_propagation"
    = Ok ("誤差伝播の計算結果:" +:+ nl
          +:+ "元の関数: " +:+ str_of (VStr (Sympy.sstr sp func)) +:+ nl +:+ nl
          +:+ "偏微分:" +:+ nl
          +:+ String.concat nl
                (zip_with (fun p d => "diff f /diff " +:+ p.1 +:+ " = "
                                      +:+ Sympy.sstr sp d)
                          (zip variables errors) partials)
          +:+ nl +:+ nl
          +:+ "関数値 = " +:+ fmt_float 6 value +:+ nl
          +:+ "伝播誤差 = " +:+ fmt_float 6 error +:+ nl
          +:+ "相対誤差 = " +:+ fmt_float 2 relative +:+ "%").
Proof.
  intros H.
  destruct (error_propagation_result _ _ _ _ r H)
    as (func & partials & value & error & relative & Hf & Hd & ->).
  exists func, partials, value, error, relative.
  split; [exact Hf|]. split; [exact Hd|].
  do 3 (split; [by simplify_map_eq|]).
  unfold format_results. cbn [String.eqb Ascii.eqb Bool.eqb].
  unfold getitem. simplify_map_eq. cbn [derivative_lines mbind py_bind].
  rewrite derivative_lines_zip. reflexivity.
Qed.

(** X6: a result rendered under the kind of another operation is not
    rendered at all: the first field the wrong branch reads is missing, and
    [format_results] raises [KeyError] for it. *)
Theorem format_results_kind_mismatch :
  (forall data cl r,
      perform_qtest sorted data cl = Ok r ->
      format_results r "ttest" = Raise (KeyError "test_type") /\
      format_results r "error_propagation" = Raise (KeyError "derivatives") /\
      format_results r "confidence_interval" = Raise (KeyError "confidence_level")) /\
  (forall data level r,
      calculate_confidence_interval t_ppf data level = Ok r ->
      format_results r "ttest" = Raise (KeyError "test_type") /\
      format_results r "qtest" = Raise (KeyError "q_statistic") /\
      format_results r "error_propagation" = Raise (KeyError "derivatives")) /\
  (forall group1 group2 test_type r,
      perform_ttest ttest_ind ttest_rel group1 group2 test_type = Ok r ->
      format_results r "qtest" = Raise (KeyError "q_statistic") /\
      format_results r "error_propagation" = Raise (KeyError "derivatives") /\
      format_results r "confidence_interval" = Raise (KeyError "confidence_level")) /\
  (forall variables values errors function_str r,
      calculate_error_propagation sp pow variables values errors function_str = Ok r ->
      format_results r "ttest" = Raise (KeyError "test_type") /\
      format_results r "qtest" = Raise (KeyError "q_statistic") /\
      format_results r "confidence_interval" = Raise (KeyError "confidence_level")).
Proof.
  split; [|split; [|split]].
  - intros data cl r H.
    destruct (perform_qtest_result data cl r H) as (Q & crit & ->).
    unfold outlier_result.
    repeat split; unfold format_results; cbn [String.eqb Ascii.eqb Bool.eqb];
      unfold getitem; simplify_map_eq; reflexivity.
  - intros data level r H.
    destruct (confidence_interval_result data level r H)
      as (mean & std & lower & upper & ->).
    repeat split; unfold format_results; cbn [String.eqb Ascii.eqb Bool.eqb];
      unfold getitem; simplify_map_eq; reflexivity.
  - intros group1 group2 test_type r H.
    destruct (perform_ttest_result group1 group2 test_type r H)
      as (statistic & pvalue & mean1 & mean2 & dof & ->).
    repeat split; unfold format_results; cbn [String.eqb Ascii.eqb Bool.eqb];
      unfold getitem; simplify_map_eq; reflexivity.
  - intros variables values errors function_str r H.
    destruct (error_propagation_result _ _ _ _ r H)
      as (func & partials & value & error & relative & _ & _ & ->).
    repeat split; unfold format_results; cbn [String.eqb Ascii.eqb Bool.eqb];
      unfold getitem; simplify_map_eq; reflexivity.
Qed.

End RenderingFacts.

(** ** A t-test on the two halves of one sample *)

Section HalvesFacts.

Variable ttest_ind : list float -> list float -> float * float.
Variable ttest_rel : list float -> list float -> float * float.

(** X7: on the two groups [split_data_for_ttest] makes of a sample of [n]
    values, the paired test fails with [SizeMismatch] exactly when [n] is
    odd and otherwise has [n // 2 - 1] degrees of freedom; the independent
    test always succeeds, with [n - 2] degrees of freedom. *)
Theorem ttest_on_halves (data : list float) :
  let n := length data in
  let '(group1, group2) := split_data_for_ttest data in
  let run := perform_ttest ttest_ind ttest_rel group1 group2 in
  (run "paired" = Raise SizeMismatch <-> Nat.odd n = true) /\
  (Nat.odd n = false ->
   exists r, run "paired" = Ok r /\
             r !! "dof" = Some (VInt (Z.of_nat (n / 2) - 1))) /\
  (exists r, run "independent" = Ok r /\
             r !! "dof" = Some (VInt (Z.of_nat n - 2))).
Proof.
  cbv zeta. unfold split_data_for_ttest.
  set (n := length data). set (mid := (n / 2)%nat).
  assert (Hmid : (mid <= n)%nat) by (apply Nat.Div0.div_le_upper_bound; lia).
  assert (H1 : length (take mid data) = mid) by (rewrite length_take; lia).
  assert (H2 : length (drop mid data) = (n - mid)%nat) by apply length_drop.
  assert (Hn : n = (2 * mid + Nat.b2n (Nat.odd n))%nat)
    by (unfold mid; rewrite <- Nat.div2_div; apply Nat.div2_odd).
  rewrite perform_ttest_paired, perform_ttest_independent, H1, H2.
  destruct (Nat.odd n) eqn:Hodd; cbn [Nat.b2n] in Hn.
  - destruct (Nat.eqb_spec mid (n - mid)) as [E|E]; [lia|].
    repeat split; try discriminate.
    eexists; split; [reflexivity|].
    simplify_map_eq. do 2 f_equal. lia.
  - destruct (Nat.eqb_spec mid (n - mid)) as [E|E]; [|lia].
    repeat split; try discriminate.
    + intros _. eexists; split; [reflexivity | by simplify_map_eq].
    + eexists; split; [reflexivity|].
      simplify_map_eq. do 2 f_equal. lia.
Qed.

End HalvesFacts.

(** ** What validation of the error-propagation inputs guarantees *)

Lemma validate_error_propagation_valid
    (variables : list string) (values errors : list float) (function_str : string) :
  validate_error_propagation_inputs variables values errors function_str = Valid tt ->
  (is_nil variables || is_nil values || is_nil errors || String.eqb function_str "")
  = false /\
  length variables = length values /\
  length values = length errors /\
  first_invalid_name variables = None /\
  existsb (fun error => PrimFloat.leb error F.zero) errors = false /\
  undefined_vars variables function_str = ∅ /\
  count_char "(" function_str = count_char ")" function_str.
Proof.
  unfold validate_error_propagation_inputs.
  destruct (is_nil variables || is_nil values || is_nil errors
            || String.eqb function_str ""); [discriminate|].
  destruct (Nat.eqb_spec (length variables) (length values)) as [E1|E1];
    [|discriminate].
  destruct (Nat.eqb_spec (length values) (length errors)) as [E2|E2];
    [|discriminate].
  cbn [andb negb].
  destruct (first_invalid_name variables); [discriminate|].
  destruct (existsb _ errors); [discriminate|].
  destruct (bool_decide_reflect (undefined_vars variables function_str = ∅)) as [E5|E5];
    [|discriminate].
  cbn [negb].
  destruct (Nat.eqb_spec (count_char "(" function_str) (count_char ")" function_str))
    as [E6|E6]; [|discriminate].
  intros _. repeat split; assumption.
Qed.

(** *** The dictionary of values *)

Lemma var_dict_unbound (pairs : list (string * float)) (d : gmap string float)
    (name : string) :
  name ∉ pairs.*1 ->
  fold_left (fun d kv => <[kv.1 := kv.2]> d) pairs d !! name = d !! name.
Proof.
  revert d. induction pairs as [|[k v] pairs IH]; intros d Hnot; [reflexivity|].
  cbn in Hnot |- *. apply not_elem_of_cons in Hnot as [Hne Hnot].
  rewrite IH by exact Hnot. now apply lookup_insert_ne.
Qed.

Lemma var_dict_bound (pairs : list (string * float)) (d : gmap string float)
    (name : string) :
  name ∈ pairs.*1 ->
  is_Some (fold_left (fun d kv => <[kv.1 := kv.2]> d) pairs d !! name).
Proof.
  revert d. induction pairs as [|[k v] pairs IH]; intros d Hin.
  - now apply elem_of_nil in Hin.
  - cbn in Hin |- *.
    destruct (decide (name ∈ pairs.*1)) as [Hlater|Hlater]; [now apply IH|].
    apply elem_of_cons in Hin as [->|Hin]; [|contradiction].
    rewrite var_dict_unbound by exact Hlater.
    rewrite lookup_insert_eq. eauto.
Qed.

Lemma zip_names (variables : list string) (values : list float) :
  (zip variables values).*1 = take (length values) variables.
Proof.
  rewrite <- (zip_with_take_l pair variables values).
  apply fst_zip. rewrite length_take. lia.
Qed.

Lemma make_var_dict_unbound (variables : list string) (values : list float)
    (name : string) :
  make_var_dict variables values !! name = None <->
  name ∉ take (length values) variables.
Proof.
  rewrite <- zip_names. unfold make_var_dict. split.
  - intros Hnone Hin.
    destruct (var_dict_bound (zip variables values) ∅ name Hin) as [v Hv].
    congruence.
  - intros Hnot. now rewrite var_dict_unbound.
Qed.

(** X8: [dict(zip(names, values))] binds a name to the value of its last
    pair: a later pair with the same name replaces an earlier one.  With
    distinct names every pair is kept, and a name without a pair (one with no
    value at its position) is not bound. *)
Theorem make_var_dict_lookup (variables : list string) (values : list float) :
  (forall before name v after,
      zip variables values = before ++ (name, v) :: after ->
      name ∉ after.*1 ->
      make_var_dict variables values !! name = Some v) /\
  (NoDup variables ->
   forall i name v,
     variables !! i = Some name -> values !! i = Some v ->
     make_var_dict variables values !! name = Some v) /\
  (forall name,
      make_var_dict variables values !! name = None <->
      name ∉ take (length values) variables).
Proof.
  assert (Hlast : forall before name v after,
             zip variables values = before ++ (name, v) :: after ->
             name ∉ after.*1 ->
             make_var_dict variables values !! name = Some v).
  { intros before name v after Hzip Hnot. unfold make_var_dict.
    rewrite Hzip, fold_left_app. cbn [fold_left].
    rewrite var_dict_unbound by exact Hnot. apply lookup_insert_eq. }
  pose proof (zip_names variables values) as Hfst.
  split; [exact Hlast|]. split.
  - intros Hnodup i name v Hi Hv.
    assert (Hin : zip variables values !! i = Some (name, v))
      by now apply lookup_zip_Some.
    pose proof (take_drop_middle _ _ _ Hin) as Hzip. symmetry in Hzip.
    apply (Hlast _ name v _ Hzip).
    assert (Hnd : NoDup (zip variables values).*1).
    { rewrite Hfst. eapply sublist_NoDup; [exact Hnodup | apply sublist_take]. }
    rewrite Hzip, fmap_app in Hnd. cbn in Hnd.
    apply NoDup_app in Hnd as (_ & _ & Hnd). now apply NoDup_cons in Hnd as [Hnd _].
  - intros name. apply make_var_dict_unbound.
Qed.

(** X9: once [validate_error_propagation_inputs] has accepted the inputs,
    every identifier that occurs in the expression has a value in the
    dictionary [calculate_error_propagation] substitutes from. *)
Theorem validated_identifiers_are_bound
    (variables : list string) (values errors : list float) (function_str : string) :
  validate_error_propagation_inputs variables values errors function_str = Valid tt ->
  forall name,
    name ∈ findall_identifiers function_str ->
    name ∈ variables /\ is_Some (make_var_dict variables values !! name).
Proof.
  intros Hvalid name Hin.
  destruct (validate_error_propagation_valid _ _ _ _ Hvalid)
    as (_ & Hlen & _ & _ & _ & Hundef & _).
  assert (Hdecl : name ∈ variables).
  { destruct (decide (name ∈ variables)) as [H|H]; [exact H|].
    assert (Hu : name ∈ undefined_vars variables function_str)
      by (apply undefined_vars_spec; now split).
    rewrite Hundef in Hu. set_solver. }
  split; [exact Hdecl|].
  destruct (make_var_dict variables values !! name) as [v|] eqn:E; [eauto|].
  apply make_var_dict_unbound in E.
  rewrite <- Hlen, firstn_all in E. contradiction.
Qed.

(** *** The uncertainty check *)

Lemma not_leb_zero (e : float) :
  PrimFloat.leb e F.zero = false <->
  PrimFloat.ltb F.zero e = true \/ F.is_nan e = true.
Proof.
  destruct (F.is_nan e) eqn:Hnan.
  - apply FloatFacts.is_nan_spec in Hnan.
    rewrite FloatAxioms.leb_spec, Hnan. cbn. split; [now right | reflexivity].
  - split.
    + intros Hle. left.
      destruct (PrimFloat.ltb F.zero e) eqn:Hlt; [reflexivity|].
      apply FloatFacts.not_ltb_leb in Hlt; [congruence | reflexivity | exact Hnan].
    + intros [Hlt|H]; [|discriminate H].
      rewrite FloatAxioms.ltb_spec in Hlt. rewrite FloatAxioms.leb_spec.
      unfold SFltb in Hlt. unfold SFleb.
      rewrite (FloatFacts.SFcompare_antisym (Prim2SF F.zero) (Prim2SF e)).
      destruct (SFcompare (Prim2SF F.zero) (Prim2SF e)) as [[]|];
        try discriminate Hlt; reflexivity.
Qed.

(** X10: the uncertainty check passes exactly when every uncertainty is
    strictly positive or NaN ([nan <= 0] is false, so NaN is let through);
    in particular this holds of all accepted inputs. *)
Theorem accepted_uncertainties
    (variables : list string) (values errors : list float) (function_str : string) :
  (check_fails CheckNonPositiveUncertainty variables values errors function_str = false
   <-> Forall (fun e => PrimFloat.ltb F.zero e = true \/ F.is_nan e = true) errors) /\
  (validate_error_propagation_inputs variables values errors function_str = Valid tt ->
   Forall (fun e => PrimFloat.ltb F.zero e = true \/ F.is_nan e = true) errors).
Proof.
  assert (H : existsb (fun error => PrimFloat.leb error F.zero) errors = false
              <-> Forall (fun e => PrimFloat.ltb F.zero e = true \/ F.is_nan e = true)
                         errors).
  { induction errors as [|e errors IH]; cbn.
    - split; [constructor | reflexivity].
    - rewrite orb_false_iff, IH, not_leb_zero. split.
      + intros [He Hrest]. now constructor.
      + intros Hall. inversion Hall; subst. now split. }
  split; [exact H|].
  intros Hvalid. apply H.
  now destruct (validate_error_propagation_valid _ _ _ _ Hvalid)
    as (_ & _ & _ & _ & Hpos & _).
Qed.

Example nan_uncertainty_is_accepted :
  validate_error_propagation_inputs ["x"] [1%float] [nan] "x" = Valid tt.
Proof. vm_compute. reflexivity. Qed.

(** *** The identifiers of an expression *)

Lemma is_identifier_extend (tok : string) (c : ascii) :
  is_identifier tok = true -> ident_char c = true ->
  is_identifier (tok +:+ String c "") = true.
Proof.
  destruct tok as [|c0 rest]; [discriminate|].
  rewrite append_cons. cbn [is_identifier].
  intros H Hc. apply andb_true_iff in H as [H0 Hrest].
  rewrite H0. cbn [andb]. clear H0.
  induction rest as [|c1 rest IH].
  - rewrite append_nil. cbn [list_ascii_of_string forallb]. now rewrite Hc.
  - rewrite append_cons. cbn [list_ascii_of_string forallb] in Hrest |- *.
    apply andb_true_iff in Hrest as [H1 Hrest]. rewrite H1. now apply IH.
Qed.

Lemma ident_tail_of_chars (s : string) :
  forallb ident_char (list_ascii_of_string s) = true -> ident_tail s = true.
Proof.
  induction s as [|c s IH]; [reflexivity|].
  cbn [list_ascii_of_string forallb ident_tail].
  intros H. apply andb_true_iff in H as [Hc Hs]. rewrite Hc. now apply IH.
Qed.

Lemma is_identifier_matches (tok : string) :
  is_identifier tok = true -> variable_pattern_match tok = true.
Proof.
  destruct tok as [|c rest]; [discriminate|].
  cbn [is_identifier variable_pattern_match].
  intros H. apply andb_true_iff in H as [Hc Hrest].
  rewrite Hc. now apply ident_tail_of_chars.
Qed.

Lemma findall_from_identifiers (cur : option string) (s : string) :
  (forall tok, cur = Some tok -> is_identifier tok = true) ->
  Forall (fun tok => is_identifier tok = true) (findall_from cur s).
Proof.
  revert cur. induction s as [|c s IH]; intros cur Hcur; cbn [findall_from].
  - destruct cur as [tok|]; [|constructor].
    constructor; [now apply Hcur | constructor].
  - destruct cur as [tok|].
    + destruct (ident_char c) eqn:Hc.
      * apply IH. intros tok' [= <-]. apply is_identifier_extend; [now apply Hcur | exact Hc].
      * constructor; [now apply Hcur|]. apply IH. discriminate.
    + destruct (ident_start c) eqn:Hc.
      * apply IH. intros tok' [= <-]. cbn [is_identifier list_ascii_of_string forallb].
        now rewrite Hc.
      * apply IH. discriminate.
Qed.

(** X11: every match of the identifier search in an expression is an
    identifier, so it is accepted by the variable-name pattern: a name
    reported as undefined can always be declared as it is. *)
Theorem found_identifiers_are_valid_names
    (variables : list string) (values errors : list float) (function_str : string) :
  Forall (fun tok => is_identifier tok = true /\ variable_pattern_match tok = true)
         (findall_identifiers function_str) /\
  (forall vars,
      validate_error_propagation_inputs variables values errors function_str
      = Invalid (UndefinedVariable vars) ->
      vars <> ∅ /\
      forall name, name ∈ vars ->
                   variable_pattern_match name = true /\ name ∉ variables).
Proof.
  assert (Hall : Forall (fun tok => is_identifier tok = true
                                    /\ variable_pattern_match tok = true)
                        (findall_identifiers function_str)).
  { eapply Forall_impl; [apply findall_from_identifiers; discriminate|].
    intros tok H. split; [exact H | now apply is_identifier_matches]. }
  split; [exact Hall|].
  intros vars H.
  assert (Hvars : vars = undefined_vars variables function_str /\ vars <> ∅).
  { unfold validate_error_propagation_inputs in H.
    destruct (is_nil variables || is_nil values || is_nil errors
              || String.eqb function_str ""); [discriminate|].
    destruct (negb _); [discriminate|].
    destruct (first_invalid_name variables); [discriminate|].
    destruct (existsb _ errors); [discriminate|].
    destruct (bool_decide_reflect (undefined_vars variables function_str = ∅))
      as [E|E]; cbn [negb] in H.
    - destruct (negb _); discriminate.
    - injection H as <-. now split. }
  destruct Hvars as [-> Hne]. split; [exact Hne|].
  intros name [Hin Hnot]%undefined_vars_spec. split; [|exact Hnot].
  rewrite Forall_forall in Hall. now apply Hall.
Qed.

(** ** NaN and sign through the arithmetic *)

Module FloatSign.

Lemma nan_div_l (x y : float) : F.is_nan x = true -> F.is_nan (x / y) = true.
Proof. rewrite !FloatFacts.is_nan_spec, div_spec. now intros ->. Qed.

Lemma nan_mul_r (t y : float) : F.is_nan y = true -> F.is_nan (t * y) = true.
Proof.
  rewrite !FloatFacts.is_nan_spec, mul_spec. intros ->.
  now destruct (Prim2SF t).
Qed.

Lemma nan_sub_r (x m : float) : F.is_nan m = true -> F.is_nan (x - m) = true.
Proof.
  rewrite !FloatFacts.is_nan_spec, sub_spec. intros ->.
  now destruct (Prim2SF x).
Qed.

Lemma nan_add_r (x m : float) : F.is_nan m = true -> F.is_nan (x + m) = true.
Proof.
  rewrite !FloatFacts.is_nan_spec, add_spec. intros ->.
  now destruct (Prim2SF x).
Qed.

(** Rounding keeps the sign it is given. *)
Lemma round_sign (s : bool) (m e : Z) (l : location) :
  match binary_round_aux prec emax s m e l with
  | S754_nan => True
  | S754_zero s' | S754_infinity s' | S754_finite s' _ _ => s' = s
  end.
Proof.
  unfold binary_round_aux.
  destruct (shr_fexp prec emax m e l) as [mrs' e'].
  destruct (shr_fexp prec emax _ e' loc_Exact) as [mrs'' e''].
  destruct (shr_m mrs'') as [|p|p]; try reflexivity.
  now destruct (e'' <=? emax - prec).
Qed.

Lemma round_of_positive (m : positive) (e : Z) :
  sf_sign_clear (binary_round prec emax false m e).
Proof.
  unfold binary_round. destruct (shl_align _ _ _) as [mz ez].
  pose proof (round_sign false (Z.pos mz) ez loc_Exact) as H.
  now destruct (binary_round_aux prec emax false (Z.pos mz) ez loc_Exact).
Qed.

Lemma round_clear (m e : Z) (l : location) :
  sf_sign_clear (binary_round_aux prec emax false m e l).
Proof.
  pose proof (round_sign false m e l) as H.
  now destruct (binary_round_aux prec emax false m e l).
Qed.

Lemma sign_clear_not_below_zero (x : float) :
  sign_clear x -> PrimFloat.ltb x F.zero = false.
Proof.
  unfold sign_clear. rewrite FloatAxioms.ltb_spec.
  change (Prim2SF F.zero) with (S754_zero false).
  destruct (Prim2SF x) as [s|s| |s m e]; cbn; try reflexivity; now intros ->.
Qed.

Lemma sign_clear_square (x : float) : sign_clear (x * x).
Proof.
  unfold sign_clear. rewrite mul_spec. unfold SF64mul, SFmul.
  destruct (Prim2SF x) as [s|s| |s m e]; cbn; try exact I; try (now destruct s).
  destruct s; apply round_clear.
Qed.

Lemma sign_clear_add (x y : float) :
  sign_clear x -> sign_clear y -> sign_clear (x + y).
Proof.
  unfold sign_clear. rewrite add_spec. unfold SF64add, SFadd.
  destruct (Prim2SF x) as [sx|sx| |sx mx ex], (Prim2SF y) as [sy|sy| |sy my ey];
    try (cbn; tauto); try (cbn; intros -> ->; reflexivity).
  cbn [sf_sign_clear]. intros -> ->. cbn [cond_Zopp]. cbv zeta.
  set (a := (shl_align mx ex (Z.min ex ey)).1).
  set (b := (shl_align my ey (Z.min ex ey)).1).
  change (Z.pos a + Z.pos b) with (Z.pos (a + b)).
  cbn [binary_normalize]. apply round_of_positive.
Qed.

Lemma sign_clear_div (x y : float) :
  sign_clear x -> sign_clear y -> sign_clear (x / y).
Proof.
  unfold sign_clear. rewrite div_spec. unfold SF64div, SFdiv.
  destruct (Prim2SF x) as [sx|sx| |sx mx ex], (Prim2SF y) as [sy|sy| |sy my ey];
    cbn; try tauto; try (intros -> ->; reflexivity).
  intros -> ->.
  destruct (SFdiv_core_binary prec emax (Z.pos mx) ex (Z.pos my) ey) as [[mz ez] lz].
  apply round_clear.
Qed.

Lemma sign_clear_mul (x y : float) :
  sign_clear x -> sign_clear y -> sign_clear (x * y).
Proof.
  unfold sign_clear. rewrite mul_spec. unfold SF64mul, SFmul.
  destruct (Prim2SF x) as [sx|sx| |sx mx ex], (Prim2SF y) as [sy|sy| |sy my ey];
    cbn; try tauto; try (intros -> ->; reflexivity).
  intros -> ->. apply round_clear.
Qed.

Lemma sign_clear_abs (x : float) : sign_clear (PrimFloat.abs x).
Proof.
  unfold sign_clear. rewrite abs_spec. now destruct (Prim2SF x).
Qed.

Lemma sign_clear_sqrt (x : float) : sign_clear x -> sign_clear (PrimFloat.sqrt x).
Proof.
  unfold sign_clear. rewrite sqrt_spec. unfold SF64sqrt, SFsqrt.
  destruct (Prim2SF x) as [s|s| |s m e]; cbn; try tauto.
  - now intros ->.
  - intros ->.
    destruct (SFsqrt_core_binary prec emax (Z.pos m) e) as [[mz ez] lz].
    apply round_clear.
Qed.

End FloatSign.

(** ** Python's powers and the sign *)

Lemma nan_sign_clear (x : float) : F.is_nan x = true -> sign_clear x.
Proof.
  rewrite FloatFacts.is_nan_spec. unfold sign_clear. now intros ->.
Qed.

Lemma positive_sign_clear (x : float) :
  PrimFloat.ltb F.zero x = true -> sign_clear x.
Proof.
  unfold sign_clear. rewrite FloatAxioms.ltb_spec.
  change (Prim2SF F.zero) with (S754_zero false).
  now destruct (Prim2SF x) as [[]|[]| |[] m e].
Qed.

(** A number that is not NaN and not zero has a positive magnitude. *)
Lemma magnitude_positive (v : float) :
  F.is_nan v = false -> PrimFloat.eqb v F.zero = false ->
  PrimFloat.ltb F.zero (if PrimFloat.ltb v F.zero then (- v)%float else v) = true.
Proof.
  intros Hnan Hzero.
  assert (Hn : Prim2SF v <> S754_nan).
  { intros E. apply FloatFacts.is_nan_spec in E. congruence. }
  rewrite FloatAxioms.eqb_spec in Hzero.
  destruct (PrimFloat.ltb v F.zero) eqn:Hlt;
    rewrite FloatAxioms.ltb_spec in Hlt; rewrite FloatAxioms.ltb_spec;
    rewrite ?opp_spec;
    change (Prim2SF F.zero) with (S754_zero false) in *;
    destruct (Prim2SF v) as [[]|[]| |[] m e];
    try reflexivity; try discriminate; congruence.
Qed.

Section Powers.

Variable pow : float -> float -> float.

(** The C library's [pow] of a positive base is NaN or not negative. *)
Hypothesis pow_not_negative :
  forall x y, PrimFloat.ltb F.zero x = true -> sign_clear (pow x y).

Lemma py_square_unfold (v : float) :
  F.py_pow pow v 2%float
  = if F.is_nan v then Ok v
    else if F.is_inf v then Ok (PrimFloat.abs v)
    else if PrimFloat.eqb v F.zero then Ok F.zero
    else
      let iv := if PrimFloat.ltb v F.zero then (- v)%float else v in
      if PrimFloat.eqb iv 1 then Ok 1%float
      else if F.is_inf (pow iv 2%float) then Raise OverflowError
      else Ok (pow iv 2%float).
Proof.
  unfold F.py_pow.
  change (PrimFloat.eqb 2 F.zero) with false.
  change (F.is_nan 2) with false. change (F.is_inf 2) with false.
  change (F.is_odd_integer 2) with false. change (F.is_integer 2) with true.
  change (PrimFloat.ltb F.zero 2) with true.
  change (PrimFloat.ltb 2 F.zero) with false.
  cbn [negb andb].
  destruct (F.is_nan v); [reflexivity|].
  destruct (F.is_inf v); [reflexivity|].
  destruct (PrimFloat.eqb v F.zero); [reflexivity|].
  rewrite !andb_false_r. reflexivity.
Qed.

Lemma py_root_unfold (v : float) :
  F.py_pow pow v 0.5%float
  = if F.is_nan v then Ok v
    else if F.is_inf v then Ok (PrimFloat.abs v)
    else if PrimFloat.eqb v F.zero then Ok F.zero
    else if PrimFloat.ltb v F.zero then Raise ComplexNumber
    else if PrimFloat.eqb v 1 then Ok 1%float
    else if F.is_inf (pow v 0.5%float) then Raise OverflowError
    else Ok (pow v 0.5%float).
Proof.
  unfold F.py_pow.
  change (PrimFloat.eqb 0.5 F.zero) with false.
  change (F.is_nan 0.5) with false. change (F.is_inf 0.5) with false.
  change (F.is_odd_integer 0.5) with false. change (F.is_integer 0.5) with false.
  change (PrimFloat.ltb F.zero 0.5) with true.
  change (PrimFloat.ltb 0.5 F.zero) with false.
  cbn [negb andb].
  destruct (F.is_nan v); [reflexivity|].
  destruct (F.is_inf v); [reflexivity|].
  destruct (PrimFloat.eqb v F.zero); [reflexivity|].
  rewrite andb_true_r, andb_false_r.
  destruct (PrimFloat.ltb v F.zero); reflexivity.
Qed.

(** A square is never complex, and it is NaN or not negative. *)
Lemma py_square_sign (v sq : float) :
  F.py_pow pow v 2%float = Ok sq -> sign_clear sq.
Proof.
  rewrite py_square_unfold.
  destruct (F.is_nan v) eqn:Hnan; [intros [= <-]; now apply nan_sign_clear|].
  destruct (F.is_inf v); [intros [= <-]; apply FloatSign.sign_clear_abs|].
  destruct (PrimFloat.eqb v F.zero) eqn:Hzero; [intros [= <-]; reflexivity|].
  cbv zeta.
  destruct (PrimFloat.eqb _ 1); [intros [= <-]; reflexivity|].
  destruct (F.is_inf _); [discriminate|]. intros [= <-].
  apply pow_not_negative. now apply magnitude_positive.
Qed.

Lemma py_root_sign (total : float) :
  sign_clear total ->
  F.py_pow pow total 0.5%float <> Raise ComplexNumber /\
  forall pe, F.py_pow pow total 0.5%float = Ok pe -> sign_clear pe.
Proof.
  intros Ht. rewrite py_root_unfold.
  destruct (F.is_nan total) eqn:Hnan.
  { split; [discriminate | intros ? [= <-]; exact Ht]. }
  destruct (F.is_inf total).
  { split; [discriminate | intros ? [= <-]; apply FloatSign.sign_clear_abs]. }
  destruct (PrimFloat.eqb total F.zero) eqn:Hzero.
  { split; [discriminate | intros ? [= <-]; reflexivity]. }
  pose proof (magnitude_positive total Hnan Hzero) as Hpos.
  rewrite (FloatSign.sign_clear_not_below_zero total Ht) in Hpos |- *.
  destruct (PrimFloat.eqb total 1).
  { split; [discriminate | intros ? [= <-]; reflexivity]. }
  destruct (F.is_inf _); split; try discriminate.
  intros ? [= <-]. now apply pow_not_negative.
Qed.

End Powers.

(** ** The sign of the propagated error *)

Section PropagationSign.

Variable sp : Sympy.library.
Variable pow : float -> float -> float.

(** The C library's [pow] of a positive base is NaN or not negative. *)
Hypothesis pow_not_negative :
  forall x y, PrimFloat.ltb F.zero x = true -> sign_clear (pow x y).

(** The loop adds squares to a total that starts at zero, so the total
    never has its sign bit set. *)
Lemma propagate_sign_clear (func : Sympy.expr sp) (var_dict : gmap string float)
    (pairs : list (string * float)) (total : float) (ds : list (string * string))
    (total' : float) (ds' : list (string * string)) :
  sign_clear total ->
  propagate sp pow func var_dict pairs total ds = Ok (total', ds') ->
  sign_clear total'.
Proof.
  revert total ds. induction pairs as [|[symbol error] pairs IH]; intros total ds Ht H.
  - cbn in H. now injection H as <- _.
  - cbn [propagate] in H. py_inv H. py_inv H. py_inv H.
    eapply IH; [|exact H].
    apply FloatSign.sign_clear_add; [exact Ht|].
    now apply (py_square_sign pow pow_not_negative) in Ha1.
Qed.

(** X12: when the C library's [pow] of a positive base is NaN or not
    negative, the total the loop of [calculate_error_propagation] hands to
    [** 0.5] is NaN or carries no minus sign, so the power is never the
    complex one; and whatever [calculate_error_propagation] returns, the
    propagated error and the relative error are NaN or carry no minus sign
    (they are not negative numbers and not the negative zero): neither
    compares below zero. *)
Theorem propagated_error_not_negative
    (variables : list string) (values errors : list float) (function_str : string) :
  (forall (func : Sympy.expr sp) total ds,
      propagate sp pow func (make_var_dict variables values)
                (zip variables errors) F.zero [] = Ok (total, ds) ->
      sign_clear total /\
      F.py_pow pow total 0.5%float <> Raise ComplexNumber) /\
  (forall r : gmap string pyval,
      calculate_error_propagation sp pow variables values errors function_str = Ok r ->
      exists propagated_error relative_error : float,
        r !! "propagated_error" = Some (VFloat propagated_error) /\
        r !! "relative_error" = Some (VFloat relative_error) /\
        sign_clear propagated_error /\
        sign_clear relative_error /\
        PrimFloat.ltb propagated_error F.zero = false /\
        PrimFloat.ltb relative_error F.zero = false).
Proof.
  split.
  - intros func total ds H.
    apply propagate_sign_clear in H; [|reflexivity].
    split; [exact H|]. now apply (py_root_sign pow pow_not_negative).
  - unfold calculate_error_propagation. intros r H.
    py_inv H. py_inv H. py_inv H. destruct a1 as [total ds]. py_inv H.
    apply propagate_sign_clear in Ha1; [|reflexivity].
    injection H as <-.
    assert (Hpe : sign_clear a1)
      by now apply (py_root_sign pow pow_not_negative total Ha1).
    assert (Hre : sign_clear
                    (if negb (PrimFloat.eqb a0 F.zero)
                     then (a1 / PrimFloat.abs a0 * 100)%float
                     else infinity)).
    { destruct (negb _); [|reflexivity].
      apply FloatSign.sign_clear_mul; [|reflexivity].
      apply FloatSign.sign_clear_div; [exact Hpe | apply FloatSign.sign_clear_abs]. }
    eexists _, _.
    split; [by simplify_map_eq|]. split; [by simplify_map_eq|].
    split; [exact Hpe|]. split; [exact Hre|].
    split; now apply FloatSign.sign_clear_not_below_zero.
Qed.

End PropagationSign.

Lemma demo_pow_not_negative (x y : float) :
  PrimFloat.ltb F.zero x = true -> sign_clear (Demo.pow x y).
Proof.
  intros Hx. unfold Demo.pow. destruct (PrimFloat.eqb y 2).
  - apply FloatSign.sign_clear_square.
  - now apply FloatSign.sign_clear_sqrt, positive_sign_clear.
Qed.

Lemma propagated_error_not_negative_witness :
  exists propagated_error relative_error : float,
    Demo.unwrap ∅ (calculate_error_propagation Demo.small_sympy Demo.pow
                     ["x"; "y"] [2%float; 3%float] [0.1%float; 0.2%float] "x*y")
      !! "propagated_error" = Some (VFloat propagated_error) /\
    Demo.unwrap ∅ (calculate_error_propagation Demo.small_sympy Demo.pow
                     ["x"; "y"] [2%float; 3%float] [0.1%float; 0.2%float] "x*y")
      !! "relative_error" = Some (VFloat relative_error) /\
    sign_clear propagated_error /\
    sign_clear relative_error /\
    PrimFloat.ltb propagated_error F.zero = false /\
    PrimFloat.ltb relative_error F.zero = false.
Proof.
  apply (proj2 (propagated_error_not_negative Demo.small_sympy Demo.pow
                  demo_pow_not_negative
                  ["x"; "y"] [2%float; 3%float] [0.1%float; 0.2%float] "x*y")).
  vm_compute. reflexivity.
Defined.

Example propagated_error_of_product :
  exists r,
    calculate_error_propagation Demo.small_sympy Demo.pow
      ["x"; "y"] [2%float; 3%float] [0.1%float; 0.2%float] "x*y" = Ok r /\
    r !! "propagated_error" = Some (VFloat 0.5%float).
Proof. eexists. split; vm_compute; reflexivity. Qed.

(** ** The confidence interval of fewer than two values *)

Lemma std_nan_below_two (data : list float) :
  (length data < 2)%nat -> F.is_nan (Np.std_ddof1 data) = true.
Proof.
  intros Hn. destruct data as [|x [|y data]]; cbn in Hn; [| |lia].
  - vm_compute. reflexivity.
  - apply std_single_value.
Qed.

(** X13: on fewer than two values [calculate_confidence_interval] raises
    nothing and returns NaN for the standard deviation and for both bounds,
    whatever the t quantile and the level: the NaN of the standard deviation
    passes through the division, the product and the sum. *)
Theorem confidence_interval_below_two_values
    (t_ppf : float -> Z -> float) (data : list float) (level : float) :
  (length data < 2)%nat ->
  exists (r : gmap string pyval) (std lower upper : float),
    calculate_confidence_interval t_ppf data level = Ok r /\
    r !! "std" = Some (VFloat std) /\
    r !! "lower" = Some (VFloat lower) /\
    r !! "upper" = Some (VFloat upper) /\
    F.is_nan std = true /\ F.is_nan lower = true /\ F.is_nan upper = true.
Proof.
  intros Hn. pose proof (std_nan_below_two data Hn) as Hstd.
  eexists _, _, _, _. split; [reflexivity|].
  do 3 (split; [by simplify_map_eq|]).
  split; [exact Hstd|].
  split.
  - apply FloatSign.nan_sub_r, FloatSign.nan_mul_r, FloatSign.nan_div_l, Hstd.
  - apply FloatSign.nan_add_r, FloatSign.nan_mul_r, FloatSign.nan_div_l, Hstd.
Qed.

Lemma confidence_interval_below_two_values_witness :
  exists (r : gmap string pyval) (std lower upper : float),
    calculate_confidence_interval Demo.t_ppf [7%float] 0.683%float = Ok r /\
    r !! "std" = Some (VFloat std) /\
    r !! "lower" = Some (VFloat lower) /\
    r !! "upper" = Some (VFloat upper) /\
    F.is_nan std = true /\ F.is_nan lower = true /\ F.is_nan upper = true.
Proof.
  apply (confidence_interval_below_two_values Demo.t_ppf [7%float] 0.683%float).
  cbn. lia.
Defined.

(** ** [handle_test_click] *)

(** *** Reading the comma-separated fields *)

Lemma split_at_nonempty (sep : ascii) (cur s : string) : split_at sep cur s <> [].
Proof.
  revert cur. induction s as [|c s IH]; intros cur; cbn [split_at]; [discriminate|].
  destruct (Ascii.eqb c sep); [discriminate | apply IH].
Qed.

Lemma floats_of_length (tokens : list string) (numbers : list float) :
  floats_of tokens = Some numbers -> length numbers = length tokens.
Proof.
  intros H. apply floats_of_Some in H. symmetry. exact (Forall2_length _ _ _ H).
Qed.

Lemma floats_of_fields_nonempty (text : string) (numbers : list float) :
  floats_of (map strip (split_comma text)) = Some numbers -> is_nil numbers = false.
Proof.
  intros H. apply floats_of_length in H. rewrite length_map in H.
  pose proof (split_at_nonempty "," "" text) as Hne. fold (split_comma text) in Hne.
  destruct numbers; [|reflexivity].
  destruct (split_comma text); [congruence | discriminate H].
Qed.

Lemma space_is_not_comma (c : ascii) : is_space c = true -> Ascii.eqb c "," = false.
Proof.
  intros Hc. destruct (Ascii.eqb_spec c ",") as [->|]; [discriminate Hc | reflexivity].
Qed.

Lemma count_char_app (c : ascii) (s t : string) :
  count_char c (s +:+ t) = (count_char c s + count_char c t)%nat.
Proof.
  induction s as [|x s IH]; [reflexivity|].
  rewrite append_cons. cbn [count_char]. rewrite IH. lia.
Qed.

Lemma count_comma_blank (s : string) : all_space s = true -> count_char "," s = 0%nat.
Proof.
  induction s as [|c s IH]; [reflexivity|]. cbn [all_space count_char].
  intros H. apply andb_true_iff in H as [Hc Hs].
  rewrite IH by exact Hs.
  apply space_is_not_comma in Hc. rewrite Ascii.eqb_sym in Hc. now rewrite Hc.
Qed.

Lemma split_at_piece (cur piece rest : string) :
  count_char "," piece = 0%nat ->
  split_at "," cur (piece +:+ String "," rest)
  = (cur +:+ piece) :: split_at "," "" rest.
Proof.
  revert cur. induction piece as [|c piece IH]; intros cur H.
  - rewrite append_nil, string_app_empty_r. reflexivity.
  - cbn [count_char] in H. rewrite append_cons. cbn [split_at].
    destruct (Ascii.eqb_spec "," c) as [E|E]; [discriminate H|].
    destruct (Ascii.eqb_spec c ",") as [E'|_]; [congruence|].
    rewrite IH by exact H. now rewrite string_app_assoc.
Qed.

Lemma split_at_last (cur piece : string) :
  count_char "," piece = 0%nat -> split_at "," cur piece = [cur +:+ piece].
Proof.
  revert cur. induction piece as [|c piece IH]; intros cur H.
  - now rewrite string_app_empty_r.
  - cbn [count_char] in H. cbn [split_at].
    destruct (Ascii.eqb_spec "," c) as [E|E]; [discriminate H|].
    destruct (Ascii.eqb_spec c ",") as [E'|_]; [congruence|].
    rewrite IH by exact H. now rewrite string_app_assoc.
Qed.

(** Pieces without a comma, joined by commas, split back into the pieces. *)
Lemma split_comma_join (pieces : list string) :
  pieces <> [] ->
  Forall (fun piece => count_char "," piece = 0%nat) pieces ->
  split_comma (String.concat "," pieces) = pieces.
Proof.
  unfold split_comma.
  induction pieces as [|p pieces IH]; [congruence|]. intros _ Hall.
  inversion Hall as [|? ? Hp Hrest]; subst.
  destruct pieces as [|q pieces].
  - cbn [String.concat]. now rewrite split_at_last.
  - change (String.concat "," (p :: q :: pieces))
      with (p +:+ String "," (String.concat "," (q :: pieces))).
    rewrite split_at_piece by exact Hp. rewrite append_nil. f_equal.
    apply IH; [discriminate | exact Hrest].
Qed.

Lemma lstrip_pad (pad s : string) :
  all_space pad = true -> lstrip (pad +:+ s) = lstrip s.
Proof.
  induction pad as [|c pad IH]; [reflexivity|]. cbn [all_space].
  intros H. apply andb_true_iff in H as [Hc Hs].
  rewrite append_cons. cbn [lstrip]. now rewrite Hc, IH.
Qed.

Lemma lstrip_blank (s : string) : all_space s = true -> lstrip s = "".
Proof.
  induction s as [|c s IH]; [reflexivity|]. cbn [all_space lstrip].
  intros H. apply andb_true_iff in H as [Hc Hs]. now rewrite Hc, IH.
Qed.

Lemma rstrip_blank (pad : string) : all_space pad = true -> rstrip pad = "".
Proof.
  induction pad as [|c pad IH]; [reflexivity|]. cbn [all_space rstrip].
  intros H. apply andb_true_iff in H as [Hc Hs]. now rewrite IH, Hc.
Qed.

Lemma rstrip_item (item pad : string) :
  all_space pad = true -> no_space item = true -> rstrip (item +:+ pad) = item.
Proof.
  intros Hpad. induction item as [|c item IH]; intros Hitem.
  - rewrite append_nil. now apply rstrip_blank.
  - cbn [no_space] in Hitem. apply andb_true_iff in Hitem as [Hc Hitem].
    apply negb_true_iff in Hc.
    rewrite append_cons. cbn [rstrip]. now rewrite Hc, IH.
Qed.

Lemma strip_padded (pad1 pad2 item : string) :
  all_space pad1 = true -> all_space pad2 = true -> no_space item = true ->
  strip (pad1 +:+ item +:+ pad2) = item.
Proof.
  intros H1 H2 Hitem. unfold strip. rewrite lstrip_pad by exact H1.
  destruct item as [|c item].
  - rewrite append_nil, lstrip_blank by exact H2. reflexivity.
  - assert (E : lstrip (String c item +:+ pad2) = String c item +:+ pad2).
    { rewrite append_cons. cbn [no_space lstrip] in *.
      apply andb_true_iff in Hitem as [Hc _]. apply negb_true_iff in Hc.
      now rewrite Hc. }
    rewrite E. now apply rstrip_item.
Qed.

Lemma split_at_blank (cur s : string) :
  all_space s = true -> split_at "," cur s = [cur +:+ s].
Proof. intros H. now apply split_at_last, count_comma_blank. Qed.

Lemma blank_field_is_no_number (text : string) :
  all_space text = true -> floats_of (map strip (split_comma text)) = None.
Proof.
  intros H. unfold split_comma. rewrite split_at_blank by exact H.
  cbn [map]. unfold strip. rewrite append_nil, lstrip_blank by exact H.
  reflexivity.
Qed.

(** X14: the handler's reading of a comma-separated field,
    [[x.strip() for x in value.split(",")]], gives back the items that were
    typed: items without whitespace and without a comma, each with its own
    whitespace before and after it, joined by commas, are read as
    themselves.  A field is given as the list of its (whitespace before,
    item, whitespace after). *)
Theorem comma_field_round_trip (fields : list (string * string * string)) :
  fields <> [] ->
  Forall (fun f => all_space f.1.1 = true /\ all_space f.2 = true /\
                   no_space f.1.2 = true /\ count_char "," f.1.2 = 0%nat)
         fields ->
  map strip
      (split_comma
         (String.concat "," (map (fun f => f.1.1 +:+ f.1.2 +:+ f.2) fields)))
  = map (fun f => f.1.2) fields.
Proof.
  intros Hne Hall.
  rewrite split_comma_join.
  - rewrite map_map.
    apply map_ext_Forall. eapply Forall_impl; [exact Hall|].
    intros [[pad1 item] pad2] (H1 & H2 & Hs & _). cbn [fst snd] in *.
    now apply strip_padded.
  - destruct fields; [congruence | discriminate].
  - apply Forall_map. eapply Forall_impl; [exact Hall|].
    intros [[pad1 item] pad2] (H1 & H2 & _ & Hc). cbn [fst snd] in *.
    rewrite !count_char_app, Hc, !count_comma_blank by assumption. reflexivity.
Qed.

Lemma comma_field_round_trip_witness :
  map strip (split_comma " x, y1,z ") = ["x"; "y1"; "z"].
Proof.
  apply (comma_field_round_trip [(" ", "x", ""); (" ", "y1", ""); ("", "z", " ")]).
  - discriminate.
  - repeat constructor.
Defined.

(** *** What the validators leave to the handler *)

Lemma validate_input_failure (text : string) (e : validation_error) :
  validate_input text = Invalid e -> e = EmptyInput \/ e = ParseError.
Proof.
  unfold validate_input. rewrite blank_iff_all_space.
  destruct (all_space text) eqn:Hblank; [intros [= <-]; now left|].
  destruct (floats_of (py_split text)) as [numbers|] eqn:Hfl;
    [|intros [= <-]; now right].
  destruct numbers as [|x numbers]; [|discriminate].
  apply floats_of_length in Hfl.
  assert (Hne : py_split text <> []) by (apply split_from_nonempty; now right).
  destruct (py_split text); [congruence | discriminate Hfl].
Qed.

Lemma validate_input_valid_nonempty (text : string) (numbers : list float) :
  validate_input text = Valid numbers -> (1 <= length numbers)%nat.
Proof.
  unfold validate_input.
  destruct (String.eqb text "" || isspace text); [discriminate|].
  destruct (floats_of (py_split text)) as [ns|]; [|discriminate].
  destruct ns; [discriminate|]. intros [= <-]. cbn. lia.
Qed.

Lemma missing_field_iff
    (variables : list string) (values errors : list float) (function_str : string) :
  validate_error_propagation_inputs variables values errors function_str
  = Invalid MissingField
  <-> (is_nil variables || is_nil values || is_nil errors
       || String.eqb function_str "") = true.
Proof.
  unfold validate_error_propagation_inputs.
  destruct (is_nil variables || is_nil values || is_nil errors
            || String.eqb function_str ""); [tauto|].
  split; [|discriminate].
  destruct (negb _); [discriminate|].
  destruct (first_invalid_name variables); [discriminate|].
  destruct (existsb _ errors); [discriminate|].
  destruct (negb _); [discriminate|].
  destruct (negb _); discriminate.
Qed.

(** *** The outcomes of the handler, kind by kind *)

Section HandlerFacts.

Variable sorted : list float -> list float.
Variable t_ppf : float -> Z -> float.
Variable sp : Sympy.library.
Variable pow : float -> float -> float.
Variable fmt_float : nat -> float -> string.
Variable fmt_int : nat -> Z -> string.
Variable str_of : pyval -> string.

Hypothesis sorted_perm : forall data, sorted data ≡ₚ data.

Local Abbreviation handle_test_click :=
  (handle_test_click sorted t_ppf sp pow fmt_float fmt_int str_of).
Local Abbreviation handle_test_click_try :=
  (handle_test_click_try sorted t_ppf sp pow fmt_float fmt_int str_of).
Local Abbreviation show_formatted := (show_formatted fmt_float fmt_int str_of).
Local Abbreviation format_results := (format_results fmt_float fmt_int str_of).

(** Once the analyzer is called, the handler shows a result or one of the
    two messages of its [except] clauses. *)
Lemma shown_after_analysis (m : py (gmap string pyval)) (test_type : string) :
  match (m ≫= fun results => show_formatted results test_type) with
  | Ok s => exists text, s = Result text
  | Raise _ => True
  end.
Proof.
  destruct m as [r|e]; [|exact I]. rewrite bind_Ok. unfold show_formatted.
  destruct (format_results r test_type) as [text|e]; [|exact I].
  rewrite bind_Ok. eauto.
Qed.

Lemma format_outlier_result (Q crit : float) :
  format_results (outlier_result Q crit) "qtest"
  = Ok ("Q検定結果:" +:+ nl
        +:+ "Q統計量 = " +:+ fmt_float 4 Q +:+ nl
        +:+ "棄却限界値 = " +:+ fmt_float 4 crit +:+ nl
        +:+ "判定: " +:+ (if PrimFloat.ltb crit Q then "外れ値あり" else "外れ値なし")).
Proof.
  destruct (outlier_result_lookup Q crit) as (HQ & Hc & Hflag).
  unfold format_results. cbn [String.eqb Ascii.eqb Bool.eqb].
  unfold getitem. rewrite HQ, Hc, Hflag. cbn.
  destruct (PrimFloat.ltb crit Q); reflexivity.
Qed.

(** X15: a kind other than the three the buttons send never reaches the
    analyzer and never shows a result.  This holds of "ttest", which the
    docstring lists: the handler shows the message of [validate_input] when
    the data is rejected, and "不正なテスト種別です。" ([InvalidOperation])
    otherwise. *)
Theorem handle_unknown_kind (f : form) (test_type : string) :
  test_type <> "error_propagation" ->
  test_type <> "confidence_interval" ->
  test_type <> "qtest" ->
  (forall e, validate_input (data_input f) = Invalid e ->
             handle_test_click f test_type = ValidationMessage e) /\
  (forall numbers, validate_input (data_input f) = Valid numbers ->
                   handle_test_click f test_type = ValidationMessage InvalidOperation) /\
  (handle_test_click f test_type = ValidationMessage EmptyInput \/
   handle_test_click f test_type = ValidationMessage ParseError \/
   handle_test_click f test_type = ValidationMessage InvalidOperation).
Proof.
  intros He Hc Hq.
  apply String.eqb_neq in He, Hc, Hq.
  unfold handle_test_click, handle_test_click_try, check_data_requirements.
  rewrite He, Hc, Hq. cbn [negb].
  destruct (validate_input (data_input f)) as [numbers|e] eqn:Hv.
  - split; [discriminate|]. split; [reflexivity | tauto].
  - split; [intros ? [= <-]; reflexivity|]. split; [discriminate|].
    destruct (validate_input_failure _ _ Hv) as [->| ->]; tauto.
Qed.

(** X16: the four ways a click on the Q-test button ends.  Rejected data
    shows the validator's message; fewer than three values show the
    sample-size message; three or more values whose sorted range is zero show
    the computation-error message for [ZeroDivisionError]; and every other
    sample shows the rendered result, with the statistic of the sorted sample
    and the critical value of the table. *)
Theorem handle_qtest (f : form) :
  match validate_input (data_input f) with
  | Invalid e => handle_test_click f "qtest" = ValidationMessage e
  | Valid numbers =>
      if (length numbers <? 3)%nat
      then handle_test_click f "qtest" = ValidationMessage InsufficientSampleSize
      else if zero_range sorted numbers
      then handle_test_click f "qtest" = ComputationErrorMessage ZeroDivisionError
      else
        exists crit : float,
          critical_value (length numbers) = Some crit /\
          handle_test_click f "qtest"
          = Result ("Q検定結果:" +:+ nl
                    +:+ "Q統計量 = "
                    +:+ fmt_float 4 (q_statistic (sorted numbers)) +:+ nl
                    +:+ "棄却限界値 = " +:+ fmt_float 4 crit +:+ nl
                    +:+ "判定: "
                    +:+ (if PrimFloat.ltb crit (q_statistic (sorted numbers))
                         then "外れ値あり" else "外れ値なし"))
  end.
Proof.
  unfold handle_test_click, handle_test_click_try, check_data_requirements.
  cbn [String.eqb Ascii.eqb Bool.eqb negb].
  destruct (validate_input (data_input f)) as [numbers|e]; [|reflexivity].
  destruct (Nat.ltb_spec (length numbers) 3) as [Hlt|Hge]; [reflexivity|].
  rewrite (perform_qtest_unfold sorted sorted_perm) by lia.
  destruct (zero_range sorted numbers); [reflexivity|].
  destruct (critical_value_defined (length numbers) Hge) as [crit Hcrit].
  exists crit. split; [exact Hcrit|].
  rewrite Hcrit, bind_Ok. unfold show_formatted.
  now rewrite format_outlier_result.
Qed.

(** X17: a click on the confidence-interval button shows the validator's
    message when the data is rejected and the rendered interval at level
    0.683 otherwise.  The handler's own sample-size message is never shown,
    as accepted data holds at least one number, and neither [except] clause
    is ever taken. *)
Theorem handle_confidence_interval (f : form) :
  handle_test_click f "confidence_interval"
  = match validate_input (data_input f) with
    | Invalid e => ValidationMessage e
    | Valid numbers =>
        let mean := Np.mean numbers in
        let std := Np.std_ddof1 numbers in
        let margin :=
          (t_ppf ((1 + 0.683) / 2) (Z.of_nat (length numbers) - 1)
           * (std / Np.sqrt (F.of_nat (length numbers))))%float in
        Result ("信頼区間の計算結果:" +:+ nl
                +:+ "平均値 = " +:+ fmt_float 4 mean +:+ nl
                +:+ "標準偏差 = " +:+ fmt_float 4 std +:+ nl
                +:+ fmt_float 1 (0.683 * 100)%float +:+ "%信頼区間:" +:+ nl
                +:+ "下限 = " +:+ fmt_float 4 (mean - margin)%float +:+ nl
                +:+ "上限 = " +:+ fmt_float 4 (mean + margin)%float)
    end /\
  handle_test_click f "confidence_interval"
  <> ValidationMessage InsufficientSampleSize.
Proof.
  assert (H : forall numbers,
             validate_input (data_input f) = Valid numbers ->
             (length numbers <? 1)%nat = false).
  { intros numbers Hv. apply validate_input_valid_nonempty in Hv.
    apply Nat.ltb_ge. exact Hv. }
  unfold handle_test_click, handle_test_click_try.
  cbn [String.eqb Ascii.eqb Bool.eqb negb].
  destruct (validate_input (data_input f)) as [numbers|e] eqn:Hv.
  - rewrite (H numbers eq_refl).
    unfold calculate_confidence_interval. rewrite bind_Ok.
    unfold show_formatted, format_results. cbn [String.eqb Ascii.eqb Bool.eqb].
    unfold getitem. simplify_map_eq. cbn. split; [reflexivity | discriminate].
  - split; [reflexivity|].
    destruct (validate_input_failure _ _ Hv) as [->| ->]; discriminate.
Qed.

(** X18: how a click on the error-propagation button treats its fields.
    The number-format message is shown exactly when an item of the value
    field or of the uncertainty field is not a number, which includes a
    blank field.  A field split at commas is never an empty list, so the
    "fill in all fields" message ([MissingField]) is shown exactly when the
    numbers are read and the function field is blank: a blank variable field
    never causes it. *)
Theorem handle_error_propagation_entry (f : form) :
  (handle_test_click f "error_propagation" = NumberFormatMessage
   <-> floats_of (map strip (split_comma (value_input f))) = None \/
       floats_of (map strip (split_comma (error_input f))) = None) /\
  (handle_test_click f "error_propagation" = ValidationMessage MissingField
   <-> is_Some (floats_of (map strip (split_comma (value_input f)))) /\
       is_Some (floats_of (map strip (split_comma (error_input f)))) /\
       strip (function_input f) = "") /\
  (all_space (value_input f) = true \/ all_space (error_input f) = true ->
   handle_test_click f "error_propagation" = NumberFormatMessage).
Proof.
  set (values := floats_of (map strip (split_comma (value_input f)))).
  set (errors := floats_of (map strip (split_comma (error_input f)))).
  assert (Hnum : handle_test_click f "error_propagation" = NumberFormatMessage
                 <-> values = None \/ errors = None).
  { unfold handle_test_click, handle_test_click_try.
    cbn [String.eqb Ascii.eqb Bool.eqb]. fold values errors.
    destruct values as [vs|]; [|tauto].
    destruct errors as [es|]; [|tauto].
    destruct (validate_error_propagation_inputs _ vs es _).
    - pose proof (shown_after_analysis
                    (calculate_error_propagation
                       sp pow (map strip (split_comma (variable_input f))) vs es
                       (strip (function_input f)))
                    "error_propagation") as Hs.
      destruct (_ ≫= _) as [s|e].
      + destruct Hs as [text ->]. split; [discriminate | intros [|]; discriminate].
      + destruct (is_value_error e); split; try discriminate; intros [|]; discriminate.
    - split; [discriminate | intros [|]; discriminate]. }
  split; [exact Hnum|]. split.
  - unfold handle_test_click, handle_test_click_try.
    cbn [String.eqb Ascii.eqb Bool.eqb]. fold values errors.
    destruct values as [vs|] eqn:Hvs;
      [|split; [discriminate | intros [[? [=]] _]]].
    destruct errors as [es|] eqn:Hes;
      [|split; [discriminate | intros (_ & [? [=]] & _)]].
    pose proof (missing_field_iff (map strip (split_comma (variable_input f)))
                  vs es (strip (function_input f))) as Hmf.
    assert (Hnil : is_nil (map strip (split_comma (variable_input f))) = false).
    { pose proof (split_at_nonempty "," "" (variable_input f)) as Hne.
      fold (split_comma (variable_input f)) in Hne.
      destruct (split_comma (variable_input f)); [congruence | reflexivity]. }
    rewrite Hnil, (floats_of_fields_nonempty _ _ Hvs),
      (floats_of_fields_nonempty _ _ Hes) in Hmf.
    cbn [orb] in Hmf. rewrite String.eqb_eq in Hmf.
    destruct (validate_error_propagation_inputs _ vs es _) as [[]|e].
    + pose proof (shown_after_analysis
                    (calculate_error_propagation
                       sp pow (map strip (split_comma (variable_input f))) vs es
                       (strip (function_input f)))
                    "error_propagation") as Hs.
      split.
      * destruct (_ ≫= _) as [s|e]; [destruct Hs as [text ->]; discriminate|].
        destruct (is_value_error e); discriminate.
      * intros (_ & _ & Hblank). apply Hmf in Hblank. discriminate Hblank.
    + split.
      * intros [= ->]. split; [eauto|]. split; [eauto|]. now apply Hmf.
      * intros (_ & _ & Hblank). apply Hmf in Hblank. now injection Hblank as ->.
  - intros Hblank. apply Hnum.
    destruct Hblank as [H|H]; [left | right]; now apply blank_field_is_no_number.
Qed.

End HandlerFacts.

(** ** The further properties on sample inputs *)

Lemma format_results_of_qtest_witness :
  exists Q crit : float,
    Demo.unwrap ∅ (perform_qtest py_sorted
                     [1%float; 2%float; 3%float; 10%float] 0.95%float)
      !! "q_statistic" = Some (VFloat Q) /\
    Demo.unwrap ∅ (perform_qtest py_sorted
                     [1%float; 2%float; 3%float; 10%float] 0.95%float)
      !! "q_critical" = Some (VFloat crit) /\
    format_results Demo.fmt_float Demo.fmt_int Demo.str_of
      (Demo.unwrap ∅ (perform_qtest py_sorted
                        [1%float; 2%float; 3%float; 10%float] 0.95%float))
      "qtest"
    = Ok ("Q検定結果:" +:+ nl
          +:+ "Q統計量 = " +:+ Demo.fmt_float 4 Q +:+ nl
          +:+ "棄却限界値 = " +:+ Demo.fmt_float 4 crit +:+ nl
          +:+ "判定: " +:+ (if PrimFloat.ltb crit Q then "外れ値あり" else "外れ値なし")).
Proof.
  apply (format_results_of_qtest py_sorted Demo.fmt_float Demo.fmt_int Demo.str_of
           [1%float; 2%float; 3%float; 10%float] 0.95%float).
  vm_compute. reflexivity.
Defined.

Lemma format_results_of_error_propagation_witness :
  exists (func : Sympy.expr Demo.small_sympy)
         (partials : list (Sympy.expr Demo.small_sympy))
         (value error relative : float),
    Sympy.sympify Demo.small_sympy "x*y" = Ok func /\
    Forall2 (fun p d => Sympy.diff Demo.small_sympy func p.1 = Ok d)
            (zip ["x"; "y"] [0.1%float; 0.2%float]) partials /\
    Demo.unwrap ∅ (calculate_error_propagation Demo.small_sympy Demo.pow
                     ["x"; "y"] [2%float; 3%float] [0.1%float; 0.2%float] "x*y")
      !! "function_value" = Some (VFloat value) /\
    Demo.unwrap ∅ (calculate_error_propagation Demo.small_sympy Demo.pow
                     ["x"; "y"] [2%float; 3%float] [0.1%float; 0.2%float] "x*y")
      !! "propagated_error" = Some (VFloat error) /\
    Demo.unwrap ∅ (calculate_error_propagation Demo.small_sympy Demo.pow
                     ["x"; "y"] [2%float; 3%float] [0.1%float; 0.2%float] "x*y")
      !! "relative_error" = Some (VFloat relative) /\
    format_results Demo.fmt_float Demo.fmt_int Demo.str_of
      (Demo.unwrap ∅ (calculate_error_propagation Demo.small_sympy Demo.pow
                        ["x"; "y"] [2%float; 3%float] [0.1%float; 0.2%float] "x*y"))
      "error_propagation"
    = Ok ("誤差伝播の計算結果:" +:+ nl
          +:+ "元の関数: " +:+ Demo.str_of (VStr (Sympy.sstr Demo.small_sympy func))
          +:+ nl +:+ nl
          +:+ "偏微分:" +:+ nl
          +:+ String.concat nl
                (zip_with (fun p d => "diff f /diff " +:+ p.1 +:+ " = "
                                      +:+ Sympy.sstr Demo.small_sympy d)
                          (zip ["x"; "y"] [0.1%float; 0.2%float]) partials)
          +:+ nl +:+ nl
          +:+ "関数値 = " +:+ Demo.fmt_float 6 value +:+ nl
          +:+ "伝播誤差 = " +:+ Demo.fmt_float 6 error +:+ nl
          +:+ "相対誤差 = " +:+ Demo.fmt_float 2 relative +:+ "%").
Proof.
  apply (format_results_of_error_propagation
           Demo.small_sympy Demo.pow Demo.fmt_float Demo.fmt_int Demo.str_of
           ["x"; "y"] [2%float; 3%float] [0.1%float; 0.2%float] "x*y").
  vm_compute. reflexivity.
Defined.

Lemma validated_identifiers_are_bound_witness :
  "y" ∈ ["x"; "y"] /\
  is_Some (make_var_dict ["x"; "y"] [2%float; 3%float] !! "y").
Proof.
  apply (validated_identifiers_are_bound
           ["x"; "y"] [2%float; 3%float] [0.1%float; 0.2%float] "x*y").
  - vm_compute. reflexivity.
  - vm_compute. repeat constructor.
Defined.

Lemma handle_unknown_kind_witness :
  (forall e, validate_input (data_input (data_form "1 2 3")) = Invalid e ->
             handle_test_click py_sorted Demo.t_ppf Demo.small_sympy Demo.pow
               Demo.fmt_float Demo.fmt_int Demo.str_of (data_form "1 2 3") "ttest"
             = ValidationMessage e) /\
  (forall numbers, validate_input (data_input (data_form "1 2 3")) = Valid numbers ->
                   handle_test_click py_sorted Demo.t_ppf Demo.small_sympy Demo.pow
                     Demo.fmt_float Demo.fmt_int Demo.str_of (data_form "1 2 3") "ttest"
                   = ValidationMessage InvalidOperation) /\
  (handle_test_click py_sorted Demo.t_ppf Demo.small_sympy Demo.pow
     Demo.fmt_float Demo.fmt_int Demo.str_of (data_form "1 2 3") "ttest"
   = ValidationMessage EmptyInput \/
   handle_test_click py_sorted Demo.t_ppf Demo.small_sympy Demo.pow
     Demo.fmt_float Demo.fmt_int Demo.str_of (data_form "1 2 3") "ttest"
   = ValidationMessage ParseError \/
   handle_test_click py_sorted Demo.t_ppf Demo.small_sympy Demo.pow
     Demo.fmt_float Demo.fmt_int Demo.str_of (data_form "1 2 3") "ttest"
   = ValidationMessage InvalidOperation).
Proof.
  apply (handle_unknown_kind py_sorted Demo.t_ppf Demo.small_sympy Demo.pow
           Demo.fmt_float Demo.fmt_int Demo.str_of (data_form "1 2 3") "ttest");
    discriminate.
Defined.

Lemma handle_qtest_witness :
  exists crit : float,
    critical_value (length [1%float; 2%float; 3%float; 10%float]) = Some crit /\
    handle_test_click py_sorted Demo.t_ppf Demo.small_sympy Demo.pow
      Demo.fmt_float Demo.fmt_int Demo.str_of (data_form "1 2 3 10") "qtest"
    = Result ("Q検定結果:" +:+ nl
              +:+ "Q統計量 = "
              +:+ Demo.fmt_float 4
                    (q_statistic (py_sorted [1%float; 2%float; 3%float; 10%float]))
              +:+ nl
              +:+ "棄却限界値 = " +:+ Demo.fmt_float 4 crit +:+ nl
              +:+ "判定: "
              +:+ (if PrimFloat.ltb crit
                        (q_statistic (py_sorted [1%float; 2%float; 3%float; 10%float]))
                   then "外れ値あり" else "外れ値なし")).
Proof.
  exact (handle_qtest py_sorted Demo.t_ppf Demo.small_sympy Demo.pow
           Demo.fmt_float Demo.fmt_int Demo.str_of py_sorted_perm
           (data_form "1 2 3 10")).
Defined.

Example ttest_kind_is_rejected :
  handle_test_click py_sorted Demo.t_ppf Demo.small_sympy Demo.pow
    Demo.fmt_float Demo.fmt_int Demo.str_of (data_form "1 2 3 4") "ttest"
  = ValidationMessage InvalidOperation.
Proof. vm_compute. reflexivity. Qed.

Example equal_values_end_in_computation_error :
  handle_test_click py_sorted Demo.t_ppf Demo.small_sympy Demo.pow
    Demo.fmt_float Demo.fmt_int Demo.str_of (data_form "1 1 1") "qtest"
  = ComputationErrorMessage ZeroDivisionError.
Proof. vm_compute. reflexivity. Qed.

(** ** [show_result] *)

Lemma split_colon_nonempty (cur s : string) : split_colon cur s <> [].
Proof.
  revert cur.
  enough (H : (forall cur, split_colon cur s <> []) /\
              (forall c cur, split_colon cur (String c s) <> [])) by apply H.
  induction s as [|c2 s [IH1 IH2]].
  - split; intros; discriminate.
  - split; [apply IH2|]. intros c cur.
    change (split_colon cur (String c (String c2 s)))
      with (if Ascii.eqb c ":" && Ascii.eqb c2 " " then cur :: split_colon "" s
            else split_colon (cur +:+ String c "") (String c2 s)).
    destruct (_ && _); [discriminate | apply IH2].
Qed.

Lemma concat_cons (sep x : string) (l : list string) :
  l <> [] -> String.concat sep (x :: l) = x +:+ sep +:+ String.concat sep l.
Proof. destruct l; [congruence | reflexivity]. Qed.

(** The pieces joined by the separator give back the text. *)
Lemma split_colon_join (cur s : string) :
  String.concat ": " (split_colon cur s) = cur +:+ s.
Proof.
  revert cur.
  enough (H : (forall cur, String.concat ": " (split_colon cur s) = cur +:+ s) /\
              (forall c cur, String.concat ": " (split_colon cur (String c s))
                             = cur +:+ String c s)) by apply H.
  induction s as [|c2 s [IH1 IH2]].
  - split; intros; cbn [split_colon String.concat].
    + now rewrite string_app_empty_r.
    + reflexivity.
  - split; [apply IH2|]. intros c cur.
    change (split_colon cur (String c (String c2 s)))
      with (if Ascii.eqb c ":" && Ascii.eqb c2 " " then cur :: split_colon "" s
            else split_colon (cur +:+ String c "") (String c2 s)).
    destruct (Ascii.eqb_spec c ":") as [->|_];
      [destruct (Ascii.eqb_spec c2 " ") as [->|_]|]; cbn [andb].
    + rewrite concat_cons by apply split_colon_nonempty.
      rewrite IH1. reflexivity.
    + rewrite IH2. now rewrite string_app_assoc.
    + rewrite IH2. now rewrite string_app_assoc.
Qed.

(** X19: [show_result] keeps a prefix of the message.  It displays the
    whole message exactly when the message holds at most one ": "; from a
    second ": " on, the rest of the message is not displayed. *)
Theorem show_result_keeps_prefix (message : string) :
  exists rest : string,
    message = displayed (show_result message) +:+ rest /\
    (rest = "" <-> (length (split_colon "" message) <= 2)%nat) /\
    (forall part0 part1 part2 parts,
        split_colon "" message = part0 :: part1 :: part2 :: parts ->
        displayed (show_result message) = part0 +:+ ": " +:+ part1 /\
        rest = ": " +:+ String.concat ": " (part2 :: parts)).
Proof.
  pose proof (split_colon_join "" message) as Hjoin. rewrite append_nil in Hjoin.
  unfold show_result.
  destruct (split_colon "" message) as [|part0 [|part1 [|part2 parts]]] eqn:Hparts.
  - exists "". cbn [displayed]. rewrite string_app_empty_r.
    split; [reflexivity|]. split; [cbn; split; [lia | reflexivity] | discriminate].
  - exists "". cbn [displayed]. rewrite string_app_empty_r.
    split; [reflexivity|]. split; [cbn; split; [lia | reflexivity] | discriminate].
  - exists "". cbn [displayed]. rewrite string_app_empty_r.
    split; [|split; [cbn; split; [lia | reflexivity] | discriminate]].
    rewrite <- Hjoin. cbn [String.concat]. now rewrite string_app_assoc.
  - exists (": " +:+ String.concat ": " (part2 :: parts)). cbn [displayed].
    split; [|split].
    + rewrite <- Hjoin. rewrite !concat_cons by discriminate.
      now rewrite !string_app_assoc.
    + cbn [length]. split; [discriminate | lia].
    + intros ? ? ? ? [= <- <- <- <-]. split; [|reflexivity].
      now rewrite string_app_assoc.
Qed.

(** ** [validate_input] and the layout of the text *)

Lemma blank_iff_no_token (text : string) :
  all_space text = true <-> py_split text = [].
Proof.
  split; [apply py_split_blank|].
  intros H. destruct (all_space text) eqn:E; [reflexivity|].
  exfalso. revert H. apply split_from_nonempty. now right.
Qed.

(** X20: the verdict of [validate_input] depends only on the tokens of the
    text: two texts with the same whitespace-separated tokens, however they
    are laid out over spaces and lines, are accepted with the same numbers or
    rejected with the same message. *)
Theorem validate_input_by_tokens (text1 text2 : string) :
  py_split text1 = py_split text2 ->
  validate_input text1 = validate_input text2.
Proof.
  intros H. unfold validate_input. rewrite !blank_iff_all_space, <- H.
  destruct (all_space text1) eqn:E1, (all_space text2) eqn:E2; try reflexivity.
  - apply blank_iff_no_token in E1. rewrite H in E1.
    apply blank_iff_no_token in E1. congruence.
  - apply blank_iff_no_token in E2. rewrite <- H in E2.
    apply blank_iff_no_token in E2. congruence.
Qed.

Lemma validate_input_by_tokens_witness :
  validate_input ("1 2.5" +:+ nl +:+ "3")
  = validate_input ("  1" +:+ nl +:+ nl +:+ "2.5 3 ").
Proof.
  apply (validate_input_by_tokens ("1 2.5" +:+ nl +:+ "3")
           ("  1" +:+ nl +:+ nl +:+ "2.5 3 ")).
  vm_compute. reflexivity.
Defined.

(** ** The sign of the Q statistic *)

Lemma critical_value_positive (n : nat) (crit : float) :
  critical_value n = Some crit -> PrimFloat.ltb F.zero crit = true.
Proof.
  unfold critical_value. generalize (Nat.min n 10). intros m.
  do 11 (destruct m as [|m]; [try discriminate; intros [= <-]; reflexivity|]).
  discriminate.
Qed.

Lemma sign_clear_max (a b : float) :
  sign_clear a -> sign_clear b -> sign_clear (F.py_max a b).
Proof. intros Ha Hb. unfold F.py_max. now destruct (F.gtb b a). Qed.

Lemma py_div_sign_clear (a b q : float) :
  F.py_div (PrimFloat.abs a) (PrimFloat.abs b) = Ok q -> sign_clear q.
Proof.
  unfold F.py_div. destruct (PrimFloat.eqb _ F.zero); [discriminate|].
  intros [= <-]. apply FloatSign.sign_clear_div; apply FloatSign.sign_clear_abs.
Qed.

(** X21: whatever [perform_qtest] returns, the statistic is NaN or carries
    no minus sign, so it never compares below zero: it is the larger of two
    quotients of absolute values.  The critical value returned is positive. *)
Theorem qtest_statistic_not_negative
    (sorted : list float -> list float) (data : list float) (cl : float)
    (r : gmap string pyval) :
  perform_qtest sorted data cl = Ok r ->
  exists Q crit : float,
    r !! "q_statistic" = Some (VFloat Q) /\
    r !! "q_critical" = Some (VFloat crit) /\
    sign_clear Q /\
    PrimFloat.ltb Q F.zero = false /\
    PrimFloat.ltb F.zero crit = true.
Proof.
  unfold perform_qtest. cbv zeta. intros H.
  do 6 py_inv H.
  destruct (q_critical_values !! _) as [crit|] eqn:Hcrit; [|discriminate H].
  injection H as <-.
  eexists _, crit.
  split; [by simplify_map_eq|]. split; [by simplify_map_eq|].
  assert (HQ : sign_clear (F.py_max a2 a4)).
  { apply sign_clear_max; eapply py_div_sign_clear; eassumption. }
  split; [exact HQ|].
  split; [now apply FloatSign.sign_clear_not_below_zero|].
  rewrite q_critical_lookup in Hcrit. now apply critical_value_positive in Hcrit.
Qed.

Lemma qtest_statistic_not_negative_witness :
  exists Q crit : float,
    Demo.unwrap ∅ (perform_qtest py_sorted
                     [1%float; 2%float; 3%float; 10%float] 0.95%float)
      !! "q_statistic" = Some (VFloat Q) /\
    Demo.unwrap ∅ (perform_qtest py_sorted
                     [1%float; 2%float; 3%float; 10%float] 0.95%float)
      !! "q_critical" = Some (VFloat crit) /\
    sign_clear Q /\
    PrimFloat.ltb Q F.zero = false /\
    PrimFloat.ltb F.zero crit = true.
Proof.
  apply (qtest_statistic_not_negative py_sorted
           [1%float; 2%float; 3%float; 10%float] 0.95%float).
  vm_compute. reflexivity.
Defined.
